(** * Soil-moisture anomaly pipeline: a shallow embedding and its properties

    The development follows the TypeScript sources of the analytical core:

    - [lib/dataGenerator.ts]    : [generateSoilData], [createWindows],
                                  [normalizeWindows], [parseCSV]
    - [lib/autoencoderModel.ts] : [trainAutoencoder]
    - [lib/anomalyDetection.ts] : [detectAnomalies], [computeMetrics]
    - [lib/insights.ts]         : [generateInsights]
    - [pages/Index.tsx]         : [handleTrain]

    JavaScript numbers are modelled by the type [JS.num]: a finite value is an
    exact rational kept in lowest terms, next to [+Infinity], [-Infinity] and
    [NaN].  The special values follow IEEE-754; the rounding error of double
    arithmetic and the sign of zero are not modelled.  Integer-valued numbers
    that the code uses as lengths, indices and counters are [Z] or [nat]. *)

From Stdlib Require Import String Ascii DecimalString.
From Stdlib Require Import QArith Qabs Qround Qreduction ZArith List Bool.
From Stdlib Require Import Lia Lqa Permutation Sorted.
Import ListNotations.

Set Implicit Arguments.

(* ================================================================== *)
(** * Part I: the embedding                                            *)
(* ================================================================== *)

(** ** JavaScript numbers *)

Module JS.

Inductive num : Type :=
| Fin (q : Q)
| PInf
| NInf
| NaN.

Definition of_Z (z : Z) : num := Fin (inject_Z z).
Definition of_nat (n : nat) : num := of_Z (Z.of_nat n).

Definition Qltb (a b : Q) : bool := negb (Qle_bool b a).

(** Sign of a number, as a comparison with zero ([Eq] also stands for [NaN]). *)
Definition sgn (x : num) : comparison :=
  match x with
  | Fin q => q ?= 0
  | PInf => Gt
  | NInf => Lt
  | NaN => Eq
  end.

Definition inf_of (c : comparison) : num :=
  match c with
  | Gt => PInf
  | Lt => NInf
  | Eq => NaN
  end.

Definition mul_sign (a b : comparison) : comparison :=
  match a, b with
  | Eq, _ | _, Eq => Eq
  | Lt, Lt | Gt, Gt => Gt
  | _, _ => Lt
  end.

Definition neg (x : num) : num :=
  match x with
  | Fin q => Fin (Qred (- q))
  | PInf => NInf
  | NInf => PInf
  | NaN => NaN
  end.

Definition add (x y : num) : num :=
  match x, y with
  | NaN, _ | _, NaN => NaN
  | Fin a, Fin b => Fin (Qred (a + b))
  | PInf, NInf | NInf, PInf => NaN
  | PInf, _ | _, PInf => PInf
  | NInf, _ | _, NInf => NInf
  end.

Definition sub (x y : num) : num :=
  match x, y with
  | NaN, _ | _, NaN => NaN
  | Fin a, Fin b => Fin (Qred (a - b))
  | PInf, PInf | NInf, NInf => NaN
  | PInf, _ | _, NInf => PInf
  | NInf, _ | _, PInf => NInf
  end.

Definition mul (x y : num) : num :=
  match x, y with
  | NaN, _ | _, NaN => NaN
  | Fin a, Fin b => Fin (Qred (a * b))
  | _, _ => inf_of (mul_sign (sgn x) (sgn y))
  end.

(** Division; a zero divisor is taken as [+0]. *)
Definition div (x y : num) : num :=
  match x, y with
  | NaN, _ | _, NaN => NaN
  | Fin a, Fin b =>
      if Qeq_bool b 0 then inf_of (a ?= 0) else Fin (Qred (a / b))
  | Fin _, _ => Fin 0
  | _, Fin b => inf_of (mul_sign (sgn x) (if Qeq_bool b 0 then Gt else sgn y))
  | _, _ => NaN
  end.

(** [x < y]; every comparison with [NaN] is false. *)
Definition lt (x y : num) : bool :=
  match x, y with
  | NaN, _ | _, NaN => false
  | Fin a, Fin b => Qltb a b
  | NInf, NInf | PInf, _ | _, NInf => false
  | _, _ => true
  end.

Definition gt (x y : num) : bool := lt y x.

(** [Math.abs] *)
Definition abs (x : num) : num :=
  match x with
  | Fin q => Fin (Qred (Qabs q))
  | PInf | NInf => PInf
  | NaN => NaN
  end.

(** [Math.min(x, y)] and [Math.max(x, y)]: [NaN] as soon as an argument is. *)
Definition min2 (x y : num) : num :=
  match x, y with
  | NaN, _ | _, NaN => NaN
  | _, _ => if lt y x then y else x
  end.

Definition max2 (x y : num) : num :=
  match x, y with
  | NaN, _ | _, NaN => NaN
  | _, _ => if lt x y then y else x
  end.

(** [Math.min(...l)] and [Math.max(...l)]; without arguments they are
    [+Infinity] and [-Infinity]. *)
Definition min_of (l : list num) : num := fold_left min2 l PInf.
Definition max_of (l : list num) : num := fold_left max2 l NInf.

(** [Math.floor] and [Math.round] (halves go up). *)
Definition floor (x : num) : num :=
  match x with
  | Fin q => Fin (inject_Z (Qfloor q))
  | _ => x
  end.

Definition round (x : num) : num :=
  match x with
  | Fin q => Fin (inject_Z (Qfloor (q + (1 # 2))))
  | _ => x
  end.

(** Truthiness of a number: [0] and [NaN] are falsy. *)
Definition truthy (x : num) : bool :=
  match x with
  | Fin q => negb (Qeq_bool q 0)
  | PInf | NInf => true
  | NaN => false
  end.

(** [x || y] on numbers. *)
Definition or_else (x y : num) : num := if truthy x then x else y.

Definition isNaN (x : num) : bool :=
  match x with
  | NaN => true
  | _ => false
  end.

(** [parseFloat(x.toFixed(d))]: the nearest multiple of [10^-d], a tie going
    away from zero; the special values print and parse back as themselves. *)
Definition round_to (d : nat) (x : num) : num :=
  match x with
  | Fin q =>
      let scale := inject_Z (10 ^ Z.of_nat d) in
      let n := Qfloor (Qabs q * scale + (1 # 2)) in
      let r := inject_Z n / scale in
      Fin (Qred (if Qltb q 0 then - r else r))
  | _ => x
  end.

(** Equality of [Set] members (SameValueZero): [NaN] is equal to itself. *)
Definition same (x y : num) : bool :=
  match x, y with
  | Fin a, Fin b => Qeq_bool a b
  | PInf, PInf | NInf, NInf | NaN, NaN => true
  | _, _ => false
  end.

(** Finite values and the interval [[lo, hi]]. *)
Definition finite (x : num) : Prop :=
  match x with
  | Fin _ => True
  | _ => False
  end.

Definition within (lo hi : Q) (x : num) : Prop :=
  match x with
  | Fin q => lo <= q /\ q <= hi
  | _ => False
  end.

End JS.

(** ** Arrays and loops *)

Module Arr.

(** [l.slice(start, stop)]: negative positions count from the end, and both
    are clamped to the array. *)
Definition slice {A : Type} (l : list A) (start stop : Z) : list A :=
  let len := Z.of_nat (length l) in
  let k := if (start <? 0)%Z then Z.max (len + start) 0 else Z.min start len in
  let e := if (stop <? 0)%Z then Z.max (len + stop) 0 else Z.min stop len in
  firstn (Z.to_nat (e - k)) (skipn (Z.to_nat k) l).

(** [l.slice(start)] *)
Definition slice_from {A : Type} (l : list A) (start : Z) : list A :=
  slice l start (Z.of_nat (length l)).

(** [l[i]], [None] standing for [undefined]. *)
Definition get {A : Type} (l : list A) (i : Z) : option A :=
  if (i <? 0)%Z then None else nth_error l (Z.to_nat i).

(** [for (let i = start; <n more rounds>; i++) s = body(i, s)] *)
Fixpoint for_range {S : Type} (i : Z) (n : nat) (body : Z -> S -> S) (s : S) : S :=
  match n with
  | O => s
  | S n' => for_range (i + 1) n' body (body i s)
  end.

(** [l.map((x, i) => f(x, i))], the index starting from [i]. *)
Fixpoint mapi_from {A B : Type} (f : A -> Z -> B) (i : Z) (l : list A) : list B :=
  match l with
  | [] => []
  | x :: l' => f x i :: mapi_from f (i + 1) l'
  end.

Definition mapi {A B : Type} (f : A -> Z -> B) (l : list A) : list B :=
  mapi_from f 0 l.

(** [l.forEach((x, i) => ...)] on a state [s], the index starting from [i]. *)
Fixpoint forEach_from {A S : Type} (f : A -> Z -> S -> S) (i : Z) (l : list A) (s : S) : S :=
  match l with
  | [] => s
  | x :: l' => forEach_from f (i + 1) l' (f x i s)
  end.

Definition forEach {A S : Type} (f : A -> Z -> S -> S) (l : list A) (s : S) : S :=
  forEach_from f 0 l s.

(** [l.sort(cmp)].  The language leaves the algorithm open but requires the
    sort to be stable; a stable insertion sort stands for it: an element goes
    before the first later element that [cmp] does not put in front of it. *)
Fixpoint insert {A : Type} (cmp : A -> A -> Z) (x : A) (l : list A) : list A :=
  match l with
  | [] => [x]
  | y :: l' => if (cmp x y <=? 0)%Z then x :: l else y :: insert cmp x l'
  end.

Fixpoint sort {A : Type} (cmp : A -> A -> Z) (l : list A) : list A :=
  match l with
  | [] => []
  | x :: l' => insert cmp x (sort cmp l')
  end.

End Arr.

(** ** Strings *)

Module Str.

Local Open Scope string_scope.

(** White space and line terminators, among the characters below 256. *)
Definition is_space (c : ascii) : bool :=
  let n := nat_of_ascii c in
  ((9 <=? n) && (n <=? 13) || (n =? 32) || (n =? 160))%nat.

Fixpoint trim_start (s : string) : string :=
  match s with
  | String c s' => if is_space c then trim_start s' else s
  | EmptyString => s
  end.

Fixpoint rev_append (s acc : string) : string :=
  match s with
  | String c s' => rev_append s' (String c acc)
  | EmptyString => acc
  end.

Definition rev (s : string) : string := rev_append s "".

(** [s.trim()] *)
Definition trim (s : string) : string := rev (trim_start (rev (trim_start s))).

(** [s.split(c)] for a separator of one character: never an empty array. *)
Fixpoint split (c : ascii) (s : string) : list string :=
  match s with
  | EmptyString => [""]
  | String a s' =>
      if Ascii.eqb a c then "" :: split c s'
      else match split c s' with
           | h :: t => String a h :: t
           | [] => [String a ""]
           end
  end.

Definition lower (c : ascii) : ascii :=
  let n := nat_of_ascii c in
  if ((65 <=? n) && (n <=? 90))%nat then ascii_of_nat (n + 32) else c.

(** [s.toLowerCase()], on the letters A to Z. *)
Fixpoint toLowerCase (s : string) : string :=
  match s with
  | String c s' => String (lower c) (toLowerCase s')
  | EmptyString => s
  end.

(** [s.includes(p)] *)
Fixpoint includes (p s : string) : bool :=
  prefix p s ||
  match s with
  | String _ s' => includes p s'
  | EmptyString => false
  end.

(** An integer inside a template literal. *)
Definition of_Z (z : Z) : string := NilZero.string_of_int (Z.to_int z).

End Str.

(** ** lib/dataGenerator.ts *)

Module DataGenerator.

Record SoilDataPoint : Type := {
  timestamp : JS.num;
  moisture : JS.num;
  isAnomaly : bool
}.

(** *** The random source

    [Math.random()] is the only effect of the generator.  The source is the
    sequence [rand 0, rand 1, ...] of the values it returns, and a computation
    carries the number of values drawn so far. *)

Definition Rand (A : Type) : Type := nat -> A * nat.

Definition ret {A : Type} (a : A) : Rand A := fun k => (a, k).

Definition bind {A B : Type} (m : Rand A) (f : A -> Rand B) : Rand B :=
  fun k => let (a, k') := m k in f a k'.

Notation "x <- m ;; f" := (bind m (fun x => f))
  (at level 61, m at next level, right associativity).

(** [for (let i = start; <n more rounds>; i++) s = body(i, s)], drawing. *)
Fixpoint for_rand {S : Type} (i : Z) (n : nat) (body : Z -> S -> Rand S) (s : S)
  : Rand S :=
  match n with
  | O => ret s
  | S n' => s' <- body i s ;; for_rand (i + 1) n' body s'
  end.

(** [while (cond(s)) s = body(s)] with at most [fuel] rounds; [None] when the
    condition still holds after them. *)
Fixpoint while_rand {S : Type} (fuel : nat) (cond : S -> bool)
  (body : S -> Rand S) (s : S) : Rand (option S) :=
  match fuel with
  | O => ret (if cond s then None else Some s)
  | S fuel' =>
      if cond s then s' <- body s ;; while_rand fuel' cond body s'
      else ret (Some s)
  end.

(** A [Set<number>], in insertion order. *)
Definition set_has (s : list JS.num) (x : JS.num) : bool := existsb (JS.same x) s.
Definition set_add (s : list JS.num) (x : JS.num) : list JS.num :=
  if set_has s x then s else s ++ [x].

Section Generator.

(** [Math.sin] on finite arguments, and the values of [Math.random()]. *)
Variable sin : Q -> Q.
Variable rand : nat -> Q.

Definition Math_sin (x : JS.num) : JS.num :=
  match x with
  | JS.Fin q => JS.Fin (Qred (sin q))
  | _ => JS.NaN
  end.

Definition Math_random : Rand JS.num := fun k => (JS.Fin (rand k), S k).

Definition generateNormalMoisture (t : Z) : Rand JS.num :=
  let base :=
    JS.add (JS.add (JS.Fin 45)
                   (JS.mul (JS.Fin 10) (Math_sin (JS.mul (JS.of_Z t) (JS.Fin (1 # 20))))))
           (JS.mul (JS.Fin 5)
                   (Math_sin (JS.add (JS.mul (JS.of_Z t) (JS.Fin (13 # 100)))
                                     (JS.Fin (6 # 5))))) in
  r <- Math_random ;;
  let noise := JS.mul (JS.sub r (JS.Fin (1 # 2))) (JS.Fin 4) in
  ret (JS.max2 (JS.Fin 20) (JS.min2 (JS.Fin 80) (JS.add base noise))).

(** The rejection loop that fills [anomalySet]. *)
Definition fill_anomalySet (fuel : nat) (numPoints : Z) (anomalyCount : JS.num)
  : Rand (option (list JS.num)) :=
  while_rand fuel
    (fun anomalySet => JS.lt (JS.of_nat (length anomalySet)) anomalyCount)
    (fun anomalySet =>
       r <- Math_random ;;
       ret (set_add anomalySet
              (JS.add (JS.floor (JS.mul r (JS.of_Z (numPoints - 40)))) (JS.Fin 20))))
    [].

(** One round of the loop over the timesteps. *)
Definition generate_point (anomalyIntensity : JS.num) (anomalySet : list JS.num)
  (i : Z) (data : list SoilDataPoint) : Rand (list SoilDataPoint) :=
  baseMoisture <- generateNormalMoisture i ;;
  if set_has anomalySet (JS.of_Z i) then
    r <- Math_random ;;
    let spike := JS.gt r (JS.Fin (1 # 2)) in
    let magnitude := JS.add (JS.Fin 20) (JS.mul anomalyIntensity (JS.Fin 30)) in
    let anomalyValue :=
      if spike then JS.min2 (JS.Fin 100) (JS.add baseMoisture magnitude)
      else JS.max2 (JS.Fin 0) (JS.sub baseMoisture magnitude) in
    ret (data ++ [{| timestamp := JS.of_Z i; moisture := anomalyValue; isAnomaly := true |}])
  else
    ret (data ++ [{| timestamp := JS.of_Z i; moisture := baseMoisture; isAnomaly := false |}]).

(** [generateSoilData(numPoints, anomalyIntensity)]; [fuel] bounds the rounds
    of the rejection loop, and [None] says that it is still running. *)
Definition generateSoilData_rand (fuel : nat) (numPoints : Z) (anomalyIntensity : JS.num)
  : Rand (option (list SoilDataPoint)) :=
  let anomalyCount := JS.floor (JS.mul (JS.of_Z numPoints) (JS.Fin (2 # 25))) in
  filled <- fill_anomalySet fuel numPoints anomalyCount ;;
  match filled with
  | None => ret None
  | Some anomalySet =>
      data <- for_rand 0 (Z.to_nat numPoints)
                (generate_point anomalyIntensity anomalySet) [] ;;
      ret (Some data)
  end.

Definition generateSoilData (fuel : nat) (numPoints : Z) (anomalyIntensity : JS.num)
  : option (list SoilDataPoint) :=
  fst (generateSoilData_rand fuel numPoints anomalyIntensity O).

End Generator.

(** [createWindows]: the loop [for (i = 0; i <= data.length - windowSize; i++)]
    runs [data.length - windowSize + 1] times when that is positive and not at
    all otherwise; each round pushes [data.slice(i, i + windowSize)]. *)
Definition createWindows (data : list JS.num) (windowSize : Z) : list (list JS.num) :=
  let rounds := Z.to_nat (Z.of_nat (length data) - windowSize + 1) in
  Arr.for_range 0 rounds
    (fun i windows => windows ++ [Arr.slice data i (i + windowSize)]) [].

Record Normalized : Type := {
  normalized : list (list JS.num);
  min : JS.num;
  max : JS.num
}.

Definition normalizeWindows (windows : list (list JS.num)) : Normalized :=
  let flat := concat windows in
  let mn := JS.min_of flat in
  let mx := JS.max_of flat in
  let range := JS.or_else (JS.sub mx mn) (JS.Fin 1) in
  {| normalized := map (fun w => map (fun v => JS.div (JS.sub v mn) range) w) windows;
     min := mn;
     max := mx |}.

Section Parser.

(** [parseInt] and [parseFloat] of the language; a missing field reaches them
    as the string [undefined]. *)
Variable parseInt : string -> JS.num.
Variable parseFloat : string -> JS.num.

Definition field (parts : list string) (i : Z) : string :=
  match Arr.get parts i with
  | Some p => p
  | None => "undefined"%string
  end.

(** The row built from one line after the header. *)
Definition parse_line (hasMoisture : bool) (line : string) (i : Z) : SoilDataPoint :=
  let parts := map Str.trim (Str.split ","%char line) in
  if hasMoisture then
    {| timestamp := JS.or_else (parseInt (field parts 0)) (JS.of_Z i);
       moisture := JS.or_else (parseFloat (field parts 1)) (JS.Fin 50);
       isAnomaly := false |}
  else
    {| timestamp := JS.of_Z i;
       moisture := JS.or_else (parseFloat (field parts 0)) (JS.Fin 50);
       isAnomaly := false |}.

(** [csvText.trim().split('\n')] *)
Definition csv_lines (csvText : string) : list string :=
  Str.split "010"%char (Str.trim csvText).

Definition parseCSV (csvText : string) : list SoilDataPoint :=
  let lines := csv_lines csvText in
  let header := Str.toLowerCase (hd ""%string lines) in
  let hasMoisture := Str.includes "moisture" header in
  filter (fun p => negb (JS.isNaN (moisture p)))
         (Arr.mapi (parse_line hasMoisture) (Arr.slice_from lines 1)).

End Parser.

End DataGenerator.

(** ** lib/autoencoderModel.ts *)

Module AutoencoderModel.

(** The caller's state [U] is what the progress callback updates. *)
Record TrainingConfig (U : Type) : Type := {
  epochs : option nat;
  batchSize : option nat;
  learningRate : option JS.num;
  onEpochEnd : option (Z -> JS.num -> JS.num -> U -> U)
}.

Arguments epochs {U} _.
Arguments batchSize {U} _.
Arguments learningRate {U} _.
Arguments onEpochEnd {U} _.

(** [trainAutoencoder(normalWindows)] without a second argument: [config = {}]. *)
Definition no_config (U : Type) : TrainingConfig U :=
  {| epochs := None; batchSize := None; learningRate := None; onEpochEnd := None |}.

(** What a function that may [throw] gives back. *)
Inductive Result (A : Type) : Type :=
| Ok (a : A)
| Thrown (message : string).

Arguments Ok {A} a.
Arguments Thrown {A} message.

(** The shape of [tf.tensor2d(rows)]: the number of the rows and the length
    of the first one.  An empty array has no shape of rank 2, and the call
    throws. *)
Definition tensor2d (rows : list (list JS.num)) : option (nat * nat) :=
  match rows with
  | [] => None
  | row :: _ => Some (length rows, length row)
  end.

(** Whether the network of [buildAutoencoder(inputSize)] takes the rows: its
    input layer has the shape [[inputSize]], and [model.fit] and
    [model.predict] throw on a tensor of another width. *)
Definition takes (inputSize : Z) (rows : list (list JS.num)) : bool :=
  match tensor2d rows with
  | Some (_, width) => (Z.of_nat width =? inputSize)%Z
  | None => false
  end.

Section Training.

(** The network and its optimiser belong to TensorFlow.js: [buildAutoencoder]
    gives a freshly compiled network, [fit_epoch xs batchSize epoch m] is one
    epoch of [model.fit] and gives the network after it with [logs?.loss],
    and [shape_error rows] is the message of the error thrown on rows that
    the network does not take. *)
Variable Network : Type.
Variable buildAutoencoder : Z -> Network.
Variable fit_epoch : list (list JS.num) -> nat -> Z -> Network -> Network * option JS.num.
Variable shape_error : list (list JS.num) -> string.

(** The variables [model] and [isModelTrained] of the module. *)
Record ModelState : Type := {
  model : option Network;
  isModelTrained : bool
}.

Record TrainResult : Type := { loss : list JS.num }.

Section WithCaller.

Variable U : Type.

(** What one epoch of [model.fit] leaves: the network, [lossHistory] and the
    caller's state after the epoch's callback. *)
Definition run_epoch (xs : list (list JS.num)) (config : TrainingConfig U)
  (nEpochs batch : nat) (epoch : Z) (st : Network * list JS.num * U)
  : Network * list JS.num * U :=
  let '(m, lossHistory, u) := st in
  let (m', logs_loss) := fit_epoch xs batch epoch m in
  let l := match logs_loss with Some v => v | None => JS.Fin 0 end in
  let progress :=
    JS.round (JS.mul (JS.div (JS.of_Z (epoch + 1)) (JS.of_nat nEpochs)) (JS.Fin 100)) in
  let u' :=
    match onEpochEnd config with
    | Some callback => callback (epoch + 1)%Z l progress u
    | None => u
    end in
  (m', lossHistory ++ [l], u').

(** [trainAutoencoder]: the module's state after the call, the returned
    history or the error thrown, and the caller's state.  The new network is
    stored and [isModelTrained] reset before anything can throw; rows that
    the network does not take make [tf.tensor2d] or [model.fit] throw before
    the first epoch. *)
Definition trainAutoencoder (normalWindows : list (list JS.num))
  (config : TrainingConfig U) (u : U) : ModelState * Result TrainResult * U :=
  let nEpochs := match epochs config with Some e => e | None => 50%nat end in
  let batch := match batchSize config with Some b => b | None => 32%nat end in
  let m0 := buildAutoencoder 10 in
  if takes 10 normalWindows then
    let '(m, lossHistory, u') :=
      Arr.for_range 0 nEpochs (run_epoch normalWindows config nEpochs batch) (m0, [], u) in
    ({| model := Some m; isModelTrained := true |}, Ok {| loss := lossHistory |}, u')
  else
    ({| model := Some m0; isModelTrained := false |}, Thrown (shape_error normalWindows), u).

End WithCaller.

End Training.

End AutoencoderModel.

(** ** lib/anomalyDetection.ts *)

Module AnomalyDetection.

Local Open Scope Z_scope.

Record DetectionResult : Type := {
  windowIndex : Z;
  timestampCenter : Z;
  reconstructionError : JS.num;
  isAnomaly : bool;
  confidence : JS.num
}.

Record PerformanceMetrics : Type := {
  accuracy : JS.num;
  precision : JS.num;
  recall : JS.num;
  f1Score : JS.num;
  truePositives : Z;
  trueNegatives : Z;
  falsePositives : Z;
  falseNegatives : Z;
  totalAnomalies : Z;
  detectedAnomalies : Z
}.

(** The callback of [errors.map] in [detectAnomalies]. *)
Definition detect_one (threshold : JS.num) (windowSize : Z) (error : JS.num) (i : Z)
  : DetectionResult :=
  let isAnomaly := JS.gt error threshold in
  let confidence :=
    if isAnomaly then JS.min2 (JS.Fin 1) (JS.div error (JS.mul threshold (JS.Fin 2)))
    else JS.min2 (JS.Fin 1) (JS.sub (JS.Fin 1) (JS.div error threshold)) in
  {| windowIndex := i;
     timestampCenter := i + windowSize / 2;
     reconstructionError := error;
     isAnomaly := isAnomaly;
     confidence := JS.round_to 3 confidence |}.

(** [detectAnomalies]; the constant [maxError] of the source is never read. *)
Definition detectAnomalies (errors : list JS.num) (threshold : JS.num) (windowSize : Z)
  : list DetectionResult :=
  Arr.mapi (detect_one threshold windowSize) errors.

(** Truthiness of [groundTruth[gtIndex]]; [undefined] is falsy. *)
Definition truthy_flag (b : option bool) : bool :=
  match b with
  | Some true => true
  | _ => false
  end.

(** The callback of [detections.forEach] on the counters [(tp, tn, fp, fn)]. *)
Definition count_one (groundTruth : list bool) (c : Z * Z * Z * Z) (det : DetectionResult)
  : Z * Z * Z * Z :=
  let '(tp, tn, fp, fn) := c in
  let gtIndex := Z.min (timestampCenter det) (Z.of_nat (length groundTruth) - 1) in
  let actualAnomaly := truthy_flag (Arr.get groundTruth gtIndex) in
  if isAnomaly det && actualAnomaly then (tp + 1, tn, fp, fn)
  else if negb (isAnomaly det) && negb actualAnomaly then (tp, tn + 1, fp, fn)
  else if isAnomaly det && negb actualAnomaly then (tp, tn, fp + 1, fn)
  else (tp, tn, fp, fn + 1).

Definition percent (x : JS.num) : JS.num := JS.round_to 1 (JS.mul x (JS.Fin 100)).

Definition computeMetrics (detections : list DetectionResult) (groundTruth : list bool)
  (windowSize : Z) : PerformanceMetrics :=
  let '(tp, tn, fp, fn) := fold_left (count_one groundTruth) detections (0, 0, 0, 0) in
  let total := tp + tn + fp + fn in
  let accuracy :=
    if 0 <? total then JS.div (JS.of_Z (tp + tn)) (JS.of_Z total) else JS.Fin 0 in
  let precision :=
    if 0 <? tp + fp then JS.div (JS.of_Z tp) (JS.of_Z (tp + fp)) else JS.Fin 0 in
  let recall :=
    if 0 <? tp + fn then JS.div (JS.of_Z tp) (JS.of_Z (tp + fn)) else JS.Fin 0 in
  let f1Score :=
    if JS.gt (JS.add precision recall) (JS.Fin 0)
    then JS.div (JS.mul (JS.mul (JS.Fin 2) precision) recall) (JS.add precision recall)
    else JS.Fin 0 in
  {| accuracy := percent accuracy;
     precision := percent precision;
     recall := percent recall;
     f1Score := percent f1Score;
     truePositives := tp;
     trueNegatives := tn;
     falsePositives := fp;
     falseNegatives := fn;
     totalAnomalies := Z.of_nat (length (filter (fun b => b) groundTruth));
     detectedAnomalies := Z.of_nat (length (filter isAnomaly detections)) |}.

End AnomalyDetection.

(** ** lib/insights.ts *)

Module Insights.

Import DataGenerator AnomalyDetection.

Local Open Scope Z_scope.

Inductive InsightType : Type := warning | critical | info | success.

(** The table [order] of the final sort. *)
Definition order (t : InsightType) : Z :=
  match t with
  | critical => 0
  | warning => 1
  | info => 2
  | success => 3
  end.

Section Engine.

(** [Date] values and [x.toFixed(d)] belong to the language. *)
Variable Date : Type.
Variable toFixed : JS.num -> nat -> string.

Record Insight : Type := {
  id : string;
  type : InsightType;
  icon : string;
  message : string;
  timestamp : Date;
  timestep : option Z
}.

Variable now : Date.

Definition anomalyCount (detections : list DetectionResult) : Z :=
  Z.of_nat (length (filter isAnomaly detections)).

(** 1. System status *)
Definition rule_stable (detections : list DetectionResult) (insights : list Insight)
  : list Insight :=
  if anomalyCount detections =? 0 then
    insights ++ [{| id := "stable"; type := success; icon := "✅";
                    message := "System stable. All moisture readings within normal parameters.";
                    timestamp := now; timestep := None |}]
  else insights.

(** 2. High anomaly rate warning *)
Definition rule_high_rate (detections : list DetectionResult) (insights : list Insight)
  : list Insight :=
  let anomalyRate :=
    JS.div (JS.of_Z (anomalyCount detections))
           (JS.of_Z (Z.max (Z.of_nat (length detections)) 1)) in
  if JS.gt anomalyRate (JS.Fin (3 # 20)) then
    insights ++ [{| id := "high-rate"; type := critical; icon := "🚨";
                    message := "High anomaly rate detected: "
                               ++ toFixed (JS.mul anomalyRate (JS.Fin 100)) 1
                               ++ "% of windows flagged. Sensor calibration recommended.";
                    timestamp := now; timestep := None |}]
  else insights.

(** 3. Sudden spike detection: one round of the loop over [i]. *)
Definition spike_step (data : list SoilDataPoint) (i : Z) (insights : list Insight)
  : list Insight :=
  match Arr.get data i, Arr.get data (i - 1) with
  | Some cur, Some prev =>
      let delta := JS.sub (moisture cur) (moisture prev) in
      if JS.gt (JS.abs delta) (JS.Fin 20) then
        let direction := if JS.gt delta (JS.Fin 0) then "spike"%string else "drop"%string in
        insights ++ [{| id := "spike-" ++ Str.of_Z i; type := warning;
                        icon := if JS.gt delta (JS.Fin 0) then "📈" else "📉";
                        message := "Sudden " ++ direction ++ " detected at timestep "
                                   ++ Str.of_Z i ++ ": " ++ toFixed (JS.abs delta) 1
                                   ++ " unit change (" ++ toFixed (moisture prev) 1
                                   ++ "% → " ++ toFixed (moisture cur) 1 ++ "%).";
                        timestamp := now; timestep := Some i |}]
      else insights
  | _, _ => insights
  end.

Definition rule_spikes (data : list SoilDataPoint) (insights : list Insight)
  : list Insight :=
  Arr.for_range 1 (length data - 1) (spike_step data) insights.

(** 4. Rapid decrease over last 20 samples *)
Definition rule_trend (data : list SoilDataPoint) (insights : list Insight)
  : list Insight :=
  let last20 := Arr.slice_from data (-20) in
  if 20 <=? Z.of_nat (length last20) then
    match Arr.get last20 19, Arr.get last20 0 with
    | Some last, Some first =>
        let trend := JS.sub (moisture last) (moisture first) in
        if JS.lt trend (JS.Fin (-10)) then
          insights ++ [{| id := "rapid-decrease"; type := warning; icon := "💧";
                          message := "Moisture decreasing rapidly over last 20 samples: −"
                                     ++ toFixed (JS.abs trend) 1 ++ "%. Consider irrigation.";
                          timestamp := now; timestep := None |}]
        else if JS.gt trend (JS.Fin 10) then
          insights ++ [{| id := "rapid-increase"; type := info; icon := "🌧️";
                          message := "Moisture increasing steadily over last 20 samples: +"
                                     ++ toFixed trend 1
                                     ++ "%. Possible rainfall or irrigation active.";
                          timestamp := now; timestep := None |}]
        else insights
    | _, _ => insights
    end
  else insights.

(** 5. Overall moisture level *)
Definition rule_level (data : list SoilDataPoint) (insights : list Insight)
  : list Insight :=
  let avgMoisture :=
    JS.div (fold_left (fun s d => JS.add s (moisture d)) data (JS.Fin 0))
           (JS.of_nat (length data)) in
  if JS.lt avgMoisture (JS.Fin 30) then
    insights ++ [{| id := "low-moisture"; type := critical; icon := "🏜️";
                    message := "Average moisture critically low: " ++ toFixed avgMoisture 1
                               ++ "%. Immediate irrigation required.";
                    timestamp := now; timestep := None |}]
  else if JS.gt avgMoisture (JS.Fin 70) then
    insights ++ [{| id := "high-moisture"; type := warning; icon := "🌊";
                    message := "Average moisture high: " ++ toFixed avgMoisture 1
                               ++ "%. Risk of waterlogging — reduce irrigation.";
                    timestamp := now; timestep := None |}]
  else
    insights ++ [{| id := "optimal-moisture"; type := info; icon := "🌱";
                    message := "Average moisture optimal: " ++ toFixed avgMoisture 1
                               ++ "%. Ideal conditions for crop growth.";
                    timestamp := now; timestep := None |}].

(** 6. Model threshold suggestion *)
Definition rule_threshold (detections : list DetectionResult) (threshold : JS.num)
  (insights : list Insight) : list Insight :=
  let avgError :=
    JS.div (fold_left (fun s d => JS.add s (reconstructionError d)) detections (JS.Fin 0))
           (JS.of_Z (Z.max (Z.of_nat (length detections)) 1)) in
  let suggestedThreshold := JS.mul avgError (JS.Fin (5 # 2)) in
  if JS.gt (JS.abs (JS.sub suggestedThreshold threshold)) (JS.Fin (1 # 20))
     && (0 <? Z.of_nat (length detections)) then
    insights ++ [{| id := "threshold-suggestion"; type := info; icon := "🎯";
                    message := "AI suggestion: adjust threshold to "
                               ++ toFixed suggestedThreshold 3
                               ++ " for optimal detection (current: "
                               ++ toFixed threshold 3 ++ ").";
                    timestamp := now; timestep := None |}]
  else insights.

(** 7. Cluster of anomalies: the loop over [i] with its [break]; [n] rounds
    are left. *)
Fixpoint cluster_scan (anomalyTimesteps : list Z) (i : Z) (n : nat)
  (insights : list Insight) : list Insight :=
  match n with
  | O => insights
  | S n' =>
      match Arr.get anomalyTimesteps (i + 2), Arr.get anomalyTimesteps i,
            Arr.get anomalyTimesteps (i + 1) with
      | Some c, Some a, Some b =>
          if c - a <? 15 then
            insights ++ [{| id := "cluster-" ++ Str.of_Z i; type := critical; icon := "⚡";
                            message := "Anomaly cluster detected around timestep "
                                       ++ Str.of_Z b
                                       ++ ". Persistent sensor fault or soil disturbance.";
                            timestamp := now; timestep := Some b |}]
          else cluster_scan anomalyTimesteps (i + 1) n' insights
      | _, _, _ => insights
      end
  end.

Definition rule_cluster (detections : list DetectionResult) (insights : list Insight)
  : list Insight :=
  let anomalyTimesteps := map timestampCenter (filter isAnomaly detections) in
  cluster_scan anomalyTimesteps 0 (length anomalyTimesteps - 2) insights.

(** The array [insights] when the seven rules have run. *)
Definition rule_insights (data : list SoilDataPoint) (detections : list DetectionResult)
  (threshold : JS.num) : list Insight :=
  rule_cluster detections
    (rule_threshold detections threshold
       (rule_level data
          (rule_trend data
             (rule_spikes data
                (rule_high_rate detections
                   (rule_stable detections [])))))).

(** The comparison function of the final sort. *)
Definition by_severity (a b : Insight) : Z := order (type a) - order (type b).

Definition generateInsights (data : list SoilDataPoint) (detections : list DetectionResult)
  (threshold : JS.num) : list Insight :=
  if (length data =? 0)%nat then []
  else Arr.slice (Arr.sort by_severity (rule_insights data detections threshold)) 0 8.

End Engine.

End Insights.

(** ** pages/Index.tsx *)

Module Index.

Import DataGenerator AutoencoderModel.

Local Open Scope Z_scope.

Definition WINDOW_SIZE : Z := 10.

(** What [handleGenerateData] and [handleCSVUpload] leave in [normalizedRef]
    for the series [data]. *)
Definition normalized_of (data : list SoilDataPoint) : Normalized :=
  normalizeWindows (createWindows (map moisture data) WINDOW_SIZE).

(** The progress shown while training. *)
Record Progress : Type := {
  trainingProgress : JS.num;
  trainingLoss : JS.num
}.

(** [normalIndices], filled by [soilData.forEach]. *)
Definition normalIndices (soilData : list SoilDataPoint) (norm : Normalized) : list Z :=
  Arr.forEach
    (fun d i acc =>
       if negb (isAnomaly d) && (i <? Z.of_nat (length (normalized norm)))
       then acc ++ [i] else acc)
    soilData [].

(** [normalWindows]; the guard of [normalIndices] keeps every index inside
    [normalized]. *)
Definition normalWindows (soilData : list SoilDataPoint) (norm : Normalized)
  : list (list JS.num) :=
  map (fun i => match Arr.get (normalized norm) i with
                | Some w => w
                | None => []
                end)
      (normalIndices soilData norm).

Section Page.

Variable Network : Type.
Variable buildAutoencoder : Z -> Network.
Variable fit_epoch : list (list JS.num) -> nat -> Z -> Network -> Network * option JS.num.
Variable shape_error : list (list JS.num) -> string.

Inductive TrainOutcome : Type :=
| Ignored
| TrainingFailed (message : string)
| ModelTrained (st : ModelState Network) (history : TrainResult) (shown : Progress).

(** The configuration that [handleTrain] passes to [trainAutoencoder]. *)
Definition train_config : TrainingConfig Progress :=
  {| epochs := Some 60%nat;
     batchSize := Some 32%nat;
     learningRate := None;
     onEpochEnd := Some (fun _ loss progress _ =>
                           {| trainingProgress := progress; trainingLoss := loss |}) |}.

(** The progress display when training starts: [setTrainingProgress(0)]. *)
Definition reset_progress (shown : Progress) : Progress :=
  {| trainingProgress := JS.Fin 0; trainingLoss := trainingLoss shown |}.

(** [handleTrain] on the state of the page ([soilData], [normalizedRef] and
    the progress display): the early return, the thrown error that the
    handler reports as 'Training Failed', or the trained model. *)
Definition handleTrain (soilData : list SoilDataPoint) (normalizedRef : option Normalized)
  (shown : Progress) : TrainOutcome :=
  match normalizedRef with
  | None => Ignored
  | Some norm =>
      if (length soilData =? 0)%nat then Ignored
      else
        let windows := normalWindows soilData norm in
        if Z.of_nat (length windows) <? 10 then
          TrainingFailed "Not enough normal data for training"
        else
          let '(st, result, shown') :=
            trainAutoencoder buildAutoencoder fit_epoch shape_error windows train_config
              (reset_progress shown) in
          match result with
          | Ok history => ModelTrained st history shown'
          | Thrown message => TrainingFailed message
          end
  end.

End Page.

End Index.

(** ** lib/autoencoderModel.ts: inference and the size estimate *)

Module ModelUse.

Import DataGenerator AutoencoderModel.

Record ModelInfo : Type := {
  originalSizeKB : JS.num;
  quantizedSizeKB : JS.num;
  reductionPercent : JS.num;
  estimatedRAMKB : JS.num;
  inferenceTimeMs : JS.num;
  parameterCount : Z
}.

(** [xs.sub(ys)], [d.square()] and [s.mean(1)] on tensors of rank 2 of one
    shape.  A tensor is held as the rows of its exact values: the rounding
    to 32-bit floats is not modelled. *)
Definition sub_rows (xs ys : list (list JS.num)) : list (list JS.num) :=
  map (fun rows => map (fun ab => JS.sub (fst ab) (snd ab)) (combine (fst rows) (snd rows)))
      (combine xs ys).

Definition square_rows (d : list (list JS.num)) : list (list JS.num) :=
  map (map (fun v => JS.mul v v)) d.

Definition mean_rows (s : list (list JS.num)) : list JS.num :=
  map (fun row => JS.div (fold_left JS.add row (JS.Fin 0)) (JS.of_nat (length row))) s.

Section Inference.

(** [model.predict] and [model.countParams] belong to TensorFlow.js, as
    does the message [shape_error rows] of the error thrown on rows that the
    network does not take; [rand] is the sequence of the values of
    [Math.random()]. *)
Variable Network : Type.
Variable predict : Network -> list (list JS.num) -> list (list JS.num).
Variable shape_error : list (list JS.num) -> string.
Variable countParams : Network -> Z.
Variable rand : nat -> Q.

Definition isModelReady (st : ModelState Network) : bool :=
  isModelTrained st && match model st with Some _ => true | None => false end.

Definition getModel (st : ModelState Network) : option Network := model st.

(** [computeReconstructionError]: without a model it throws its own error;
    on rows that the network does not take, [tf.tensor2d] or [model.predict]
    throws. *)
Definition computeReconstructionError (st : ModelState Network)
  (windows : list (list JS.num)) : Result (list JS.num) :=
  match model st with
  | None => Thrown "Model not trained yet"
  | Some m =>
      if takes 10 windows then
        let xs := windows in
        let reconstructed := predict m xs in
        let diff := sub_rows xs reconstructed in
        let squaredDiff := square_rows diff in
        let mse := mean_rows squaredDiff in
        Ok mse
      else Thrown (shape_error windows)
  end.

Definition getModelInfo (st : ModelState Network) : Rand ModelInfo :=
  match model st with
  | None =>
      ret {| originalSizeKB := JS.Fin 0; quantizedSizeKB := JS.Fin 0;
             reductionPercent := JS.Fin 0; estimatedRAMKB := JS.Fin 0;
             inferenceTimeMs := JS.Fin 0; parameterCount := 0 |}
  | Some m =>
      let paramCount := countParams m in
      let originalSizeKB := JS.div (JS.mul (JS.of_Z paramCount) (JS.Fin 4)) (JS.Fin 1024) in
      let quantizedSizeKB :=
        JS.add (JS.div (JS.mul (JS.of_Z paramCount) (JS.Fin 1)) (JS.Fin 1024)) (JS.Fin 2) in
      let reductionPercent :=
        JS.round (JS.mul (JS.div (JS.sub originalSizeKB quantizedSizeKB) originalSizeKB)
                         (JS.Fin 100)) in
      let estimatedRAMKB := JS.add (JS.mul quantizedSizeKB (JS.Fin 2)) (JS.Fin 4) in
      r <- Math_random rand ;;
      let inferenceTimeMs :=
        JS.round_to 2 (JS.add (JS.mul (JS.of_Z paramCount) (JS.Fin (1 # 500)))
                              (JS.mul r (JS.Fin (3 # 10)))) in
      ret {| originalSizeKB := JS.round_to 2 originalSizeKB;
             quantizedSizeKB := JS.round_to 2 quantizedSizeKB;
             reductionPercent := reductionPercent;
             estimatedRAMKB := JS.round_to 2 estimatedRAMKB;
             inferenceTimeMs := inferenceTimeMs;
             parameterCount := paramCount |}
  end.

End Inference.

End ModelUse.

(** ** lib/anomalyDetection.ts: the exported reports *)

Module Reports.

Import DataGenerator AnomalyDetection.

Local Open Scope string_scope.

(** [l.join(sep)] *)
Fixpoint join (sep : string) (l : list string) : string :=
  match l with
  | [] => ""
  | [x] => x
  | x :: l' => x ++ sep ++ join sep l'
  end.

Definition newline : string := String "010" "".

Section Csv.

(** [x.toFixed(d)] and the conversion of a number to a string belong to the
    language. *)
Variable toFixed : JS.num -> nat -> string.
Variable to_string : JS.num -> string.

(** The row of one detected anomaly. *)
Definition report_row (moistureData : list SoilDataPoint) (d : DetectionResult) : string :=
  let dp := Arr.get moistureData
              (Z.min (timestampCenter d) (Z.of_nat (List.length moistureData) - 1)) in
  Str.of_Z (timestampCenter d) ++ ","
  ++ match dp with Some p => toFixed (moisture p) 2 | None => "" end ++ ","
  ++ toFixed (reconstructionError d) 6 ++ ",true,"
  ++ toFixed (JS.mul (confidence d) (JS.Fin 100)) 1 ++ "%".

Definition report_header : string :=
  "Timestamp,Moisture,Reconstruction_Error,Detected_Anomaly,Confidence" ++ newline.

Definition buildAnomalyReportCSV (detections : list DetectionResult)
  (moistureData : list SoilDataPoint) (windowSize : Z) : string :=
  let header := report_header in
  let rows := join newline (map (report_row moistureData) (filter isAnomaly detections)) in
  header ++ rows.

Definition buildPerformanceSummaryCSV (metrics : PerformanceMetrics) : string :=
  join newline
    [ "Metric,Value";
      "Accuracy," ++ to_string (accuracy metrics) ++ "%";
      "Precision," ++ to_string (precision metrics) ++ "%";
      "Recall," ++ to_string (recall metrics) ++ "%";
      "F1 Score," ++ to_string (f1Score metrics) ++ "%";
      "True Positives," ++ Str.of_Z (truePositives metrics);
      "True Negatives," ++ Str.of_Z (trueNegatives metrics);
      "False Positives," ++ Str.of_Z (falsePositives metrics);
      "False Negatives," ++ Str.of_Z (falseNegatives metrics);
      "Total Ground Truth Anomalies," ++ Str.of_Z (totalAnomalies metrics);
      "Total Detected Anomalies," ++ Str.of_Z (detectedAnomalies metrics) ].

End Csv.

End Reports.

(** ** components/dashboard/Charts.tsx: the data of the two charts *)

Module Charts.

Import DataGenerator AnomalyDetection.

Record MoisturePoint : Type := {
  timestamp : JS.num;
  moisture : JS.num;
  anomalyDot : option JS.num
}.

Record ErrorPoint : Type := {
  timestep : Z;
  error : JS.num;
  anomalyError : option JS.num
}.

(** [chartData] of [MoistureChart]; [det?.isAnomaly] is falsy when no
    detection has its center at [i]. *)
Definition moistureChartData (data : list SoilDataPoint)
  (detections : list DetectionResult) : list MoisturePoint :=
  Arr.mapi
    (fun d i =>
       let det := find (fun det => (timestampCenter det =? i)%Z) detections in
       {| timestamp := DataGenerator.timestamp d;
          moisture := JS.round_to 2 (DataGenerator.moisture d);
          anomalyDot :=
            match det with
            | Some r => if isAnomaly r then Some (DataGenerator.moisture d) else None
            | None => None
            end |})
    data.

(** [chartData] of [ReconstructionErrorChart] *)
Definition errorChartData (detections : list DetectionResult) : list ErrorPoint :=
  map (fun d =>
         {| timestep := timestampCenter d;
            error := JS.round_to 6 (reconstructionError d);
            anomalyError := if isAnomaly d then Some (reconstructionError d) else None |})
      detections.

End Charts.

(** ** pages/Index.tsx: loading data and running the detection *)

Module Page.

Import DataGenerator AutoencoderModel AnomalyDetection ModelUse Index.

Local Open Scope Z_scope.

(** The data of the page: [soilData], [normalizedRef] and [groundTruthRef]. *)
Record PageData : Type := {
  soilData : list SoilDataPoint;
  normalizedRef : option Normalized;
  groundTruthRef : list bool
}.

(** The page before any data is loaded. *)
Definition no_data : PageData :=
  {| soilData := []; normalizedRef := None; groundTruthRef := [] |}.

(** What both loaders store for the series [data]. *)
Definition load (data : list SoilDataPoint) : PageData :=
  {| soilData := data;
     normalizedRef :=
       Some (normalizeWindows (createWindows (map DataGenerator.moisture data) WINDOW_SIZE));
     groundTruthRef := map DataGenerator.isAnomaly data |}.

Section Handlers.

Variable sin : Q -> Q.
Variable rand : nat -> Q.
Variable parseInt : string -> JS.num.
Variable parseFloat : string -> JS.num.
Variable Network : Type.
Variable predict : Network -> list (list JS.num) -> list (list JS.num).
Variable shape_error : list (list JS.num) -> string.
Variable countParams : Network -> Z.
Variable Date : Type.
Variable toFixed : JS.num -> nat -> string.
Variable now : Date.

(** [handleGenerateData]; [None] while the generator is still running. *)
Definition handleGenerateData (fuel : nat) (numPoints : Z) (anomalyIntensity : JS.num)
  : option PageData :=
  match generateSoilData sin rand fuel numPoints anomalyIntensity with
  | Some data => Some (load data)
  | None => None
  end.

(** [handleCSVUpload] on the text of the file: the thrown error is reported
    as 'CSV Error' and leaves the page as it is. *)
Definition handleCSVUpload (text : string) : Result PageData :=
  let data := parseCSV parseInt parseFloat text in
  if Z.of_nat (length data) <? WINDOW_SIZE + 1 then Thrown "Need at least 11 data points"
  else Ok (load data).

Record Detection : Type := {
  detections : list DetectionResult;
  metrics : PerformanceMetrics;
  modelInfo : ModelInfo;
  insights : list (Insights.Insight Date)
}.

Inductive DetectOutcome : Type :=
| NotRun
| DetectionError (message : string)
| Detected (d : Detection).

(** [handleDetect] with the threshold of the slider; [k] counts the values
    of [Math.random()] drawn so far. *)
Definition handleDetect (page : PageData) (st : ModelState Network) (threshold : JS.num)
  (k : nat) : DetectOutcome :=
  match normalizedRef page with
  | None => NotRun
  | Some norm =>
      if negb (isModelReady st) then NotRun
      else
        match computeReconstructionError predict shape_error st (normalized norm) with
        | Thrown message => DetectionError message
        | Ok errors =>
            let dets := detectAnomalies errors threshold WINDOW_SIZE in
            let mets := computeMetrics dets (groundTruthRef page) WINDOW_SIZE in
            let info := fst (getModelInfo countParams rand st k) in
            let ins := Insights.generateInsights toFixed now (soilData page) dets threshold in
            Detected {| detections := dets; metrics := mets; modelInfo := info;
                        insights := ins |}
        end
  end.

End Handlers.

End Page.

(* ================================================================== *)
(** * Part II: the vocabulary of the properties                         *)
(* ================================================================== *)

(** The indices [i, i + 1, ..., i + n - 1] of a counted loop. *)
Fixpoint zrange (i : Z) (n : nat) : list Z :=
  match n with
  | O => []
  | S n' => (i :: zrange (i + 1) n')%Z
  end.

(** ** Numbers *)

(** A number in lowest terms. *)
Definition canonical (x : JS.num) : Prop :=
  match x with
  | JS.Fin q => Qred q = q
  | _ => True
  end.

(** Strictly positive numbers, [+Infinity] among them. *)
Definition positive (x : JS.num) : Prop :=
  match x with
  | JS.Fin q => 0 < q
  | JS.PInf => True
  | _ => False
  end.

(** ** The synthetic series *)

Section SeriesVocabulary.

Local Open Scope Z_scope.

Import DataGenerator.

(** The values of [Math.random()]. *)
Variable rand : nat -> Q.

(** The index that the [k]-th value of the random source selects. *)
Definition draw (numPoints : Z) (k : nat) : Z :=
  Qfloor (rand k * inject_Z (numPoints - 40)) + 20.

(** [anomalySet] as a list of integers without repetition. *)
Definition zmem (s : list Z) (z : Z) : bool := existsb (Z.eqb z) s.
Definition zadd (s : list Z) (z : Z) : list Z := if zmem s z then s else s ++ [z].

(** The distinct indices among the draws [k, ..., k + n - 1], added to [s]. *)
Definition draws_into (numPoints : Z) (s : list Z) (k n : nat) : list Z :=
  fold_left zadd (map (draw numPoints) (seq k n)) s.

(** The distinct indices selected by the first [n] values of the source. *)
Definition distinct_draws (numPoints : Z) (n : nat) : list Z :=
  draws_into numPoints [] 0 n.

(** The members of [anomalySet]: distinct, and away from both ends. *)
Definition inner (numPoints : Z) (s : list Z) : Prop :=
  NoDup s /\ forall z, In z s -> 20 <= z < numPoints - 20.

(** The two halves of the rejection loop. *)
Definition more_wanted (anomalyCount : JS.num) (anomalySet : list JS.num) : bool :=
  JS.lt (JS.of_nat (length anomalySet)) anomalyCount.

Definition add_draw (numPoints : Z) (anomalySet : list JS.num) : Rand (list JS.num) :=
  bind (Math_random rand)
       (fun r => ret (set_add anomalySet
                        (JS.add (JS.floor (JS.mul r (JS.of_Z (numPoints - 40))))
                                (JS.Fin 20)))).

(** What the round for the timestep [i] adds to the series. *)
Definition point_of (anomalySet : list Z) (i : Z) (p : SoilDataPoint) : Prop :=
  timestamp p = JS.of_Z i
  /\ isAnomaly p = zmem anomalySet i
  /\ JS.within 0 100 (moisture p).

End SeriesVocabulary.

(** A source that cycles through the multiples of 37 modulo 101. *)
Definition cycle_source (k : nat) : Q := Z.of_nat ((k * 37) mod 101) # 101.

(** ** Normalization *)

(** The map that [normalizeWindows] applies to every value. *)
Definition rescale (mn range v : JS.num) : JS.num := JS.div (JS.sub v mn) range.

Definition unit_value (v : JS.num) : Prop := canonical v /\ JS.within 0 1 v.

(** ** The series importer *)

(** The field of a line that is read as its moisture. *)
Definition moisture_field (hasMoisture : bool) (line : string) : string :=
  DataGenerator.field (map Str.trim (Str.split ","%char line))
    (if hasMoisture then 1 else 0)%Z.

(** A reader of unsigned decimal integers, standing for [parseFloat] and
    [parseInt] on such fields; anything else is not a number. *)
Fixpoint digits_value (acc : Z) (s : string) : option Z :=
  match s with
  | EmptyString => Some acc
  | String c s' =>
      let n := Z.of_nat (nat_of_ascii c) in
      if ((48 <=? n) && (n <=? 57))%Z then digits_value (10 * acc + (n - 48)) s'
      else None
  end.

Definition parse_digits (s : string) : JS.num :=
  match s with
  | EmptyString => JS.NaN
  | _ => match digits_value 0 s with
         | Some z => JS.of_Z z
         | None => JS.NaN
         end
  end.

(** ** Training *)

Section TrainingVocabulary.

Local Open Scope Z_scope.

Variable U : Type.

(** A progress report: epoch number, loss and percentage. *)
Definition Report : Type := Z * JS.num * JS.num.

Definition progress_of (nEpochs : nat) (epoch : Z) : JS.num :=
  JS.round (JS.mul (JS.div (JS.of_Z (epoch + 1)) (JS.of_nat nEpochs)) (JS.Fin 100)).

(** The reports that go with the losses [ls] of the epochs from [i] on. *)
Definition reports (nEpochs : nat) (i : Z) (ls : list JS.num) : list Report :=
  Arr.mapi_from (fun l epoch => (epoch + 1, l, progress_of nEpochs epoch)) i ls.

(** What a report does to the caller's state. *)
Definition notify (config : AutoencoderModel.TrainingConfig U) (u : U) (r : Report) : U :=
  match AutoencoderModel.onEpochEnd config with
  | Some callback => let '(epoch, l, progress) := r in callback epoch l progress u
  | None => u
  end.

End TrainingVocabulary.

(** The indices [i, i + 1, ...] of the elements of [l] that [keep] accepts. *)
Fixpoint selected (A : Type) (keep : A -> Z -> bool) (i : Z) (l : list A) : list Z :=
  match l with
  | [] => []
  | d :: l' => (if keep d i then [i] else []) ++ selected keep (i + 1) l'
  end.

(** The center of window [j] against the ground truth, for comparison. *)
Definition center_normal (soilData : list DataGenerator.SoilDataPoint) (j : Z) : bool :=
  match Arr.get soilData (j + Index.WINDOW_SIZE / 2) with
  | Some d => negb (DataGenerator.isAnomaly d)
  | None => false
  end.

(** A series of 40 samples whose samples 10 to 35 are anomalies. *)
Definition late_anomalies : list DataGenerator.SoilDataPoint :=
  map (fun i => {| DataGenerator.timestamp := JS.of_Z i;
                   DataGenerator.moisture :=
                     if ((10 <=? i) && (i <=? 35))%Z then JS.Fin 90 else JS.Fin 50;
                   DataGenerator.isAnomaly := ((10 <=? i) && (i <=? 35))%Z |})
      (zrange 0 40).

(** The progress display of a page that has not trained yet. *)
Definition idle : Index.Progress :=
  {| Index.trainingProgress := JS.Fin 0; Index.trainingLoss := JS.Fin 0 |}.

(** ** Classification and evaluation *)

Section DetectionVocabulary.

Local Open Scope Z_scope.

Import AnomalyDetection.

(** The confidence of the classification, in the words of the
    specification: [min(1, error / (2 * threshold))] for an anomaly and
    [min(1, 1 - error / threshold)] otherwise, rounded to 3 decimal places. *)
Definition confidence_spec (error threshold : JS.num) (anomaly : bool) : JS.num :=
  JS.round_to 3
    (if anomaly then JS.min2 (JS.Fin 1) (JS.div error (JS.mul (JS.Fin 2) threshold))
     else JS.min2 (JS.Fin 1) (JS.sub (JS.Fin 1) (JS.div error threshold))).

(** A detection that agrees with the ground truth at its clamped center. *)
Definition reproduces (groundTruth : list bool) (det : DetectionResult) : Prop :=
  isAnomaly det =
  truthy_flag
    (Arr.get groundTruth (Z.min (timestampCenter det) (Z.of_nat (length groundTruth) - 1))).

Definition anomalies (detections : list DetectionResult) : Z :=
  Z.of_nat (length (filter isAnomaly detections)).

End DetectionVocabulary.

(** ** Insights *)

Section InsightVocabulary.

Local Open Scope Z_scope.

Import Insights.

Variable Date : Type.
Variable toFixed : JS.num -> nat -> string.
Variable now : Date.

(** The severity rank of an insight and the order it induces. *)
Definition rank (i : Insight Date) : Z := order (type i).
Definition rank_le (a b : Insight Date) : Prop := rank a <= rank b.
Definition has_rank (k : Z) (i : Insight Date) : bool := rank i =? k.

(** The insights that the rules emit: none when there is no data, since
    the engine returns before it evaluates a rule. *)
Definition emitted_insights (data : list DataGenerator.SoilDataPoint)
  (detections : list AnomalyDetection.DetectionResult) (threshold : JS.num)
  : list (Insight Date) :=
  if (length data =? 0)%nat then []
  else rule_insights toFixed now data detections threshold.

(** [ranked] is [emitted] stably sorted by severity: sorted, and with the
    insights of every rank in the order of their emission. *)
Definition stably_ranked (emitted ranked : list (Insight Date)) : Prop :=
  Sorted rank_le ranked
  /\ forall k, filter (has_rank k) ranked = filter (has_rank k) emitted.

End InsightVocabulary.

Arguments rank {Date} _.
Arguments rank_le {Date} _ _.
Arguments has_rank {Date} _ _.

(** ** Further vocabulary *)

(** Finite numbers that are not negative. *)
Definition nonneg (x : JS.num) : Prop :=
  match x with
  | JS.Fin q => 0 <= q
  | _ => False
  end.

(** The rational value of a finite number. *)
Definition qval (x : JS.num) : Q :=
  match x with
  | JS.Fin q => q
  | _ => 0
  end.

(** The number of anomalies among detections. *)
Definition flagged (detections : list AnomalyDetection.DetectionResult) : nat :=
  length (filter AnomalyDetection.isAnomaly detections).

(** The field of a line that is read as its timestamp when the header names
    a moisture column. *)
Definition timestamp_field (line : string) : string :=
  DataGenerator.field (map Str.trim (Str.split ","%char line)) 0%Z.

(** Two tensors of rank 2 with rows of the same lengths. *)
Definition same_shape (xs ys : list (list JS.num)) : Prop :=
  Forall2 (fun x y => length x = length y) xs ys.

(** Two rows with the same values. *)
Definition same_values (x y : list JS.num) : Prop :=
  Forall2 (fun a b => qval a == qval b) x y.

(** The squared differences of a window and its reconstruction. *)
Definition squared_diff (x y : list JS.num) : list JS.num :=
  map (fun v => JS.mul v v) (map (fun ab => JS.sub (fst ab) (snd ab)) (combine x y)).

(** The size reduction in percent of a model of [p] parameters. *)
Definition reduction_of (p : Z) : Z := ((151 * p - 102400) / (2 * p))%Z.

(** A callback that records the percentages reported to it. *)
Definition record_progress : Z -> JS.num -> JS.num -> list JS.num -> list JS.num :=
  fun _ _ progress seen => seen ++ [progress].

(** A configuration with [n] epochs and the recording callback. *)
Definition recording_config (n : nat) (batch : option nat)
  : AutoencoderModel.TrainingConfig (list JS.num) :=
  {| AutoencoderModel.epochs := Some n;
     AutoencoderModel.batchSize := batch;
     AutoencoderModel.learningRate := None;
     AutoencoderModel.onEpochEnd := Some record_progress |}.

(** A file of one header and [n] rows of readings. *)
Definition readings_file (n : nat) : string :=
  Reports.join Reports.newline ("moisture"%string :: repeat "50"%string n).

(** Where the moisture of a generated sample lies at intensity [a]: a
    sample that is no anomaly in the band of the base signal, an anomaly at
    a spike's or a drop's distance from it. *)
Definition banded (a : Q) (p : DataGenerator.SoilDataPoint) : Prop :=
  match DataGenerator.moisture p with
  | JS.Fin m =>
      if DataGenerator.isAnomaly p
      then (0 <= m <= 60 - 30 * a)%Q \/ (40 + 30 * a <= m <= 100)%Q
      else (20 <= m <= 80)%Q
  | _ => False
  end.

(** Whether an insight with the identifier [name] is among [l]. *)
Definition emits {Date : Type} (name : string) (l : list (Insights.Insight Date)) : bool :=
  existsb (fun i => String.eqb (Insights.id i) name) l.

(** ** Characters of a printed value *)

Fixpoint all_chars (ok : ascii -> bool) (s : string) : bool :=
  match s with
  | EmptyString => true
  | String c s' => ok c && all_chars ok s'
  end.

(** Neither a line feed, nor a comma, nor white space. *)
Definition plain (c : ascii) : bool :=
  negb (Ascii.eqb c "010") && negb (Ascii.eqb c ",") && negb (Str.is_space c).

(** [s] ends with the character [c]. *)
Definition ends_with (c : ascii) (s : string) : Prop :=
  exists a, s = (a ++ String c "")%string.

(** The header of the anomaly report, without its line feed. *)
Definition report_header_line : string :=
  "Timestamp,Moisture,Reconstruction_Error,Detected_Anomaly,Confidence".

(** The moisture field of the row of one detection in the anomaly report. *)
Definition moisture_text (toFixed : JS.num -> nat -> string)
  (moistureData : list DataGenerator.SoilDataPoint)
  (d : AnomalyDetection.DetectionResult) : string :=
  match Arr.get moistureData
          (Z.min (AnomalyDetection.timestampCenter d)
                 (Z.of_nat (List.length moistureData) - 1))%Z with
  | Some p => toFixed (DataGenerator.moisture p) 2%nat
  | None => EmptyString
  end.

(** A printer that keeps the integer part of a finite number. *)
Definition print_floor (x : JS.num) (d : nat) : string :=
  match x with
  | JS.Fin q => Str.of_Z (Qfloor q)
  | _ => "NaN"%string
  end.

(** The ten normalized windows of a constant series of 19 readings: with
    no range to scale by, every value is 0. *)
Definition constant_batch : list (list JS.num) := repeat (repeat (JS.Fin 0) 10) 10.

(** A batch of rows of ten values, at least one: a tensor of rank 2 that
    fits the input layer of the network. *)
Definition ten_wide (rows : list (list JS.num)) : Prop :=
  rows <> [] /\ Forall (fun row => length row = 10%nat) rows.

(* ================================================================== *)
(** * Part III: properties                                             *)
(* ================================================================== *)

#[local] Arguments Qred : simpl never.

(** ** Arrays and loops *)

Section ArrFacts.

Local Open Scope Z_scope.

Variable A : Type.

Lemma zrange_length (n : nat) : forall i, length (zrange i n) = n.
Proof. induction n as [|n IH]; intro i; simpl; [reflexivity | now rewrite IH]. Qed.

Lemma zrange_nth (n : nat) :
  forall i k, (k < n)%nat -> nth_error (zrange i n) k = Some (i + Z.of_nat k).
Proof.
  induction n as [|n IH]; intros i k Hk; [lia|].
  destruct k as [|k]; simpl.
  - f_equal. lia.
  - rewrite IH by lia. f_equal. lia.
Qed.

Lemma zrange_In (n : nat) :
  forall i x, In x (zrange i n) <-> i <= x < i + Z.of_nat n.
Proof.
  induction n as [|n IH]; intros i x; simpl.
  - lia.
  - rewrite IH. lia.
Qed.

Lemma for_range_push (B : Type) (f : Z -> B) (n : nat) :
  forall i acc,
    Arr.for_range i n (fun j l => l ++ [f j]) acc = acc ++ map f (zrange i n).
Proof.
  induction n as [|n IH]; intros i acc; simpl.
  - now rewrite app_nil_r.
  - rewrite IH, <- app_assoc. reflexivity.
Qed.

Lemma mapi_from_length (B : Type) (f : A -> Z -> B) (l : list A) :
  forall i, length (Arr.mapi_from f i l) = length l.
Proof. induction l as [|x l IH]; intro i; simpl; [reflexivity | now rewrite IH]. Qed.

Lemma mapi_from_nth (B : Type) (f : A -> Z -> B) (l : list A) :
  forall i k x,
    nth_error l k = Some x ->
    nth_error (Arr.mapi_from f i l) k = Some (f x (i + Z.of_nat k)).
Proof.
  induction l as [|y l IH]; intros i k x Hk.
  - destruct k; discriminate.
  - destruct k as [|k]; simpl in *.
    + injection Hk as ->. do 2 f_equal. lia.
    + rewrite (IH _ _ _ Hk). do 2 f_equal. lia.
Qed.

Lemma mapi_from_Forall2 (B : Type) (P : A -> B -> Prop) (f : A -> Z -> B) (l : list A) :
  (forall x i, P x (f x i)) -> forall i, Forall2 P l (Arr.mapi_from f i l).
Proof. intro H. induction l as [|x l IH]; intro i; simpl; constructor; auto. Qed.

Lemma mapi_from_Forall (B : Type) (P : B -> Prop) (f : A -> Z -> B) (l : list A) :
  (forall x i, P (f x i)) -> forall i, Forall P (Arr.mapi_from f i l).
Proof. intro H. induction l as [|x l IH]; intro i; simpl; constructor; auto. Qed.

(** Inside the array and with [start <= stop], [slice] is a plain cut. *)
Lemma slice_inside (l : list A) (start stop : Z) :
  0 <= start <= stop -> stop <= Z.of_nat (length l) ->
  Arr.slice l start stop = firstn (Z.to_nat (stop - start)) (skipn (Z.to_nat start) l).
Proof.
  intros H1 H2. unfold Arr.slice.
  destruct (Z.ltb_spec start 0); [lia|].
  destruct (Z.ltb_spec stop 0); [lia|].
  rewrite !Z.min_l by lia. reflexivity.
Qed.

End ArrFacts.

(** ** JavaScript numbers *)

Section NumFacts.

Import JS.

Lemma Qltb_true (a b : Q) : Qltb a b = true <-> a < b.
Proof.
  unfold Qltb. rewrite negb_true_iff, <- not_true_iff_false, Qle_bool_iff.
  split; [apply Qnot_le_lt | apply Qlt_not_le].
Qed.

Lemma Qltb_false (a b : Q) : Qltb a b = false <-> b <= a.
Proof. unfold Qltb. rewrite negb_false_iff. apply Qle_bool_iff. Qed.

Lemma Qeq_bool_false (a b : Q) : Qeq_bool a b = false <-> ~ a == b.
Proof. rewrite <- not_true_iff_false, Qeq_bool_iff. reflexivity. Qed.

Lemma Qred_involutive (q : Q) : Qred (Qred q) = Qred q.
Proof. apply Qred_complete, Qred_correct. Qed.

Lemma Qred_fixed_eq (a b : Q) : Qred a = a -> Qred b = b -> a == b -> a = b.
Proof. intros Ha Hb E. rewrite <- Ha, <- Hb. now apply Qred_complete. Qed.

Lemma fold_min2_finite (l : list num) :
  Forall finite l ->
  forall a, exists m,
    fold_left min2 l (Fin a) = Fin m
    /\ (m = a \/ In (Fin m) l)
    /\ m <= a
    /\ forall q, In (Fin q) l -> m <= q.
Proof.
  induction 1 as [|x l Hx _ IH]; intro a.
  - exists a. split; [reflexivity|]. split; [now left|]. split; [lra|]. intros q [].
  - destruct x as [b| | |]; try contradiction. simpl.
    destruct (Qltb b a) eqn:E.
    + apply Qltb_true in E. destruct (IH b) as (m & Hm & Hin & Hle & Hall).
      exists m. split; [exact Hm|]. split; [|split].
      * destruct Hin as [-> | Hin]; auto.
      * lra.
      * intros q [Hq | Hq]; [injection Hq as <-; exact Hle | auto].
    + apply Qltb_false in E. destruct (IH a) as (m & Hm & Hin & Hle & Hall).
      exists m. split; [exact Hm|]. split; [|split].
      * destruct Hin as [-> | Hin]; auto.
      * exact Hle.
      * intros q [Hq | Hq]; [injection Hq as <-; lra | auto].
Qed.

Lemma fold_max2_finite (l : list num) :
  Forall finite l ->
  forall a, exists m,
    fold_left max2 l (Fin a) = Fin m
    /\ (m = a \/ In (Fin m) l)
    /\ a <= m
    /\ forall q, In (Fin q) l -> q <= m.
Proof.
  induction 1 as [|x l Hx _ IH]; intro a.
  - exists a. split; [reflexivity|]. split; [now left|]. split; [lra|]. intros q [].
  - destruct x as [b| | |]; try contradiction. simpl.
    destruct (Qltb a b) eqn:E.
    + apply Qltb_true in E. destruct (IH b) as (m & Hm & Hin & Hle & Hall).
      exists m. split; [exact Hm|]. split; [|split].
      * destruct Hin as [-> | Hin]; auto.
      * lra.
      * intros q [Hq | Hq]; [injection Hq as <-; exact Hle | auto].
    + apply Qltb_false in E. destruct (IH a) as (m & Hm & Hin & Hle & Hall).
      exists m. split; [exact Hm|]. split; [|split].
      * destruct Hin as [-> | Hin]; auto.
      * exact Hle.
      * intros q [Hq | Hq]; [injection Hq as <-; lra | auto].
Qed.

(** [Math.min] of finitely many finite numbers is the least of them. *)
Lemma min_of_finite (l : list num) :
  Forall finite l -> l <> [] ->
  exists m, min_of l = Fin m /\ In (Fin m) l /\ forall q, In (Fin q) l -> m <= q.
Proof.
  intros Hl Hne. destruct l as [|x l]; [contradiction|].
  inversion Hl as [|? ? Hx Hl']; subst.
  destruct x as [a| | |]; try contradiction.
  destruct (fold_min2_finite Hl' a) as (m & Hm & Hin & Hle & Hall).
  exists m. split; [exact Hm|]. split.
  - destruct Hin as [-> | Hin]; [now left | now right].
  - intros q [Hq | Hq]; [injection Hq as <-; exact Hle | auto].
Qed.

Lemma max_of_finite (l : list num) :
  Forall finite l -> l <> [] ->
  exists m, max_of l = Fin m /\ In (Fin m) l /\ forall q, In (Fin q) l -> q <= m.
Proof.
  intros Hl Hne. destruct l as [|x l]; [contradiction|].
  inversion Hl as [|? ? Hx Hl']; subst.
  destruct x as [a| | |]; try contradiction.
  destruct (fold_max2_finite Hl' a) as (m & Hm & Hin & Hle & Hall).
  exists m. split; [exact Hm|]. split.
  - destruct Hin as [-> | Hin]; [now left | now right].
  - intros q [Hq | Hq]; [injection Hq as <-; exact Hle | auto].
Qed.

End NumFacts.

(** ** C7: window framing *)

Section CreateWindows.

Local Open Scope Z_scope.

Import DataGenerator.

Lemma createWindows_map (data : list JS.num) (w : Z) :
  createWindows data w =
  map (fun i => Arr.slice data i (i + w))
      (zrange 0 (Z.to_nat (Z.of_nat (length data) - w + 1))).
Proof. unfold createWindows. now rewrite for_range_push. Qed.

Lemma createWindows_nth (data : list JS.num) (w : Z) (k : nat) :
  0 < w -> Z.of_nat k + w <= Z.of_nat (length data) ->
  nth_error (createWindows data w) k = Some (firstn (Z.to_nat w) (skipn k data)).
Proof.
  intros Hw Hk. rewrite createWindows_map.
  rewrite nth_error_map, zrange_nth by lia. simpl.
  rewrite slice_inside by lia.
  rewrite Nat2Z.id. do 3 f_equal. lia.
Qed.

Lemma createWindows_length (data : list JS.num) (w : Z) :
  length (createWindows data w) = Z.to_nat (Z.max 0 (Z.of_nat (length data) - w + 1)).
Proof. rewrite createWindows_map, length_map, zrange_length. lia. Qed.

Lemma firstn_tl (B : Type) (n : nat) (l : list B) :
  tl (firstn (S n) l) = firstn n (tl l).
Proof. destruct l; simpl; [now rewrite firstn_nil | reflexivity]. Qed.

Lemma tl_skipn (B : Type) (n : nat) :
  forall l : list B, tl (skipn n l) = skipn (S n) l.
Proof.
  induction n as [|n IH]; intros [|x l]; try reflexivity.
  change (skipn (S n) (x :: l)) with (skipn n l). rewrite IH.
  destruct l; reflexivity.
Qed.

Lemma removelast_firstn_S (B : Type) (n : nat) :
  forall l : list B, (S n <= length l)%nat -> removelast (firstn (S n) l) = firstn n l.
Proof.
  induction n as [|n IH]; intros l Hl.
  - destruct l; simpl in *; [lia | reflexivity].
  - destruct l as [|x l]; simpl in Hl; [lia|].
    destruct l as [|y l]; simpl in Hl; [lia|].
    change (removelast (firstn (S (S n)) (x :: y :: l)))
      with (x :: removelast (firstn (S n) (y :: l))).
    rewrite IH by (simpl; lia). reflexivity.
Qed.

Lemma firstn_S_snoc (B : Type) (d : B) (n : nat) :
  forall l : list B, (S n <= length l)%nat -> firstn (S n) l = firstn n l ++ [nth n l d].
Proof.
  induction n as [|n IH]; intros l Hl.
  - destruct l; simpl in *; [lia | reflexivity].
  - destruct l as [|x l]; simpl in Hl; [lia|].
    change (firstn (S (S n)) (x :: l)) with (x :: firstn (S n) l).
    rewrite IH by lia. reflexivity.
Qed.

(** C7.  For a positive window size [w], [createWindows data w] has exactly
    [max(0, len(data) - w + 1)] windows (none when [len(data) < w]); every
    window has length [w]; and of two consecutive windows the second is the
    first without its head (these are the [w - 1] shared values) followed by
    the next value of the series. *)
Theorem createWindows_frames (data : list JS.num) (w : Z) :
  0 < w ->
  let windows := createWindows data w in
  Z.of_nat (length windows) = Z.max 0 (Z.of_nat (length data) - w + 1)
  /\ (Z.of_nat (length data) < w -> windows = [])
  /\ Forall (fun win => Z.of_nat (length win) = w) windows
  /\ (forall (i : nat) (a b : list JS.num),
        nth_error windows i = Some a ->
        nth_error windows (S i) = Some b ->
        Z.of_nat (length (tl a)) = w - 1
        /\ removelast b = tl a
        /\ forall d, b = tl a ++ [nth (i + Z.to_nat w) data d]).
Proof.
  intros Hw windows. subst windows.
  assert (Hlen := createWindows_length data w).
  split; [lia|]. split.
  { intro Hshort. apply length_zero_iff_nil. lia. }
  split.
  { apply Forall_forall. intros win Hin.
    apply In_nth_error in Hin. destruct Hin as [k Hk].
    assert (Hk' : (k < length (createWindows data w))%nat)
      by (apply nth_error_Some; congruence).
    rewrite createWindows_nth in Hk by lia. injection Hk as <-.
    rewrite length_firstn, length_skipn. lia. }
  intros i a b Ha Hb.
  assert (Hi : (S i < length (createWindows data w))%nat)
    by (apply nth_error_Some; congruence).
  rewrite createWindows_nth in Ha by lia.
  rewrite createWindows_nth in Hb by lia.
  assert (Ea : a = firstn (Z.to_nat w) (skipn i data)) by congruence.
  assert (Eb : b = firstn (Z.to_nat w) (skipn (S i) data)) by congruence.
  clear Ha Hb. subst a b.
  destruct (Z.to_nat w) as [|n] eqn:En; [lia|].
  assert (Hn : (S i + S n <= length data)%nat) by lia.
  rewrite firstn_tl, tl_skipn.
  split; [|split].
  - rewrite length_firstn, length_skipn. lia.
  - apply removelast_firstn_S. rewrite length_skipn. lia.
  - intro d. remember (skipn (S i) data) as rest eqn:Erest.
    assert (Hrest : (S n <= length rest)%nat)
      by (subst rest; rewrite length_skipn; lia).
    rewrite (firstn_S_snoc d rest Hrest). subst rest.
    rewrite nth_skipn. do 3 f_equal. lia.
Qed.

(** A series of five values framed by windows of three. *)
Lemma createWindows_frames_witness :
  let windows := createWindows (map JS.of_Z [1; 2; 3; 4; 5]) 3 in
  Z.of_nat (length windows) = 3
  /\ Forall (fun win => Z.of_nat (length win) = 3) windows.
Proof.
  pose proof (@createWindows_frames (map JS.of_Z [1; 2; 3; 4; 5]) 3 eq_refl) as H.
  cbv zeta in H. destruct H as (H1 & _ & H3 & _).
  split; [exact H1 | exact H3].
Defined.

End CreateWindows.

(** ** C6: normalization *)

Section NormalizeWindows.

Import DataGenerator JS.

Lemma normalized_rescale (windows : list (list num)) :
  normalized (normalizeWindows windows) =
  map (map (rescale (min_of (concat windows))
                    (or_else (sub (max_of (concat windows)) (min_of (concat windows)))
                             (Fin 1))))
      windows.
Proof. reflexivity. Qed.

Lemma concat_map_map (A B : Type) (f : A -> B) (ls : list (list A)) :
  concat (map (map f) ls) = map f (concat ls).
Proof. now rewrite <- concat_map. Qed.

Lemma map_map_fixed (A : Type) (f : A -> A) (ls : list (list A)) :
  Forall (Forall (fun v => f v = v)) ls -> map (map f) ls = ls.
Proof.
  induction 1 as [|w ls Hw _ IH]; simpl; [reflexivity|].
  rewrite IH. f_equal.
  induction Hw as [|v w Hv _ IHw]; simpl; [reflexivity | now rewrite Hv, IHw].
Qed.

Lemma Forall_concat (A : Type) (P : A -> Prop) (ls : list (list A)) :
  Forall (Forall P) ls <-> Forall P (concat ls).
Proof.
  induction ls as [|w ls IH]; simpl.
  - split; constructor.
  - rewrite Forall_app, <- IH. split.
    + intro H. inversion H; subst. now split.
    + intros [H1 H2]. now constructor.
Qed.

(** On the unit scale a value in lowest terms is left as it is. *)
Lemma rescale_unit (c : Q) : Qred c = c -> rescale (Fin 0) (Fin 1) (Fin c) = Fin c.
Proof.
  intro Hc. unfold rescale, sub, div. change (Qeq_bool 1 0) with false. cbv iota. f_equal.
  rewrite <- Hc at 2. apply Qred_complete. rewrite Qred_correct. field.
Qed.

(** A batch in lowest terms whose least value is 0 and whose greatest value
    is 1 or 0 is a fixed point. *)
Lemma normalize_fixed (batch : list (list num)) :
  Forall (Forall unit_value) batch ->
  min_of (concat batch) = Fin 0 ->
  max_of (concat batch) = Fin 1 \/ max_of (concat batch) = Fin 0 ->
  normalized (normalizeWindows batch) = batch.
Proof.
  intros Hunit Hmin Hmax. rewrite normalized_rescale, Hmin.
  assert (Hrange : or_else (sub (max_of (concat batch)) (Fin 0)) (Fin 1) = Fin 1)
    by (destruct Hmax as [-> | ->]; reflexivity).
  rewrite Hrange. apply map_map_fixed.
  eapply Forall_impl; [|exact Hunit].
  intros w Hw. eapply Forall_impl; [|exact Hw].
  intros [c| | |] [Hc Hin]; try contradiction.
  now apply rescale_unit.
Qed.

(** What rescaling does to a batch of finite numbers with least value [m]
    and greatest value [M]. *)
Lemma rescale_finite (m M q : Q) :
  m <= q -> q <= M ->
  let f := rescale (Fin m) (or_else (sub (Fin M) (Fin m)) (Fin 1)) in
  unit_value (f (Fin q))
  /\ (q == m -> f (Fin q) = Fin 0)
  /\ (q == M -> f (Fin q) = Fin 1 \/ f (Fin q) = Fin 0).
Proof.
  intros Hm HM f. subst f. unfold rescale, or_else, sub, truthy.
  destruct (Qeq_bool (Qred (M - m)) 0) eqn:E; cbn [negb].
  - (* a constant batch: the range is replaced by 1 *)
    apply Qeq_bool_iff in E. rewrite Qred_correct in E.
    assert (Hq : Qred (Qred (q - m) / 1) = 0).
    { change 0 with (Qred 0). apply Qred_complete. rewrite Qred_correct.
      field_simplify. lra. }
    unfold div. change (Qeq_bool 1 0) with false. cbv iota. rewrite Hq.
    repeat split; auto; cbn; lra.
  - apply Qeq_bool_false in E. rewrite Qred_correct in E.
    assert (Hpos : 0 < M - m) by lra.
    unfold div. rewrite (proj2 (Qeq_bool_false _ _)) by (rewrite Qred_correct; lra).
    assert (Hfrac : Qred (q - m) / Qred (M - m) == (q - m) / (M - m))
      by (now rewrite !Qred_correct).
    split; [|split].
    + split; [apply Qred_involutive|]. cbn. rewrite Qred_correct, Hfrac. split.
      * apply Qle_shift_div_l; lra.
      * apply Qle_shift_div_r; lra.
    + intro Hqm. f_equal. change 0 with (Qred 0). apply Qred_complete.
      rewrite Hfrac, Hqm. field. lra.
    + intro HqM. left. f_equal. change 1 with (Qred 1). apply Qred_complete.
      rewrite Hfrac, HqM. field. lra.
Qed.

(** C6.  On windows of finite numbers [normalizeWindows] yields values in
    [[0, 1]], and normalizing its output again returns that output. *)
Theorem normalizeWindows_unit_idempotent (windows : list (list num)) :
  Forall (Forall finite) windows ->
  let out := normalized (normalizeWindows windows) in
  Forall (Forall (within 0 1)) out
  /\ normalized (normalizeWindows out) = out.
Proof.
  intros Hfin out.
  destruct (concat windows) as [|v0 rest] eqn:Eflat.
  - (* every window is empty *)
    assert (Hempty : Forall (fun w => w = []) windows).
    { clear - Eflat. induction windows as [|w ws IH]; [constructor|].
      simpl in Eflat. apply app_eq_nil in Eflat. destruct Eflat. now constructor; auto. }
    assert (Hsame : forall f : num -> num, map (map f) windows = windows).
    { intro f. clear - Hempty. induction Hempty as [|w ws -> _ IH]; simpl; congruence. }
    assert (Hout : out = windows) by (subst out; rewrite normalized_rescale; apply Hsame).
    rewrite Hout. split.
    + eapply Forall_impl; [|exact Hempty]. intros w ->. constructor.
    + rewrite normalized_rescale. apply Hsame.
  - assert (Hflat : Forall finite (concat windows)) by now apply Forall_concat.
    assert (Hne : concat windows <> []) by (rewrite Eflat; discriminate).
    destruct (min_of_finite Hflat Hne) as (m & Emin & Hmin_in & Hmin).
    destruct (max_of_finite Hflat Hne) as (M & Emax & Hmax_in & Hmax).
    clear Eflat v0 rest.
    set (f := rescale (Fin m) (or_else (sub (Fin M) (Fin m)) (Fin 1))).
    assert (Eout : out = map (map f) windows)
      by (subst out f; now rewrite normalized_rescale, Emin, Emax).
    assert (Hvals : forall q, In (Fin q) (concat windows) ->
              unit_value (f (Fin q))
              /\ (q == m -> f (Fin q) = Fin 0)
              /\ (q == M -> f (Fin q) = Fin 1 \/ f (Fin q) = Fin 0)).
    { intros q Hq. apply rescale_finite; auto. }
    assert (Hunit : Forall unit_value (concat out)).
    { rewrite Eout, concat_map_map. apply Forall_forall. intros v Hv.
      apply in_map_iff in Hv. destruct Hv as (x & <- & Hx).
      assert (Hxfin : finite x) by (eapply Forall_forall in Hflat; eauto).
      destruct x as [q| | |]; try contradiction. now apply Hvals. }
    split.
    + apply Forall_concat. eapply Forall_impl; [|exact Hunit]. now intros v [_ Hv].
    + assert (Hfin' : Forall finite (concat out)).
      { eapply Forall_impl; [|exact Hunit]. intros [c| | |] [_ Hv]; easy. }
      assert (Hne' : concat out <> []).
      { rewrite Eout, concat_map_map. intro E. apply map_eq_nil in E. contradiction. }
      assert (Hzero : In (Fin 0) (concat out)).
      { rewrite Eout, concat_map_map. apply in_map_iff. exists (Fin m). split; [|exact Hmin_in].
        apply (Hvals m Hmin_in). reflexivity. }
      assert (Htop : In (Fin 1) (concat out) \/ Forall (fun v => v = Fin 0) (concat out)).
      { destruct (proj2 (proj2 (Hvals M Hmax_in)) (Qeq_refl M)) as [E1 | E0].
        - left. rewrite Eout, concat_map_map. apply in_map_iff. now exists (Fin M).
        - right. rewrite Eout, concat_map_map. apply Forall_forall. intros v Hv.
          apply in_map_iff in Hv. destruct Hv as (x & <- & Hx).
          assert (Hxfin : finite x) by (eapply Forall_forall in Hflat; eauto).
          destruct x as [q| | |]; try contradiction.
          (* the greatest value is sent to 0, so the batch is constant *)
          assert (HM : m == M).
          { unfold f, rescale, or_else, sub, truthy in E0.
            destruct (Qeq_bool (Qred (M - m)) 0) eqn:E; cbn [negb] in E0.
            - apply Qeq_bool_iff in E. rewrite Qred_correct in E. lra.
            - exfalso. apply Qeq_bool_false in E. rewrite Qred_correct in E.
              assert (0 < M - m) by (specialize (Hmin M Hmax_in); lra).
              unfold div in E0.
              rewrite (proj2 (Qeq_bool_false _ _)) in E0 by (rewrite Qred_correct; lra).
              injection E0 as E0. apply (f_equal Qred) in E0.
              rewrite Qred_involutive in E0. apply Qred_eq_iff in E0.
              rewrite !Qred_correct in E0.
              assert (E1 : (M - m) / (M - m) == 1) by (field; lra).
              rewrite E1 in E0. discriminate E0. }
          apply (Hvals q Hx). specialize (Hmin q Hx). specialize (Hmax q Hx). lra. }
      destruct (min_of_finite Hfin' Hne') as (m' & Emin' & Hmin_in' & Hmin').
      destruct (max_of_finite Hfin' Hne') as (M' & Emax' & Hmax_in' & Hmax').
      assert (Hm' : m' = 0).
      { pose proof (proj1 (Forall_forall _ _) Hunit _ Hmin_in') as [Hc [Hlo _]].
        specialize (Hmin' 0 Hzero). apply Qred_fixed_eq; auto. lra. }
      apply normalize_fixed.
      * now apply Forall_concat.
      * now rewrite Emin', Hm'.
      * rewrite Emax'. destruct Htop as [Hone | Hall].
        -- left. f_equal.
           pose proof (proj1 (Forall_forall _ _) Hunit _ Hmax_in') as [Hc [_ Hhi]].
           specialize (Hmax' 1 Hone). apply Qred_fixed_eq; auto. lra.
        -- right. exact (proj1 (Forall_forall _ _) Hall _ Hmax_in').
Qed.

(** Two overlapping windows of the series 1, 2, 3, 4. *)
Lemma normalizeWindows_unit_idempotent_witness :
  let windows := [[Fin 1; Fin 2; Fin 3]; [Fin 2; Fin 3; Fin 4]] in
  let out := normalized (normalizeWindows windows) in
  Forall (Forall finite) windows
  /\ Forall (Forall (within 0 1)) out
  /\ normalized (normalizeWindows out) = out.
Proof.
  intros windows out.
  assert (Hfin : Forall (Forall finite) windows) by (repeat constructor).
  split; [exact Hfin|].
  exact (normalizeWindows_unit_idempotent Hfin).
Defined.

(** A constant series of 30 samples framed by windows of 10: the least and
    the greatest value are both 50, the range is replaced by 1 and every
    normalized value is 0. *)
Example normalizeWindows_constant_series :
  let out := normalizeWindows (createWindows (repeat (Fin 50) 30) 10) in
  min out = Fin 50 /\ max out = Fin 50
  /\ length (normalized out) = 21%nat
  /\ Forall (Forall (fun v => v = Fin 0)) (normalized out).
Proof.
  intro out. split; [reflexivity|]. split; [reflexivity|]. split; [reflexivity|].
  vm_compute. repeat constructor.
Qed.

End NormalizeWindows.

(** ** C3 and C8: the classifier *)

Section DetectAnomalies.

Local Open Scope Z_scope.

Import AnomalyDetection JS.

Lemma mul_sign_comm (a b : comparison) : mul_sign a b = mul_sign b a.
Proof. now destruct a, b. Qed.

Lemma mul_comm (x y : num) : mul x y = mul y x.
Proof.
  destruct x as [a| | |], y as [b| | |]; try reflexivity;
    unfold mul; try (now rewrite mul_sign_comm).
  f_equal. apply Qred_complete. ring.
Qed.

Lemma gt_finite (e t : Q) : gt (Fin e) (Fin t) = true <-> (t < e)%Q.
Proof. apply Qltb_true. Qed.

Lemma gt_zero (x : num) : gt x (Fin 0) = true <-> positive x.
Proof.
  destruct x as [q| | |]; simpl; try easy.
  apply Qltb_true.
Qed.

Lemma gt_infinity (x : num) : gt x PInf = false.
Proof. now destruct x. Qed.

Lemma detectAnomalies_length (errors : list num) (threshold : num) (windowSize : Z) :
  length (detectAnomalies errors threshold windowSize) = length errors.
Proof. apply mapi_from_length. Qed.

Lemma detectAnomalies_nth (errors : list num) (threshold : num) (windowSize : Z)
  (i : nat) (error : num) :
  nth_error errors i = Some error ->
  nth_error (detectAnomalies errors threshold windowSize) i =
  Some (detect_one threshold windowSize error (Z.of_nat i)).
Proof.
  intro H. unfold detectAnomalies, Arr.mapi.
  now rewrite (mapi_from_nth _ _ _ _ H).
Qed.

Lemma detectAnomalies_flags (errors : list num) (threshold : num) (windowSize : Z) :
  map isAnomaly (detectAnomalies errors threshold windowSize) =
  map (fun error => gt error threshold) errors.
Proof.
  unfold detectAnomalies, Arr.mapi. generalize 0.
  induction errors as [|e errors IH]; intro i; simpl; [reflexivity|].
  now rewrite IH.
Qed.

(** C3.  [detectAnomalies] returns one result per error, in window order;
    the result of window [i] carries [windowIndex = i],
    [timestampCenter = i + floor(windowSize / 2)], the error itself,
    [isAnomaly = (error > threshold)] (strict: for finite values it holds
    exactly when [threshold < error]) and the confidence of the
    specification. *)
Theorem detectAnomalies_classifies (errors : list num) (threshold : num) (windowSize : Z) :
  let results := detectAnomalies errors threshold windowSize in
  length results = length errors
  /\ forall (i : nat) (error : num),
       nth_error errors i = Some error ->
       exists r,
         nth_error results i = Some r
         /\ windowIndex r = Z.of_nat i
         /\ timestampCenter r = Z.of_nat i + windowSize / 2
         /\ reconstructionError r = error
         /\ isAnomaly r = gt error threshold
         /\ (forall e t, error = Fin e -> threshold = Fin t ->
               (isAnomaly r = true <-> (t < e)%Q))
         /\ confidence r = confidence_spec error threshold (isAnomaly r).
Proof.
  intro results. split; [apply detectAnomalies_length|].
  intros i error Hi.
  exists (detect_one threshold windowSize error (Z.of_nat i)).
  split; [now apply detectAnomalies_nth|].
  do 4 (split; [reflexivity|]). split.
  - intros e t -> ->. apply gt_finite.
  - unfold confidence_spec, detect_one. cbn [confidence isAnomaly].
    now rewrite (mul_comm threshold).
Qed.

(** Three windows around the threshold 0.02. *)
Lemma detectAnomalies_classifies_witness :
  exists r,
    nth_error (detectAnomalies [Fin (1 # 100); Fin (1 # 20); Fin 0] (Fin (1 # 50)) 10) 1
      = Some r
    /\ windowIndex r = 1
    /\ timestampCenter r = 6
    /\ isAnomaly r = true
    /\ confidence r = Fin 1.
Proof.
  destruct (detectAnomalies_classifies [Fin (1 # 100); Fin (1 # 20); Fin 0] (Fin (1 # 50)) 10)
    as [_ H].
  destruct (H 1%nat (Fin (1 # 20)) eq_refl) as (r & Hr & Hi & Hc & _ & Ha & _ & Hconf).
  exists r. rewrite Hconf, Ha. repeat split; assumption || reflexivity.
Defined.

(** C8.  With the threshold [+Infinity] no window is an anomaly; with the
    threshold 0 the anomalies are exactly the windows whose error is
    strictly greater than 0. *)
Theorem detectAnomalies_extreme_thresholds (errors : list num) (windowSize : Z) :
  filter isAnomaly (detectAnomalies errors PInf windowSize) = []
  /\ Forall2 (fun error r => isAnomaly r = true <-> positive error)
       errors (detectAnomalies errors (Fin 0) windowSize).
Proof.
  split.
  - assert (H : map isAnomaly (detectAnomalies errors PInf windowSize)
                = map (fun _ => false) errors).
    { rewrite detectAnomalies_flags. apply map_ext. intro e. apply gt_infinity. }
    revert H. generalize (detectAnomalies errors PInf windowSize).
    induction errors as [|e errors IH]; intros [|r rs] H; try discriminate; auto.
    simpl in H. injection H as Hr Hrs. simpl. rewrite Hr. now apply IH.
  - apply mapi_from_Forall2. intros e i. apply gt_zero.
Qed.

End DetectAnomalies.

(** ** C4: evaluation against the ground truth *)

Section ComputeMetrics.

Local Open Scope Z_scope.

Import AnomalyDetection JS.

Lemma anomalies_cons (det : DetectionResult) (detections : list DetectionResult) :
  anomalies (det :: detections) =
  (if isAnomaly det then 1 else 0) + anomalies detections.
Proof. unfold anomalies. cbn [filter]. destruct (isAnomaly det); cbn [length]; lia. Qed.

Lemma anomalies_bounds (detections : list DetectionResult) :
  0 <= anomalies detections <= Z.of_nat (length detections).
Proof. unfold anomalies. pose proof (filter_length_le isAnomaly detections). lia. Qed.

Lemma anomalies_positive (detections : list DetectionResult) :
  existsb isAnomaly detections = true <-> 0 < anomalies detections.
Proof.
  induction detections as [|d ds IH]; [easy|].
  rewrite anomalies_cons. cbn [existsb]. pose proof (anomalies_bounds ds).
  destruct (isAnomaly d); cbn [orb]; [split; [lia | reflexivity] | rewrite IH; lia].
Qed.

(** The counters of a run that reproduces the ground truth: nothing is
    counted as a false positive or a false negative. *)
Lemma count_reproduced (groundTruth : list bool) (detections : list DetectionResult) :
  Forall (reproduces groundTruth) detections ->
  forall tp tn fp fn,
    fold_left (count_one groundTruth) detections (tp, tn, fp, fn) =
    (tp + anomalies detections,
     tn + (Z.of_nat (length detections) - anomalies detections), fp, fn).
Proof.
  induction 1 as [|d ds Hd _ IH]; intros tp tn fp fn.
  - unfold anomalies. cbn [filter length fold_left].
    rewrite !pair_equal_spec; repeat split; lia.
  - rewrite anomalies_cons. cbn [fold_left]. unfold count_one at 2.
    unfold reproduces in Hd. rewrite <- Hd.
    destruct (isAnomaly d); cbn [andb negb]; rewrite IH; cbn [length];
      rewrite !pair_equal_spec; repeat split; lia.
Qed.

Lemma div_self (z : Z) : 0 < z -> div (of_Z z) (of_Z z) = Fin 1.
Proof.
  intro Hz. unfold of_Z, div.
  rewrite (proj2 (Qeq_bool_false _ _)).
  - f_equal. change 1%Q with (Qred 1). apply Qred_complete. field.
    intro E. apply (Qeq_bool_false (inject_Z z) 0); [|exact E].
    unfold Qeq_bool. simpl. apply Z.eqb_neq. lia.
  - unfold Qeq, inject_Z. simpl. lia.
Qed.

(** C4, with the guard on empty denominators.  For a run with at least one
    detection in which every detection reproduces the ground truth,
    [computeMetrics] gives [accuracy = 100], [falsePositives = 0] and
    [falseNegatives = 0]; precision, recall and F1 are 100 when some
    detection is an anomaly, and 0 when none is. *)
Theorem computeMetrics_reproduced (detections : list DetectionResult)
  (groundTruth : list bool) (windowSize : Z) :
  detections <> [] ->
  Forall (reproduces groundTruth) detections ->
  let m := computeMetrics detections groundTruth windowSize in
  accuracy m = Fin 100
  /\ falsePositives m = 0
  /\ falseNegatives m = 0
  /\ (if existsb isAnomaly detections
      then precision m = Fin 100 /\ recall m = Fin 100 /\ f1Score m = Fin 100
      else precision m = Fin 0 /\ recall m = Fin 0 /\ f1Score m = Fin 0).
Proof.
  intros Hne Hall m. subst m. unfold computeMetrics.
  rewrite (count_reproduced Hall). cbv beta iota zeta.
  pose proof (anomalies_bounds detections) as Hb.
  pose proof (anomalies_positive detections) as Hpos.
  assert (Hlen : 0 < Z.of_nat (length detections)).
  { destruct detections; [contradiction | simpl length; lia]. }
  set (a := anomalies detections) in *.
  set (n := Z.of_nat (length detections)) in *.
  replace (0 + a + (0 + (n - a)) + 0 + 0) with n by lia.
  replace (0 + a + (0 + (n - a))) with n by lia.
  replace (0 + a + 0) with a by lia.
  cbn [accuracy falsePositives falseNegatives precision recall f1Score].
  split; [|split; [reflexivity | split; [reflexivity|]]].
  - destruct (Z.ltb_spec 0 n); [|lia]. now rewrite div_self.
  - destruct (existsb isAnomaly detections).
    + assert (Ha : 0 < a) by now apply Hpos.
      destruct (Z.ltb_spec 0 a); [|lia]. rewrite div_self by assumption.
      repeat split; reflexivity.
    + assert (Ha : a = 0).
      { destruct (Z.ltb_spec 0 a) as [Hlt|]; [|lia].
        apply Hpos in Hlt. discriminate. }
      rewrite Ha. repeat split; reflexivity.
Qed.

(** One window classified as an anomaly where the ground truth has one. *)
Lemma computeMetrics_reproduced_witness :
  let detections := detectAnomalies [Fin (1 # 10)] (Fin (1 # 50)) 10 in
  let groundTruth := [false; false; false; false; false; true] in
  let m := computeMetrics detections groundTruth 10 in
  accuracy m = Fin 100 /\ precision m = Fin 100 /\ recall m = Fin 100
  /\ f1Score m = Fin 100 /\ falsePositives m = 0 /\ falseNegatives m = 0.
Proof.
  intros detections groundTruth m.
  assert (Hne : detections <> []) by discriminate.
  assert (Hall : Forall (reproduces groundTruth) detections)
    by (repeat constructor).
  destruct (computeMetrics_reproduced 10 Hne Hall)
    as (Hacc & Hfp & Hfn & Hp & Hr & Hf).
  repeat split; assumption.
Defined.

(** The sentence as the specification words it fails on a run without
    anomalies: the single window is normal, the ground truth agrees, and
    precision, recall and F1 are 0. *)
Lemma computeMetrics_all_normal_counterexample :
  let detections := detectAnomalies [Fin (1 # 100)] (Fin (1 # 50)) 10 in
  let groundTruth := [false; false; false; false; false; false] in
  let m := computeMetrics detections groundTruth 10 in
  detections <> []
  /\ Forall (reproduces groundTruth) detections
  /\ accuracy m = Fin 100
  /\ precision m = Fin 0 /\ recall m = Fin 0 /\ f1Score m = Fin 0
  /\ ~ (precision m = Fin 100 /\ recall m = Fin 100 /\ f1Score m = Fin 100).
Proof.
  intros detections groundTruth m.
  split; [discriminate|]. split; [repeat constructor|].
  repeat split; try reflexivity.
  intros (H & _). discriminate H.
Qed.

End ComputeMetrics.

(** ** C5: ranking of the insights *)

Section StableSort.

Local Open Scope Z_scope.

Variable A : Type.
Variable key : A -> Z.

Let cmp (a b : A) : Z := key a - key b.
Let key_le (a b : A) : Prop := key a <= key b.
Let has_key (k : Z) (a : A) : bool := key a =? k.

Lemma insert_perm (x : A) (l : list A) : Permutation (Arr.insert cmp x l) (x :: l).
Proof.
  induction l as [|y l IH]; simpl; [reflexivity|].
  destruct (cmp x y <=? 0); [reflexivity|].
  rewrite IH. apply perm_swap.
Qed.

Lemma sort_perm (l : list A) : Permutation (Arr.sort cmp l) l.
Proof.
  induction l as [|x l IH]; simpl; [reflexivity|].
  rewrite insert_perm. now constructor.
Qed.

Lemma insert_hd (x y : A) (l : list A) :
  key y <= key x -> HdRel key_le y l -> HdRel key_le y (Arr.insert cmp x l).
Proof.
  intros Hyx Hl. destruct l as [|z l]; simpl.
  - now constructor.
  - destruct (cmp x z <=? 0); constructor; auto. now inversion Hl.
Qed.

Lemma insert_sorted (x : A) (l : list A) :
  Sorted key_le l -> Sorted key_le (Arr.insert cmp x l).
Proof.
  induction 1 as [|y l Hl IH Hhd]; simpl.
  - repeat constructor.
  - destruct (Z.leb_spec (cmp x y) 0) as [Hle | Hgt].
    + constructor; [now constructor|]. constructor. unfold key_le, cmp in *. lia.
    + constructor; [exact IH|]. apply insert_hd; [|exact Hhd]. unfold cmp in Hgt. lia.
Qed.

Lemma sort_sorted (l : list A) : Sorted key_le (Arr.sort cmp l).
Proof. induction l as [|x l IH]; simpl; [constructor | now apply insert_sorted]. Qed.

(** Insertion keeps the order among the elements of every key. *)
Lemma insert_stable (k : Z) (x : A) (l : list A) :
  filter (has_key k) (Arr.insert cmp x l) = filter (has_key k) (x :: l).
Proof.
  induction l as [|y l IH]; [reflexivity|].
  cbn [Arr.insert]. destruct (Z.leb_spec (cmp x y) 0) as [Hle | Hgt]; [reflexivity|].
  cbn [filter] in *. rewrite IH. unfold has_key, cmp in *.
  destruct (Z.eqb_spec (key y) k), (Z.eqb_spec (key x) k); try reflexivity. lia.
Qed.

Lemma sort_stable (k : Z) (l : list A) :
  filter (has_key k) (Arr.sort cmp l) = filter (has_key k) l.
Proof.
  induction l as [|x l IH]; [reflexivity|].
  cbn [Arr.sort]. rewrite insert_stable. cbn [filter]. now rewrite IH.
Qed.

Lemma key_le_trans : Relation_Definitions.transitive A key_le.
Proof. unfold key_le. intros a b c. lia. Qed.

Lemma sorted_head_least (x : A) (l : list A) :
  Sorted key_le (x :: l) -> forall y, In y l -> key x <= key y.
Proof.
  intros Hs y Hy. apply Sorted_StronglySorted in Hs; [|exact key_le_trans].
  inversion Hs as [|? ? _ Hall]; subst.
  exact (proj1 (Forall_forall _ _) Hall y Hy).
Qed.

Lemma filter_key_In (k : Z) (l : list A) (y : A) :
  In y (filter (has_key k) l) <-> In y l /\ key y = k.
Proof. rewrite filter_In. unfold has_key. now rewrite Z.eqb_eq. Qed.

(** Two sorted sequences with the same elements of every key, in the same
    order, are equal: the outcome of a stable sort does not depend on the
    algorithm. *)
Lemma stable_sorted_unique (l1 : list A) :
  forall l2,
    Sorted key_le l1 -> Sorted key_le l2 ->
    (forall k, filter (has_key k) l1 = filter (has_key k) l2) ->
    l1 = l2.
Proof.
  induction l1 as [|x l1 IH]; intros l2 H1 H2 Hf.
  - destruct l2 as [|y l2]; [reflexivity|].
    specialize (Hf (key y)). cbn [filter] in Hf. unfold has_key in Hf.
    rewrite Z.eqb_refl in Hf. discriminate.
  - destruct l2 as [|y l2].
    { specialize (Hf (key x)). cbn [filter] in Hf. unfold has_key in Hf.
      rewrite Z.eqb_refl in Hf. discriminate. }
    assert (Hxy : key x = key y).
    { assert (Hy : In y (x :: l1)).
      { apply (filter_key_In (key y)). rewrite Hf. apply filter_key_In.
        split; [now left | reflexivity]. }
      assert (Hx : In x (y :: l2)).
      { apply (filter_key_In (key x)). rewrite <- Hf. apply filter_key_In.
        split; [now left | reflexivity]. }
      destruct Hy as [-> | Hy]; [reflexivity|].
      destruct Hx as [-> | Hx]; [reflexivity|].
      pose proof (sorted_head_least H1 _ Hy). pose proof (sorted_head_least H2 _ Hx). lia. }
    assert (Hhead := Hf (key x)). cbn [filter] in Hhead. unfold has_key in Hhead.
    rewrite <- Hxy in Hhead. rewrite !Z.eqb_refl in Hhead.
    injection Hhead as -> Htail.
    f_equal. apply IH.
    + now inversion H1.
    + now inversion H2.
    + intro k. specialize (Hf k). cbn [filter] in Hf. unfold has_key in *.
      destruct (key y =? k) eqn:E; [|exact Hf].
      now injection Hf.
Qed.

Lemma Sorted_firstn (n : nat) :
  forall l : list A, Sorted key_le l -> Sorted key_le (firstn n l).
Proof.
  induction n as [|n IH]; intros l Hl; [constructor|].
  destruct l as [|x l]; [constructor|].
  cbn [firstn]. inversion Hl as [|? ? Hs Hhd]; subst.
  constructor; [now apply IH|].
  destruct n; [constructor|]. destruct l; [constructor|].
  cbn [firstn]. constructor. now inversion Hhd.
Qed.

End StableSort.

Section GenerateInsights.

Local Open Scope Z_scope.

Import DataGenerator AnomalyDetection Insights.

Variable Date : Type.
Variable toFixed : JS.num -> nat -> string.
Variable now : Date.

Let Insight : Type := Insights.Insight Date.

Lemma slice_firstn (A : Type) (l : list A) (n : Z) :
  0 <= n -> Arr.slice l 0 n = firstn (Z.to_nat n) l.
Proof.
  intro Hn. unfold Arr.slice.
  destruct (Z.ltb_spec n 0); [lia|]. cbn [Z.ltb Z.compare].
  rewrite (Z.min_l 0) by lia. cbn [Z.to_nat skipn]. rewrite Z.sub_0_r.
  destruct (Z.le_ge_cases n (Z.of_nat (length l))).
  - now rewrite Z.min_l by lia.
  - rewrite Z.min_r, Nat2Z.id by lia. rewrite !firstn_all2 by lia. reflexivity.
Qed.

Lemma generateInsights_sort (data : list SoilDataPoint)
  (detections : list DetectionResult) (threshold : JS.num) :
  generateInsights toFixed now data detections threshold =
  firstn 8 (Arr.sort (@by_severity Date) (emitted_insights toFixed now data detections threshold)).
Proof.
  unfold generateInsights, emitted_insights.
  destruct (length data =? 0)%nat; [reflexivity|].
  now rewrite slice_firstn.
Qed.

(** C5.  The engine returns at most 8 insights, in nondecreasing severity
    rank ([critical = 0 < warning = 1 < info = 2 < success = 3]); they are
    the first 8 of the stable sort by severity of the emitted insights, that
    is of the one sorted sequence that keeps the insights of every rank in
    the order of the rules that emitted them. *)
Theorem generateInsights_ranked (data : list SoilDataPoint)
  (detections : list DetectionResult) (threshold : JS.num) :
  let out := generateInsights toFixed now data detections threshold in
  let emitted := emitted_insights toFixed now data detections threshold in
  (length out <= 8)%nat
  /\ Sorted rank_le out
  /\ (order critical = 0 /\ order warning = 1 /\ order info = 2 /\ order success = 3)
  /\ (exists ranked,
        stably_ranked emitted ranked /\ Permutation ranked emitted
        /\ out = firstn 8 ranked)
  /\ (forall ranked, stably_ranked emitted ranked -> out = firstn 8 ranked).
Proof.
  intros out emitted. subst out. rewrite generateInsights_sort. fold emitted.
  set (ranked := Arr.sort (@by_severity Date) emitted).
  assert (Hsorted : Sorted rank_le ranked) by apply (sort_sorted rank).
  assert (Hstable : stably_ranked emitted ranked).
  { split; [exact Hsorted|]. intro k. apply (sort_stable rank). }
  split; [apply firstn_le_length|].
  split; [now apply (Sorted_firstn rank)|].
  split; [repeat split|].
  split.
  - exists ranked. split; [exact Hstable|]. split; [apply (sort_perm rank) | reflexivity].
  - intros other [Hs Hf]. f_equal.
    apply (stable_sorted_unique rank); auto.
    intro k. destruct Hstable as [_ Hk]. exact (eq_trans (Hk k) (eq_sym (Hf k))).
Qed.

End GenerateInsights.

(** Two samples, 40 then 65, and no detection: the rules emit [stable],
    [spike-1] and [optimal-moisture]; the result ranks them warning, info,
    success. *)
Lemma generateInsights_ranked_witness :
  let sample := fun m : Z =>
    {| DataGenerator.timestamp := JS.Fin 0;
       DataGenerator.moisture := JS.of_Z m;
       DataGenerator.isAnomaly := false |} in
  let data := [sample 40%Z; sample 65%Z] in
  let out := Insights.generateInsights (fun _ _ => EmptyString) tt data [] (JS.Fin (1 # 50)) in
  let emitted := emitted_insights (fun _ _ => EmptyString) tt data [] (JS.Fin (1 # 50)) in
  map (@Insights.id unit) emitted = ["stable"; "spike-1"; "optimal-moisture"]%string
  /\ map (@Insights.id unit) out = ["spike-1"; "optimal-moisture"; "stable"]%string
  /\ exists ranked, stably_ranked emitted ranked /\ out = firstn 8 ranked.
Proof.
  intros sample data out emitted.
  split; [vm_compute; reflexivity|]. split; [vm_compute; reflexivity|].
  destruct (generateInsights_ranked (fun _ _ => EmptyString) tt data [] (JS.Fin (1 # 50)))
    as (_ & _ & _ & (ranked & Hstable & _ & _) & Hunique).
  exists ranked. split; [exact Hstable | exact (Hunique ranked Hstable)].
Defined.

(** ** C9: the epochs of a training run *)

Section TrainAutoencoder.

Local Open Scope Z_scope.

Import AutoencoderModel JS.

Variable Network : Type.
Variable buildAutoencoder : Z -> Network.
Variable fit_epoch : list (list num) -> nat -> Z -> Network -> Network * option num.
Variable shape_error : list (list num) -> string.
Variable U : Type.

Lemma epochs_run (xs : list (list num)) (config : TrainingConfig U) (nEpochs batch : nat)
  (n : nat) :
  forall i m hist u,
  exists m' ls,
    Arr.for_range i n (run_epoch fit_epoch xs config nEpochs batch) (m, hist, u)
    = (m', hist ++ ls, fold_left (notify config) (reports nEpochs i ls) u)
    /\ length ls = n.
Proof.
  induction n as [|n IH]; intros i m hist u.
  - exists m, []. now rewrite app_nil_r.
  - cbn [Arr.for_range]. unfold run_epoch at 2.
    destruct (fit_epoch xs batch i m) as [m1 logs_loss].
    set (l := match logs_loss with Some v => v | None => Fin 0 end).
    match goal with
    | |- context [Arr.for_range _ _ _ (m1, hist ++ [l], ?u1)] =>
        destruct (IH (i + 1) m1 (hist ++ [l]) u1) as (m' & ls & Hrun & Hlen)
    end.
    exists m', (l :: ls). split; [|simpl; now rewrite Hlen].
    rewrite Hrun, <- app_assoc. cbn [app reports Arr.mapi_from fold_left].
    unfold notify at 3. unfold progress_of at 2.
    destruct (onEpochEnd config); reflexivity.
Qed.

Lemma reports_length (nEpochs : nat) (i : Z) (ls : list num) :
  length (reports nEpochs i ls) = length ls.
Proof. apply mapi_from_length. Qed.

Lemma reports_nth (nEpochs : nat) (ls : list num) (k : nat) (l : num) :
  nth_error ls k = Some l ->
  nth_error (reports nEpochs 0 ls) k
  = Some (Z.of_nat k + 1, l, progress_of nEpochs (Z.of_nat k)).
Proof. intro H. unfold reports. now rewrite (mapi_from_nth _ _ _ _ H). Qed.

(** The network takes a batch of rows of ten values. *)
Lemma takes_width (rows : list (list num)) : ten_wide rows -> takes 10 rows = true.
Proof.
  intros [Hne Hall]. destruct rows as [|row rows]; [contradiction|].
  inversion Hall as [|? ? Hrow _]; subst. unfold takes, tensor2d. rewrite Hrow. reflexivity.
Qed.

(** C9, with the default of the code.  On a batch of rows of ten values,
    which the network takes, [trainAutoencoder] runs the configured number
    of epochs, and 50 epochs when the caller configures none (the page
    itself always asks for 60).  The loss history has one entry per epoch,
    and the caller's state is the one left by one progress report per epoch,
    numbered from 1; without a callback it is untouched.  On rows that the
    network does not take it throws before the first epoch: no report is
    made and the model is left untrained. *)
Theorem trainAutoencoder_epochs (normalWindows : list (list num))
  (config : TrainingConfig U) (u : U) :
  let run :=
    trainAutoencoder buildAutoencoder fit_epoch shape_error normalWindows config u in
  let nEpochs := match epochs config with Some e => e | None => 50%nat end in
  (ten_wide normalWindows ->
     exists history,
       snd (fst run) = Ok {| loss := history |}
       /\ (epochs config = None -> length history = 50%nat)
       /\ length history = nEpochs
       /\ length (reports nEpochs 0 history) = nEpochs
       /\ (forall k l, nth_error history k = Some l ->
             nth_error (reports nEpochs 0 history) k
             = Some (Z.of_nat k + 1, l, progress_of nEpochs (Z.of_nat k)))
       /\ snd run = fold_left (notify config) (reports nEpochs 0 history) u
       /\ (onEpochEnd config = None -> snd run = u)
       /\ isModelTrained (fst (fst run)) = true)
  /\ (takes 10 normalWindows = false ->
       snd (fst run) = Thrown (shape_error normalWindows)
       /\ snd run = u
       /\ isModelTrained (fst (fst run)) = false)
  /\ epochs (Index.train_config) = Some 60%nat.
Proof.
  intros run nEpochs. subst run. unfold trainAutoencoder. fold nEpochs.
  split; [|split; [|reflexivity]].
  - intro Hbatch. rewrite (takes_width Hbatch).
    destruct (epochs_run normalWindows config nEpochs
                (match batchSize config with Some b => b | None => 32%nat end)
                nEpochs 0 (buildAutoencoder 10) [] u) as (m' & ls & Hrun & Hlen).
    rewrite Hrun. cbn [app fst snd isModelTrained]. exists ls.
    split; [reflexivity|].
    split; [|split; [|split; [|split; [|split; [|split]]]]]; auto.
    + intro Hnone. subst nEpochs. rewrite Hnone in Hlen. exact Hlen.
    + now rewrite reports_length.
    + intros k l. apply reports_nth.
    + intro Hnone. generalize (reports nEpochs 0 ls).
      intro rs. induction rs as [|r rs IH]; [reflexivity|].
      cbn [fold_left]. unfold notify at 2. now rewrite Hnone.
  - intros ->. cbn [fst snd isModelTrained]. repeat split.
Qed.

End TrainAutoencoder.

(** A training run without configuration on [constant_batch], with a network
    that learns nothing: 50 losses, and the state of the caller left as it
    was. *)
Lemma trainAutoencoder_epochs_witness :
  let run := AutoencoderModel.trainAutoencoder (fun _ => tt)
               (fun _ _ _ m => (m, Some (JS.Fin 0))) (fun _ => EmptyString) constant_batch
               (AutoencoderModel.no_config nat) 7%nat in
  exists history,
    snd (fst run) = AutoencoderModel.Ok {| AutoencoderModel.loss := history |}
    /\ length history = 50%nat /\ snd run = 7%nat.
Proof.
  intro run.
  destruct (trainAutoencoder_epochs (fun _ => tt) (fun _ _ _ m => (m, Some (JS.Fin 0)))
              (fun _ => EmptyString) constant_batch (AutoencoderModel.no_config nat) 7%nat)
    as (Hruns & _ & _).
  destruct Hruns as (history & Hok & Hdefault & _ & _ & _ & _ & Hquiet & _).
  { split; [discriminate | repeat constructor]. }
  exists history. split; [exact Hok|].
  split; [exact (Hdefault eq_refl) | exact (Hquiet eq_refl)].
Defined.

(** The default is not 60: without a configured epoch count the training
    on [constant_batch] returns a loss history of 50 entries. *)
Lemma trainAutoencoder_default_counterexample :
  let run := AutoencoderModel.trainAutoencoder (fun _ => tt)
               (fun _ _ _ m => (m, Some (JS.Fin 0))) (fun _ => EmptyString) constant_batch
               (AutoencoderModel.no_config unit) tt in
  match snd (fst run) with
  | AutoencoderModel.Ok history =>
      length (AutoencoderModel.loss history) = 50%nat
      /\ length (AutoencoderModel.loss history) <> 60%nat
  | AutoencoderModel.Thrown _ => False
  end.
Proof. intro run. vm_compute. split; [reflexivity | discriminate]. Qed.

(** ** C10: the series importer *)

Section ParseCSV.

Import DataGenerator JS.

Variable parseInt : string -> num.
Variable parseFloat : string -> num.

Lemma slice_from_1 (A : Type) (l : list A) : Arr.slice_from l 1 = tl l.
Proof.
  unfold Arr.slice_from, Arr.slice.
  destruct (Z.ltb_spec (Z.of_nat (length l)) 0); [lia|].
  cbn [Z.ltb Z.compare]. rewrite Z.min_id.
  destruct l as [|x l]; [reflexivity|].
  rewrite Z.min_l by (cbn [length]; lia).
  change (Z.to_nat 1) with 1%nat. cbn [skipn tl].
  replace (Z.to_nat (Z.of_nat (length (x :: l)) - 1)) with (length l)
    by (cbn [length]; lia).
  apply firstn_all.
Qed.

Lemma or_else_not_NaN (x y : num) : isNaN y = false -> isNaN (or_else x y) = false.
Proof. intro Hy. unfold or_else. destruct x as [q| | |]; simpl; auto. now destruct (negb _). Qed.

Lemma or_else_zero (q : Q) (y : num) : q == 0 -> or_else (Fin q) y = y.
Proof. intro Hq. unfold or_else, truthy. now rewrite (Qeq_eq_bool _ _ Hq). Qed.

Lemma parse_line_not_NaN (hasMoisture : bool) (line : string) (i : Z) :
  isNaN (moisture (parse_line parseInt parseFloat hasMoisture line i)) = false.
Proof.
  unfold parse_line. destruct hasMoisture; cbn [moisture]; now apply or_else_not_NaN.
Qed.

Lemma parse_line_moisture (hasMoisture : bool) (line : string) (i : Z) :
  moisture (parse_line parseInt parseFloat hasMoisture line i)
  = or_else (parseFloat (moisture_field hasMoisture line)) (Fin 50).
Proof. unfold parse_line, moisture_field. now destruct hasMoisture. Qed.

Lemma filter_all (A : Type) (f : A -> bool) (l : list A) :
  Forall (fun x => f x = true) l -> filter f l = l.
Proof. induction 1 as [|x l Hx _ IH]; simpl; [reflexivity | now rewrite Hx, IH]. Qed.

(** C10.  [parseCSV] returns one row for every line after the header, in
    order: the filter on not-a-number moistures drops nothing, because no
    row has such a moisture; and a line whose moisture field parses to 0 is
    recorded with the moisture 50. *)
Theorem parseCSV_rows (csvText : string) :
  let lines := csv_lines csvText in
  let hasMoisture := Str.includes "moisture" (Str.toLowerCase (hd EmptyString lines)) in
  let rows := parseCSV parseInt parseFloat csvText in
  rows = Arr.mapi (parse_line parseInt parseFloat hasMoisture) (tl lines)
  /\ length rows = (length lines - 1)%nat
  /\ Forall (fun p => isNaN (moisture p) = false) rows
  /\ forall (i : nat) (line : string) (q : Q),
       nth_error (tl lines) i = Some line ->
       parseFloat (moisture_field hasMoisture line) = Fin q ->
       q == 0 ->
       exists p, nth_error rows i = Some p /\ moisture p = Fin 50.
Proof.
  intros lines hasMoisture rows.
  assert (Hrows : rows = Arr.mapi (parse_line parseInt parseFloat hasMoisture) (tl lines)).
  { subst rows. unfold parseCSV. fold lines. fold hasMoisture.
    rewrite slice_from_1. apply filter_all, mapi_from_Forall.
    intros l i. now rewrite parse_line_not_NaN. }
  split; [exact Hrows|]. rewrite Hrows. split; [|split].
  - unfold Arr.mapi. rewrite mapi_from_length. now rewrite length_tl.
  - apply mapi_from_Forall. intros l i. apply parse_line_not_NaN.
  - intros i line q Hline Hparse Hq.
    exists (parse_line parseInt parseFloat hasMoisture line (0 + Z.of_nat i)).
    split.
    + unfold Arr.mapi. now rewrite (mapi_from_nth _ _ _ _ Hline).
    + rewrite parse_line_moisture, Hparse. now apply or_else_zero.
Qed.

End ParseCSV.

(** A file of three rows: a reading, a zero and a word. *)
Lemma parseCSV_rows_witness :
  let csvText := ("timestamp,moisture" ++ String "010" "0,42"
                  ++ String "010" "1,0" ++ String "010" "2,wet")%string in
  map DataGenerator.moisture (DataGenerator.parseCSV parse_digits parse_digits csvText)
  = [JS.Fin 42; JS.Fin 50; JS.Fin 50]
  /\ exists p,
       nth_error (DataGenerator.parseCSV parse_digits parse_digits csvText) 1 = Some p
       /\ DataGenerator.moisture p = JS.Fin 50.
Proof.
  intro csvText. split; [vm_compute; reflexivity|].
  destruct (parseCSV_rows parse_digits parse_digits csvText) as (_ & _ & _ & Hzero).
  exact (Hzero 1%nat "1,0"%string 0 eq_refl eq_refl (Qeq_refl 0)).
Defined.

(** ** C1: the windows that training uses *)

Section HandleTrain.

Local Open Scope Z_scope.

Import DataGenerator AutoencoderModel Index.

Variable Network : Type.
Variable buildAutoencoder : Z -> Network.
Variable fit_epoch : list (list JS.num) -> nat -> Z -> Network -> Network * option JS.num.
Variable shape_error : list (list JS.num) -> string.

Lemma forEach_from_push (A : Type) (keep : A -> Z -> bool) (l : list A) :
  forall i acc,
    Arr.forEach_from (fun d j acc => if keep d j then acc ++ [j] else acc) i l acc
    = acc ++ selected keep i l.
Proof.
  induction l as [|d l IH]; intros i acc; cbn [Arr.forEach_from selected].
  - now rewrite app_nil_r.
  - rewrite IH. destruct (keep d i); [now rewrite <- app_assoc | reflexivity].
Qed.

Lemma selected_In (A : Type) (keep : A -> Z -> bool) (l : list A) :
  forall i j,
    In j (selected keep i l) <->
    i <= j /\ exists d, nth_error l (Z.to_nat (j - i)) = Some d /\ keep d j = true.
Proof.
  induction l as [|d l IH]; intros i j; cbn [selected].
  - split; [intros [] | intros (_ & d & Hd & _)]. now destruct (Z.to_nat (j - i)).
  - rewrite in_app_iff, IH. split.
    + intros [Hhead | (Hle & d' & Hd' & Hkeep)].
      * destruct (keep d i) eqn:E; [|contradiction]. destruct Hhead as [<- | []].
        split; [lia|]. exists d. now rewrite Z.sub_diag.
      * split; [lia|]. exists d'. split; [|exact Hkeep].
        replace (Z.to_nat (j - i)) with (S (Z.to_nat (j - (i + 1)))) by lia. exact Hd'.
    + intros (Hle & d' & Hd' & Hkeep).
      destruct (Z.eq_dec i j) as [<- | Hneq].
      * left. rewrite Z.sub_diag in Hd'. injection Hd' as ->. rewrite Hkeep. now left.
      * right. split; [lia|]. exists d'. split; [|exact Hkeep].
        replace (Z.to_nat (j - i)) with (S (Z.to_nat (j - (i + 1)))) in Hd' by lia.
        exact Hd'.
Qed.

(** A window takes part in training exactly when the sample at its start
    index is not an anomaly. *)
Lemma normalIndices_In (soilData : list SoilDataPoint) (norm : Normalized) (j : Z) :
  In j (normalIndices soilData norm) <->
  0 <= j < Z.of_nat (length (normalized norm))
  /\ exists d, Arr.get soilData j = Some d /\ isAnomaly d = false.
Proof.
  unfold normalIndices, Arr.forEach. rewrite forEach_from_push. cbn [app].
  rewrite selected_In, Z.sub_0_r. unfold Arr.get. split.
  - intros (Hj & d & Hd & Hkeep). apply andb_prop in Hkeep. destruct Hkeep as [Hn Hlt].
    split; [lia|]. exists d. destruct (Z.ltb_spec j 0); [lia|].
    split; [exact Hd | now apply negb_true_iff].
  - intros (Hj & d & Hd & Hn). split; [lia|]. exists d.
    destruct (Z.ltb_spec j 0); [lia|]. split; [exact Hd|].
    rewrite Hn. cbn [negb andb]. lia.
Qed.

(** Without data the handler returns at once: nothing fails and nothing is
    trained. *)
Lemma handleTrain_without_data (soilData : list SoilDataPoint)
  (normalizedRef : option Normalized) (shown0 : Progress) :
  soilData = [] \/ normalizedRef = None ->
  handleTrain buildAutoencoder fit_epoch shape_error soilData normalizedRef shown0
  = Ignored Network.
Proof.
  intros [-> | ->]; unfold handleTrain; [now destruct normalizedRef | reflexivity].
Qed.

End HandleTrain.

(** ** C2: the synthetic series *)

Section IntegerNumbers.

Local Open Scope Z_scope.

Import JS.

Lemma Qred_inject_Z (z : Z) : Qred (inject_Z z) = inject_Z z.
Proof.
  unfold Qred, inject_Z.
  pose proof (Z.ggcd_gcd z 1) as Hg. pose proof (Z.ggcd_correct_divisors z 1) as Hd.
  destruct (Z.ggcd z 1) as [g [aa bb]]. cbn [fst snd] in *.
  rewrite Z.gcd_1_r in Hg. subst g. destruct Hd as [Ha Hb].
  rewrite Z.mul_1_l in Ha, Hb. now subst aa bb.
Qed.

Lemma add_of_Z (a b : Z) : add (of_Z a) (of_Z b) = of_Z (a + b).
Proof.
  unfold of_Z, add. f_equal. rewrite <- (Qred_inject_Z (a + b)).
  apply Qred_complete. now rewrite inject_Z_plus.
Qed.

Lemma same_of_Z (a b : Z) : same (of_Z a) (of_Z b) = (a =? b).
Proof.
  unfold same, of_Z. apply eq_true_iff_eq.
  rewrite Qeq_bool_iff, Z.eqb_eq. split; [apply inject_Z_injective | now intros ->].
Qed.

Lemma lt_of_Z (a b : Z) : lt (of_Z a) (of_Z b) = (a <? b).
Proof.
  unfold lt, of_Z. apply eq_true_iff_eq.
  rewrite Qltb_true, Z.ltb_lt. now rewrite <- Zlt_Qlt.
Qed.

Lemma floor_mul (r : Q) (m : Z) :
  floor (mul (Fin r) (of_Z m)) = of_Z (Qfloor (r * inject_Z m)).
Proof. unfold floor, mul, of_Z. now rewrite Qred_correct. Qed.

(** [Math.floor(numPoints * 0.08)] is the integer quotient of [8 * numPoints]
    by 100. *)
Lemma floor_eight_percent (n : Z) :
  floor (mul (of_Z n) (Fin (2 # 25))) = of_Z (8 * n / 100).
Proof.
  unfold floor, mul, of_Z. rewrite Qred_correct. do 2 f_equal.
  unfold Qfloor, Qmult, inject_Z. cbn [Qnum Qden].
  change (Z.pos (1 * 25)) with 25.
  replace (8 * n) with (4 * (n * 2)) by ring. change 100 with (4 * 25).
  now rewrite Z.div_mul_cancel_l.
Qed.

End IntegerNumbers.

Section GenerateSoilData.

Local Open Scope Z_scope.

Import DataGenerator JS.

Variable sin : Q -> Q.
Variable rand : nat -> Q.

Lemma set_has_of_Z (s : list Z) (z : Z) : set_has (map of_Z s) (of_Z z) = zmem s z.
Proof.
  unfold set_has, zmem. induction s as [|x s IH]; [reflexivity|].
  cbn [map existsb]. now rewrite same_of_Z, IH.
Qed.

Lemma set_add_of_Z (s : list Z) (z : Z) :
  set_add (map of_Z s) (of_Z z) = map of_Z (zadd s z).
Proof.
  unfold set_add, zadd. rewrite set_has_of_Z.
  destruct (zmem s z); [reflexivity | now rewrite map_app].
Qed.

Lemma zmem_In (s : list Z) (z : Z) : zmem s z = true <-> In z s.
Proof.
  unfold zmem. rewrite existsb_exists. split.
  - intros (x & Hx & E). apply Z.eqb_eq in E. now subst.
  - intro H. exists z. split; [exact H | apply Z.eqb_refl].
Qed.

Lemma zadd_length (s : list Z) (z : Z) :
  (length s <= length (zadd s z) <= S (length s))%nat.
Proof. unfold zadd. destruct (zmem s z); [lia | rewrite length_app; simpl; lia]. Qed.

Lemma zadd_inner (numPoints : Z) (s : list Z) (z : Z) :
  inner numPoints s -> 20 <= z < numPoints - 20 -> inner numPoints (zadd s z).
Proof.
  intros [Hnd Hin] Hz. unfold zadd. destruct (zmem s z) eqn:E; [now split|].
  split.
  - apply NoDup_app; [exact Hnd | repeat constructor; intros [] |].
    intros x Hx [<- | []]. apply zmem_In in Hx. congruence.
  - intros x Hx. apply in_app_or in Hx. destruct Hx as [Hx | [<- | []]]; auto.
Qed.

Hypothesis rand_unit : forall k, (0 <= rand k < 1)%Q.

Lemma draw_inner (numPoints : Z) (k : nat) :
  40 < numPoints -> 20 <= draw rand numPoints k < numPoints - 20.
Proof.
  intro Hn. unfold draw. destruct (rand_unit k) as [H0 H1].
  set (m := numPoints - 40). assert (Hm : (0 < inject_Z m)%Q).
  { change 0%Q with (inject_Z 0). rewrite <- Zlt_Qlt. lia. }
  assert (Hlo : 0 <= Qfloor (rand k * inject_Z m)).
  { change 0 with (Qfloor 0). apply Qfloor_resp_le.
    apply Qmult_le_0_compat; [exact H0 | now apply Qlt_le_weak]. }
  assert (Hhi : Qfloor (rand k * inject_Z m) < m).
  { rewrite Zlt_Qlt. apply Qle_lt_trans with (rand k * inject_Z m)%Q.
    - apply Qfloor_le.
    - rewrite <- (Qmult_1_l (inject_Z m)) at 2. now apply Qmult_lt_compat_r. }
  lia.
Qed.

Lemma fill_anomalySet_loop (fuel : nat) (numPoints : Z) (anomalyCount : num) :
  fill_anomalySet rand fuel numPoints anomalyCount
  = while_rand fuel (more_wanted anomalyCount) (add_draw rand numPoints) [].
Proof. reflexivity. Qed.

Lemma add_draw_of_Z (numPoints : Z) (s : list Z) (k : nat) :
  add_draw rand numPoints (map of_Z s) k = (map of_Z (zadd s (draw rand numPoints k)), S k).
Proof.
  unfold add_draw, bind, Math_random, ret. rewrite floor_mul.
  change (Fin 20) with (of_Z 20). now rewrite add_of_Z, set_add_of_Z.
Qed.

Lemma more_wanted_of_Z (count : Z) (s : list Z) :
  more_wanted (of_Z count) (map of_Z s) = (Z.of_nat (length s) <? count).
Proof. unfold more_wanted, of_nat. now rewrite length_map, lt_of_Z. Qed.

(** With enough distinct draws within the fuel the loop ends, and leaves
    exactly [count] inner indices. *)
Lemma fill_terminates (numPoints count : Z) (fuel : nat) :
  40 < numPoints ->
  forall s k,
    inner numPoints s ->
    Z.of_nat (length s) <= count ->
    count <= Z.of_nat (length (draws_into rand numPoints s k fuel)) ->
    exists s' k',
      while_rand fuel (more_wanted (of_Z count)) (add_draw rand numPoints) (map of_Z s) k
      = (Some (map of_Z s'), k')
      /\ inner numPoints s'
      /\ Z.of_nat (length s') = count.
Proof.
  intro Hn. induction fuel as [|fuel IH]; intros s k Hs Hle Hge.
  - unfold draws_into in Hge. cbn [seq map fold_left] in Hge.
    exists s, k. cbn [while_rand]. unfold ret.
    rewrite more_wanted_of_Z. destruct (Z.ltb_spec (Z.of_nat (length s)) count); [lia|].
    split; [reflexivity|]. split; [exact Hs | lia].
  - cbn [while_rand]. rewrite more_wanted_of_Z.
    destruct (Z.ltb_spec (Z.of_nat (length s)) count) as [Hlt | Hnlt].
    + unfold bind at 1. rewrite add_draw_of_Z.
      apply IH.
      * apply zadd_inner; [exact Hs | now apply draw_inner].
      * pose proof (zadd_length s (draw rand numPoints k)). lia.
      * exact Hge.
    + exists s, k. unfold ret. split; [reflexivity|]. split; [exact Hs | lia].
Qed.


(** *** The loop over the timesteps *)

Lemma clamp_within (lo hi x : Q) :
  (lo <= hi)%Q -> within lo hi (max2 (Fin lo) (min2 (Fin hi) (Fin x))).
Proof.
  intro Hlh. cbn [min2 lt].
  destruct (Qltb x hi) eqn:E1; cbn [max2 lt].
  - apply Qltb_true in E1. destruct (Qltb lo x) eqn:E2; cbn [within].
    + apply Qltb_true in E2. lra.
    + apply Qltb_false in E2. lra.
  - apply Qltb_false in E1. destruct (Qltb lo hi) eqn:E2; cbn [within]; lra.
Qed.

Lemma generateNormalMoisture_within (t : Z) (k : nat) :
  within 20 80 (fst (generateNormalMoisture sin rand t k))
  /\ snd (generateNormalMoisture sin rand t k) = S k.
Proof.
  unfold generateNormalMoisture, bind, Math_random, ret, Math_sin, of_Z.
  cbn [mul add sub fst snd]. split; [|reflexivity].
  apply clamp_within. lra.
Qed.

(** A spike stays below 100 and a drop above 0. *)
Lemma anomalyValue_within (b a : Q) (spike : bool) :
  (20 <= b <= 80)%Q -> (0 <= a <= 1)%Q ->
  let magnitude := add (Fin 20) (mul (Fin a) (Fin 30)) in
  within 0 100
    (if spike then min2 (Fin 100) (add (Fin b) magnitude)
     else max2 (Fin 0) (sub (Fin b) magnitude)).
Proof.
  intros Hb Ha magnitude. subst magnitude. cbn [mul add sub].
  set (mag := Qred (20 + Qred (a * 30))).
  assert (Hmag : (20 <= mag <= 50)%Q).
  { subst mag. rewrite !Qred_correct. lra. }
  destruct spike.
  - cbn [min2 lt]. destruct (Qltb (Qred (b + mag)) 100) eqn:E; cbn [within].
    + apply Qltb_true in E. rewrite Qred_correct in *. lra.
    + lra.
  - cbn [max2 lt]. destruct (Qltb 0 (Qred (b - mag))) eqn:E; cbn [within].
    + apply Qltb_true in E. rewrite Qred_correct in *. lra.
    + lra.
Qed.

Lemma generate_point_adds (a : Q) (s : list Z) (i : Z) (data : list SoilDataPoint)
  (k : nat) :
  (0 <= a <= 1)%Q ->
  exists p k',
    generate_point sin rand (Fin a) (map of_Z s) i data k = (data ++ [p], k')
    /\ point_of s i p.
Proof.
  intro Ha. unfold generate_point. unfold bind at 1.
  destruct (generateNormalMoisture_within i k) as [Hbase Hk].
  destruct (generateNormalMoisture sin rand i k) as [base k1]. cbn [fst snd] in *.
  rewrite set_has_of_Z. destruct (zmem s i) eqn:E.
  - unfold bind, Math_random, ret. eexists; eexists. split; [reflexivity|].
    unfold point_of. cbn [timestamp isAnomaly moisture].
    split; [reflexivity|]. split; [now rewrite E|].
    destruct base as [b| | |]; try contradiction.
    apply (anomalyValue_within (gt (Fin (rand k1)) (Fin (1 # 2))) Hbase Ha).
  - unfold ret. eexists; eexists. split; [reflexivity|].
    unfold point_of. cbn [timestamp isAnomaly moisture].
    split; [reflexivity|]. split; [now rewrite E|].
    destruct base as [b| | |]; try contradiction. cbn [within] in *. lra.
Qed.

Lemma for_rand_points (a : Q) (s : list Z) (n : nat) :
  (0 <= a <= 1)%Q ->
  forall i data k,
  exists pts k',
    for_rand i n (generate_point sin rand (Fin a) (map of_Z s)) data k
    = (data ++ pts, k')
    /\ Forall2 (point_of s) (zrange i n) pts.
Proof.
  intro Ha. induction n as [|n IH]; intros i data k.
  - exists [], k. cbn [for_rand]. unfold ret. rewrite app_nil_r. split; constructor.
  - cbn [for_rand]. unfold bind at 1.
    destruct (generate_point_adds s i data k Ha) as (p & k1 & -> & Hp).
    destruct (IH (i + 1) (data ++ [p]) k1) as (pts & k' & -> & Hpts).
    exists (p :: pts), k'. rewrite <- app_assoc. split; [reflexivity|].
    cbn [zrange]. now constructor.
Qed.


(** *** Counting the anomalies *)

Lemma zrange_NoDup (n : nat) : forall i, NoDup (zrange i n).
Proof.
  induction n as [|n IH]; intro i; cbn [zrange]; constructor; [|apply IH].
  rewrite zrange_In. lia.
Qed.

Lemma members_count (s : list Z) (i : Z) (n : nat) :
  NoDup s -> (forall z, In z s -> i <= z < i + Z.of_nat n) ->
  length (filter (zmem s) (zrange i n)) = length s.
Proof.
  intros Hnd Hin. apply Permutation_length, NoDup_Permutation.
  - apply NoDup_filter, zrange_NoDup.
  - exact Hnd.
  - intro z. rewrite filter_In, zrange_In, zmem_In. split; [tauto|].
    intro Hz. split; [now apply Hin | exact Hz].
Qed.

Lemma points_count (s : list Z) (idxs : list Z) (pts : list SoilDataPoint) :
  Forall2 (point_of s) idxs pts ->
  length (filter isAnomaly pts) = length (filter (zmem s) idxs).
Proof.
  induction 1 as [|i p idxs pts (_ & Hp & _) _ IH]; [reflexivity|].
  cbn [filter]. rewrite Hp. destruct (zmem s i); cbn [length]; now rewrite IH.
Qed.

Lemma Forall2_at (A B : Type) (P : A -> B -> Prop) (l1 : list A) (l2 : list B) :
  Forall2 P l1 l2 ->
  forall i a b, nth_error l1 i = Some a -> nth_error l2 i = Some b -> P a b.
Proof.
  induction 1 as [|x y l1 l2 Hxy _ IH]; intros i a b Ha Hb.
  - destruct i; discriminate.
  - destruct i as [|i]; cbn [nth_error] in *.
    + injection Ha as <-. injection Hb as <-. exact Hxy.
    + eapply IH; eauto.
Qed.

(** C2, for a random source that yields enough distinct indices.  Let
    [numPoints >= 100], the intensity be in [[0, 1]] and the values of the
    source be in [[0, 1)].  If the first [fuel] values select at least
    [floor(0.08 numPoints)] distinct indices, [generateSoilData] returns a
    series of exactly [numPoints] samples with the timestamps 0, 1, ... in
    order, every moisture in [[0, 100]], exactly [floor(0.08 numPoints)]
    samples marked as anomalies, and none of them among the first 20 or the
    last 20 indices. *)
Theorem generateSoilData_series (fuel : nat) (numPoints : Z) (anomalyIntensity : num) :
  100 <= numPoints ->
  within 0 1 anomalyIntensity ->
  8 * numPoints / 100 <= Z.of_nat (length (distinct_draws rand numPoints fuel)) ->
  exists data,
    generateSoilData sin rand fuel numPoints anomalyIntensity = Some data
    /\ Z.of_nat (length data) = numPoints
    /\ map timestamp data = map of_Z (zrange 0 (Z.to_nat numPoints))
    /\ Forall (fun p => within 0 100 (moisture p)) data
    /\ Z.of_nat (length (filter isAnomaly data)) = 8 * numPoints / 100
    /\ forall (i : nat) (p : SoilDataPoint),
         nth_error data i = Some p -> isAnomaly p = true ->
         20 <= Z.of_nat i < numPoints - 20.
Proof.
  intros Hn Ha Hdraws.
  destruct anomalyIntensity as [a| | |]; try contradiction. cbn [within] in Ha.
  unfold generateSoilData, generateSoilData_rand.
  rewrite floor_eight_percent, fill_anomalySet_loop.
  set (count := 8 * numPoints / 100) in *.
  assert (Hcount : 0 <= count) by (apply Z.div_pos; lia).
  destruct (@fill_terminates numPoints count fuel ltac:(lia) [] 0%nat)
    as (s & k1 & Hfill & [Hnd Hin] & Hlen).
  { split; [constructor | intros z []]. }
  { cbn [length]. lia. }
  { exact Hdraws. }
  change (@nil num) with (map of_Z []). unfold bind at 1. rewrite Hfill.
  unfold bind at 1.
  destruct (for_rand_points s (Z.to_nat numPoints) Ha 0 [] k1) as (pts & k2 & -> & Hpts).
  cbn [app]. unfold ret. cbn [fst]. exists pts. split; [reflexivity|].
  assert (Hlen_pts : length pts = Z.to_nat numPoints).
  { rewrite <- (Forall2_length Hpts). apply zrange_length. }
  split; [lia|]. split; [|split; [|split]].
  - clear - Hpts. induction Hpts as [|i p idxs pts (Ht & _) _ IH]; [reflexivity|].
    cbn [map]. now rewrite Ht, IH.
  - clear - Hpts. induction Hpts as [|i p idxs pts (_ & _ & Hm) _ IH]; constructor; auto.
  - rewrite (points_count Hpts), members_count; [exact Hlen | exact Hnd |].
    intros z Hz. specialize (Hin z Hz). lia.
  - intros i p Hi Hp.
    assert (Hidx : nth_error (zrange 0 (Z.to_nat numPoints)) i = Some (0 + Z.of_nat i)).
    { apply zrange_nth. rewrite <- Hlen_pts. apply nth_error_Some. congruence. }
    assert (Hpoint : point_of s (0 + Z.of_nat i) p).
    { exact (Forall2_at Hpts i Hidx Hi). }
    destruct Hpoint as (_ & Hflag & _). rewrite Hp in Hflag.
    symmetry in Hflag. apply zmem_In in Hflag. specialize (Hin _ Hflag). lia.
Qed.

End GenerateSoilData.

Lemma cycle_source_unit (k : nat) : 0 <= cycle_source k < 1.
Proof.
  unfold cycle_source, Qle, Qlt. cbn [Qnum Qden].
  pose proof (Nat.mod_upper_bound (k * 37) 101). lia.
Qed.

(** A hundred samples from [cycle_source]: its first eight values select
    eight distinct indices. *)
Lemma generateSoilData_series_witness :
  exists data,
    DataGenerator.generateSoilData (fun _ => 0) cycle_source 50 100 (JS.Fin (1 # 2))
    = Some data
    /\ Z.of_nat (length data) = 100%Z
    /\ Z.of_nat (length (filter DataGenerator.isAnomaly data)) = 8%Z.
Proof.
  destruct (@generateSoilData_series (fun _ => 0) cycle_source cycle_source_unit
              50 100%Z (JS.Fin (1 # 2)))
    as (data & Hrun & Hlen & _ & _ & Hcount & _).
  - vm_compute. discriminate.
  - split; vm_compute; discriminate.
  - vm_compute. discriminate.
  - exists data. split; [exact Hrun|]. split; [exact Hlen | exact Hcount].
Defined.

(** The rejection loop on a source that always yields 0: the only index
    ever selected is 20, and the loop is still running after any number of
    rounds. *)
Lemma constant_source_loops (fuel : nat) :
  forall s k,
    s = [] \/ s = [JS.Fin 20] ->
    fst (DataGenerator.while_rand fuel
           (fun anomalySet => JS.lt (JS.of_nat (length anomalySet)) (JS.Fin 8))
           (fun anomalySet =>
              DataGenerator.bind (DataGenerator.Math_random (fun _ => 0))
                (fun r => DataGenerator.ret
                   (DataGenerator.set_add anomalySet
                      (JS.add (JS.floor (JS.mul r (JS.of_Z (100 - 40)))) (JS.Fin 20)))))
           s k) = None.
Proof.
  induction fuel as [|fuel IH]; intros s k Hs.
  - destruct Hs as [-> | ->]; reflexivity.
  - destruct Hs as [-> | ->]; cbn [DataGenerator.while_rand].
    + change (JS.lt (JS.of_nat (length (@nil JS.num))) (JS.Fin 8)) with true. cbv iota.
      unfold DataGenerator.bind at 1. apply IH. now right.
    + change (JS.lt (JS.of_nat (length [JS.Fin 20])) (JS.Fin 8)) with true. cbv iota.
      unfold DataGenerator.bind at 1. apply IH. now right.
Qed.

(** The sentence as the specification words it fails on the source that always
    yields 0: with 100 points and the intensity 0.5 the generator returns
    nothing, whatever the number of rounds it is given. *)
Lemma generateSoilData_constant_source_counterexample :
  (100 <= 100)%Z
  /\ JS.within 0 1 (JS.Fin (1 # 2))
  /\ (forall k : nat, 0 <= (fun _ : nat => 0) k < 1)
  /\ ~ exists fuel data,
         DataGenerator.generateSoilData (fun _ => 0) (fun _ => 0) fuel 100 (JS.Fin (1 # 2))
         = Some data.
Proof.
  split; [lia|]. split; [split; discriminate|].
  split; [intro k; split; [discriminate | reflexivity]|].
  intros (fuel & data & Hrun).
  unfold DataGenerator.generateSoilData, DataGenerator.generateSoilData_rand in Hrun.
  unfold DataGenerator.bind at 1 in Hrun.
  pose proof (constant_source_loops fuel (s := []) 0%nat (or_introl eq_refl)) as Hloop.
  unfold DataGenerator.fill_anomalySet in Hrun.
  change (JS.floor (JS.mul (JS.of_Z 100) (JS.Fin (2 # 25)))) with (JS.Fin 8) in Hrun.
  destruct (DataGenerator.while_rand fuel _ _ [] 0%nat) as [filled k1].
  cbn [fst] in Hloop. subst filled. discriminate Hrun.
Qed.
(** ** Loaded data and the windows of a training *)

Section LoadedData.

Local Open Scope Z_scope.

Import DataGenerator AutoencoderModel Index Page JS.

Variable sin : Q -> Q.
Variable rand : nat -> Q.
Variable Network : Type.
Variable buildAutoencoder : Z -> Network.
Variable fit_epoch : list (list num) -> nat -> Z -> Network -> Network * option num.
Variable shape_error : list (list num) -> string.

Lemma selected_count (W : Z) (l : list SoilDataPoint) :
  forall i,
    length (selected (fun d j => negb (isAnomaly d) && (j <? W)) i l)
    = length (filter (fun d => negb (isAnomaly d)) (firstn (Z.to_nat (W - i)) l)).
Proof.
  induction l as [|d l IH]; intro i; cbn [selected].
  - now rewrite firstn_nil.
  - rewrite length_app, IH. destruct (Z.ltb_spec i W) as [Hlt | Hge].
    + replace (Z.to_nat (W - i)) with (S (Z.to_nat (W - (i + 1)))) by lia.
      cbn [firstn filter]. rewrite andb_true_r.
      now destruct (negb (isAnomaly d)).
    + rewrite andb_false_r.
      replace (Z.to_nat (W - i)) with 0%nat by lia.
      replace (Z.to_nat (W - (i + 1))) with 0%nat by lia.
      reflexivity.
Qed.

(** The windows used for training are as many as the samples not marked as
    anomalies among the first [length normalized] samples. *)
Lemma normalWindows_count (soilData : list SoilDataPoint) (norm : Normalized) :
  length (normalWindows soilData norm)
  = length (filter (fun d => negb (isAnomaly d))
              (firstn (length (normalized norm)) soilData)).
Proof.
  unfold normalWindows, normalIndices, Arr.forEach.
  rewrite length_map, forEach_from_push. cbn [app].
  now rewrite selected_count, Z.sub_0_r, Nat2Z.id.
Qed.

Lemma normalized_length (windows : list (list num)) :
  length (normalized (normalizeWindows windows)) = length windows.
Proof. unfold normalizeWindows. cbn [normalized]. apply length_map. Qed.

Lemma load_windows (data : list SoilDataPoint) (norm : Normalized) :
  normalizedRef (load data) = Some norm ->
  length (normalized norm) = Z.to_nat (Z.max 0 (Z.of_nat (length data) - 9)).
Proof.
  cbn [normalizedRef load]. intro H. injection H as <-.
  rewrite normalized_length, createWindows_length, length_map.
  unfold WINDOW_SIZE. f_equal. lia.
Qed.

(** Every window of [createWindows] has [windowSize] values. *)
Lemma createWindows_width (data : list num) (w : Z) :
  0 < w -> Forall (fun win => length win = Z.to_nat w) (createWindows data w).
Proof.
  intro Hw. apply Forall_forall. intros win Hin.
  apply In_nth_error in Hin. destruct Hin as (k & Hk).
  assert (Hlt : (k < length (createWindows data w))%nat)
    by (apply nth_error_Some; congruence).
  rewrite createWindows_length in Hlt.
  rewrite createWindows_nth in Hk by lia. injection Hk as <-.
  rewrite length_firstn, length_skipn. lia.
Qed.

Lemma normalized_width (data : list SoilDataPoint) :
  Forall (fun win => length win = 10%nat) (normalized (normalized_of data)).
Proof.
  unfold normalized_of. rewrite normalized_rescale.
  apply Forall_map. unfold WINDOW_SIZE.
  pose proof (@createWindows_width (map moisture data) 10 eq_refl) as Hwidth.
  revert Hwidth. apply Forall_impl. intros win Hwin. now rewrite length_map.
Qed.

(** The windows that [handleTrain] selects from loaded data have 10 values
    each. *)
Lemma normalWindows_width (data : list SoilDataPoint) :
  Forall (fun win => length win = 10%nat) (normalWindows data (normalized_of data)).
Proof.
  unfold normalWindows. apply Forall_map, Forall_forall. intros j Hj.
  apply normalIndices_In in Hj. destruct Hj as [Hj _].
  unfold Arr.get. destruct (Z.ltb_spec j 0); [lia|].
  destruct (nth_error (normalized (normalized_of data)) (Z.to_nat j)) as [win|] eqn:E.
  - pose proof (normalized_width data) as Hwidth. rewrite Forall_forall in Hwidth.
    apply Hwidth. eapply nth_error_In, E.
  - apply nth_error_None in E. lia.
Qed.

(** The outcome of a training run on rows that the network takes, epoch by
    epoch. *)
Lemma trainAutoencoder_run (U : Type) (normalWindows : list (list num))
  (config : TrainingConfig U) (u : U) :
  takes 10 normalWindows = true ->
  exists m ls,
    trainAutoencoder buildAutoencoder fit_epoch shape_error normalWindows config u
    = ({| model := Some m; isModelTrained := true |}, Ok {| loss := ls |},
       fold_left (notify config)
         (reports (match epochs config with Some e => e | None => 50%nat end) 0 ls) u)
    /\ length ls = match epochs config with Some e => e | None => 50%nat end.
Proof.
  intro Htakes. unfold trainAutoencoder. rewrite Htakes.
  set (n := match epochs config with Some e => e | None => 50%nat end).
  destruct (epochs_run fit_epoch normalWindows config n
              (match batchSize config with Some b => b | None => 32%nat end)
              n 0 (buildAutoencoder 10) [] u) as (m & ls & -> & Hlen).
  exists m, ls. split; [reflexivity | exact Hlen].
Qed.

(** With ten windows or more to train on, a training on loaded data
    completes. *)
Lemma handleTrain_loaded (data : list SoilDataPoint) (shown0 : Progress) :
  10 <= Z.of_nat (length (normalWindows data (normalized_of data))) ->
  exists m ls,
    handleTrain buildAutoencoder fit_epoch shape_error data (Some (normalized_of data))
      shown0
    = ModelTrained {| model := Some m; isModelTrained := true |} {| loss := ls |}
        (fold_left (notify train_config) (reports 60 0 ls) (reset_progress shown0))
    /\ length ls = 60%nat.
Proof.
  intro Hten. unfold handleTrain.
  assert (Hdata : (length data =? 0)%nat = false).
  { apply Nat.eqb_neq. intro E. rewrite normalWindows_count in Hten.
    apply length_zero_iff_nil in E. subst data. rewrite firstn_nil in Hten.
    cbn in Hten. lia. }
  rewrite Hdata. cbv zeta.
  destruct (Z.ltb_spec (Z.of_nat (length (normalWindows data (normalized_of data)))) 10);
    [lia|].
  destruct (@trainAutoencoder_run Progress (normalWindows data (normalized_of data))
              train_config (reset_progress shown0)) as (m & ls & -> & Hlen).
  - apply takes_width. split; [|apply normalWindows_width].
    intro E. rewrite E in Hten. cbn in Hten. lia.
  - exists m, ls. split; [reflexivity | exact Hlen].
Qed.

Lemma flags_of_points (s : list Z) (idxs : list Z) (pts : list SoilDataPoint) :
  Forall2 (point_of s) idxs pts -> map isAnomaly pts = map (zmem s) idxs.
Proof.
  induction 1 as [|i p idxs pts (_ & Hp & _) _ IH]; [reflexivity|].
  cbn [map]. now rewrite Hp, IH.
Qed.

(** The series that the generator builds once [anomalySet] is filled. *)
Lemma generateSoilData_from_set (fuel : nat) (numPoints : Z) (a : Q) (s : list Z)
  (k : nat) :
  (0 <= a <= 1)%Q ->
  fill_anomalySet rand fuel numPoints (of_Z (8 * numPoints / 100)) 0%nat
  = (Some (map of_Z s), k) ->
  exists data,
    generateSoilData sin rand fuel numPoints (Fin a) = Some data
    /\ Forall2 (point_of s) (zrange 0 (Z.to_nat numPoints)) data.
Proof.
  intros Ha Hfill. unfold generateSoilData, generateSoilData_rand.
  rewrite floor_eight_percent. unfold bind at 1. rewrite Hfill. unfold bind at 1.
  destruct (for_rand_points sin rand s (Z.to_nat numPoints) Ha 0 [] k)
    as (pts & k2 & -> & Hpts).
  cbn [app]. unfold ret. cbn [fst]. now exists pts.
Qed.

End LoadedData.

(** ** C1: a training on generated data *)

Section HandleTrainCenter.

Local Open Scope Z_scope.

Import DataGenerator AutoencoderModel Index Page JS.

Variable sin : Q -> Q.
Variable Network : Type.
Variable buildAutoencoder : Z -> Network.
Variable fit_epoch : list (list num) -> nat -> Z -> Network -> Network * option num.
Variable shape_error : list (list num) -> string.

(** The eight indices that [cycle_source] selects among 100 samples. *)
Lemma cycle_source_set :
  fill_anomalySet cycle_source 50 100 (of_Z (8 * 100 / 100)) 0%nat
  = (Some (map of_Z [20; 41; 63; 25; 47; 69; 31; 53]), 8%nat).
Proof. vm_compute. reflexivity. Qed.

Lemma flag_at (data : list SoilDataPoint) (flags : list bool) (i : Z) (b : bool) :
  map isAnomaly data = flags ->
  Arr.get flags i = Some b ->
  exists d, Arr.get data i = Some d /\ isAnomaly d = b.
Proof.
  intros <-. unfold Arr.get. destruct (i <? 0); [discriminate|].
  rewrite nth_error_map. destruct (nth_error data (Z.to_nat i)) as [d|]; [|discriminate].
  cbn [option_map]. intro H. injection H as <-. now exists d.
Qed.

Lemma filter_flags (data : list SoilDataPoint) (n : nat) :
  length (filter (fun d => negb (isAnomaly d)) (firstn n data))
  = length (filter negb (firstn n (map isAnomaly data))).
Proof.
  rewrite firstn_map. induction (firstn n data) as [|d l IH]; [reflexivity|].
  cbn [map filter]. destruct (negb (isAnomaly d)); cbn [length]; now rewrite IH.
Qed.

(** The series generated from [cycle_source]: its labels. *)
Lemma cycle_source_series :
  exists data,
    generateSoilData sin cycle_source 50 100 (Fin (1 # 2)) = Some data
    /\ length data = 100%nat
    /\ map isAnomaly data
       = map (zmem [20; 41; 63; 25; 47; 69; 31; 53]) (zrange 0 100).
Proof.
  destruct (@generateSoilData_from_set sin cycle_source 50 100 (1 # 2)
              [20; 41; 63; 25; 47; 69; 31; 53] 8)
    as (data & Hgen & Hpts).
  { split; vm_compute; discriminate. }
  { exact cycle_source_set. }
  exists data. split; [exact Hgen|]. split.
  - rewrite <- (Forall2_length Hpts). apply zrange_length.
  - exact (flags_of_points Hpts).
Qed.

Lemma labelled_windows (data : list SoilDataPoint) (flags : list bool) :
  map isAnomaly data = flags ->
  length (normalWindows data (normalized_of data))
  = length (filter negb (firstn (length data - 9) flags)).
Proof.
  intros <-. rewrite normalWindows_count, filter_flags.
  rewrite (@load_windows data (normalized_of data) eq_refl). do 3 f_equal. lia.
Qed.

(** C1, on the code.  [handleGenerateData] with 100 points, whose random
    source selects the samples 20, 25, 31, 41, 47, 53, 63 and 69 as
    anomalies, and then [handleTrain]: the training completes, and among its
    windows is window 15, whose first sample is no anomaly and whose center,
    sample 20, is one; window 41, whose center is no anomaly, is left out
    because its first sample is one.  Whatever the sine and the network. *)
Theorem handleTrain_trains_on_anomalous_center :
  exists page norm st history shown first center,
    handleGenerateData sin cycle_source 50 100 (Fin (1 # 2)) = Some page
    /\ normalizedRef page = Some norm
    /\ groundTruthRef page
       = map (zmem [20; 41; 63; 25; 47; 69; 31; 53]) (zrange 0 100)
    /\ handleTrain buildAutoencoder fit_epoch shape_error (soilData page)
         (normalizedRef page) idle
       = ModelTrained st history shown
    /\ In 15 (normalIndices (soilData page) norm)
    /\ Arr.get (soilData page) 15 = Some first /\ isAnomaly first = false
    /\ Arr.get (soilData page) (15 + WINDOW_SIZE / 2) = Some center
    /\ isAnomaly center = true
    /\ ~ In 41 (normalIndices (soilData page) norm)
    /\ center_normal (soilData page) 41 = true.
Proof.
  destruct cycle_source_series as (data & Hgen & Hlen & Hflags).
  pose proof (@load_windows data (normalized_of data) eq_refl) as Hw.
  rewrite Hlen in Hw.
  assert (Hcount : length (normalWindows data (normalized_of data)) = 83%nat).
  { rewrite (@labelled_windows data _ Hflags), Hlen. vm_compute. reflexivity. }
  destruct (@handleTrain_loaded Network buildAutoencoder fit_epoch shape_error data idle)
    as (m & ls & Htrain & _); [lia|].
  assert (H15 : Arr.get (map (zmem [20; 41; 63; 25; 47; 69; 31; 53]) (zrange 0 100)) 15
                = Some false) by (vm_compute; reflexivity).
  assert (H20 : Arr.get (map (zmem [20; 41; 63; 25; 47; 69; 31; 53]) (zrange 0 100)) 20
                = Some true) by (vm_compute; reflexivity).
  assert (H41 : Arr.get (map (zmem [20; 41; 63; 25; 47; 69; 31; 53]) (zrange 0 100)) 41
                = Some true) by (vm_compute; reflexivity).
  assert (H46 : Arr.get (map (zmem [20; 41; 63; 25; 47; 69; 31; 53]) (zrange 0 100)) 46
                = Some false) by (vm_compute; reflexivity).
  destruct (@flag_at data _ 15 false Hflags H15) as (first & Hfirst & Hnormal).
  destruct (@flag_at data _ 20 true Hflags H20) as (center & Hcenter & Hanomaly).
  destruct (@flag_at data _ 41 true Hflags H41) as (d41 & Hd41 & Ha41).
  destruct (@flag_at data _ 46 false Hflags H46) as (d46 & Hd46 & Ha46).
  exists (load data), (normalized_of data),
    {| model := Some m; isModelTrained := true |}, {| loss := ls |},
    (fold_left (notify train_config) (reports 60 0 ls) (reset_progress idle)),
    first, center.
  split; [unfold handleGenerateData; now rewrite Hgen|].
  split; [reflexivity|]. split; [exact Hflags|].
  split; [exact Htrain|].
  split.
  { apply normalIndices_In. rewrite Hw. split; [lia|]. exists first.
    split; [exact Hfirst | exact Hnormal]. }
  split; [exact Hfirst|]. split; [exact Hnormal|].
  split; [exact Hcenter|]. split; [exact Hanomaly|].
  split.
  - intro Hin. apply normalIndices_In in Hin. destruct Hin as (_ & d & Hd & Hn).
    cbn [soilData load] in Hd. rewrite Hd41 in Hd. injection Hd as <-. congruence.
  - unfold center_normal. cbn [soilData load].
    replace (41 + WINDOW_SIZE / 2) with 46 by reflexivity.
    now rewrite Hd46, Ha46.
Qed.

End HandleTrainCenter.

(* ================================================================== *)
(** * Part IV: further properties of the code                          *)
(* ================================================================== *)

(** ** Rounding to decimal places *)

Section RoundTo.

Import JS.

Lemma scale_pos (d : nat) : 0 < inject_Z (10 ^ Z.of_nat d).
Proof.
  change 0 with (inject_Z 0). rewrite <- Zlt_Qlt.
  apply Z.pow_pos_nonneg; lia.
Qed.

(** Rounding keeps a number that is not negative between two bounds that
    are multiples of the rounding step. *)
Lemma round_to_within (d : nat) (L H : Z) (lo hi q : Q) :
  0 <= q ->
  lo * inject_Z (10 ^ Z.of_nat d) == inject_Z L ->
  hi * inject_Z (10 ^ Z.of_nat d) == inject_Z H ->
  lo <= q <= hi ->
  within lo hi (round_to d (Fin q)).
Proof.
  intros Hq HL HH [Hlo Hhi]. unfold round_to.
  pose proof (scale_pos d) as Hs. set (s := inject_Z (10 ^ Z.of_nat d)) in *.
  rewrite (proj2 (Qltb_false q 0) Hq).
  set (n := Qfloor (Qabs q * s + (1 # 2))).
  assert (Habs : Qabs q == q) by now apply Qabs_pos.
  assert (HLn : (L <= n)%Z).
  { rewrite <- (Qfloor_Z L). apply Qfloor_resp_le. rewrite <- HL, Habs.
    assert (lo * s <= q * s) by (apply Qmult_le_compat_r; lra). lra. }
  assert (HnH : (n <= H)%Z).
  { apply Z.lt_succ_r. rewrite Zlt_Qlt.
    apply Qle_lt_trans with (Qabs q * s + (1 # 2)); [apply Qfloor_le|].
    unfold Z.succ. rewrite inject_Z_plus, <- HH, Habs.
    assert (q * s <= hi * s) by (apply Qmult_le_compat_r; lra).
    change (inject_Z 1) with 1. lra. }
  cbn [within]. rewrite Qred_correct. split.
  - apply Qle_shift_div_l; [exact Hs|]. rewrite HL. now rewrite <- Zle_Qle.
  - apply Qle_shift_div_r; [exact Hs|]. rewrite HH. now rewrite <- Zle_Qle.
Qed.

(** Rounding is monotone on numbers that are not negative. *)
Lemma round_to_mono (d : nat) (a b : Q) :
  0 <= a -> a <= b ->
  qval (round_to d (Fin a)) <= qval (round_to d (Fin b)).
Proof.
  intros Ha Hab. assert (Hb : 0 <= b) by lra. unfold round_to.
  pose proof (scale_pos d) as Hs. set (s := inject_Z (10 ^ Z.of_nat d)) in *.
  rewrite (proj2 (Qltb_false a 0) Ha), (proj2 (Qltb_false b 0) Hb).
  cbn [qval]. rewrite !Qred_correct.
  apply Qmult_le_compat_r; [|apply Qlt_le_weak, Qinv_lt_0_compat, Hs].
  rewrite <- Zle_Qle. apply Qfloor_resp_le.
  rewrite (Qabs_pos a Ha), (Qabs_pos b Hb).
  assert (a * s <= b * s) by (apply Qmult_le_compat_r; lra). lra.
Qed.

End RoundTo.

(** ** The classifier: confidence and threshold *)

Section DetectMore.

Local Open Scope Z_scope.

Import AnomalyDetection JS.

Lemma mapi_from_Forall_of (A B : Type) (P : A -> Prop) (R : B -> Prop)
  (f : A -> Z -> B) (l : list A) :
  Forall P l -> (forall x i, P x -> R (f x i)) ->
  forall i, Forall R (Arr.mapi_from f i l).
Proof.
  intros Hl Hf. induction Hl as [|x l Hx _ IH]; intro i; cbn [Arr.mapi_from];
    constructor; auto.
Qed.

Lemma detect_one_confidence (t e : Q) (windowSize i : Z) :
  (0 < t)%Q -> (0 <= e)%Q ->
  let r := detect_one (Fin t) windowSize (Fin e) i in
  within 0 1 (confidence r)
  /\ (isAnomaly r = true -> within (1 # 2) 1 (confidence r)).
Proof.
  intros Ht He r. subst r. unfold detect_one. cbn [confidence isAnomaly].
  cbn [gt lt]. destruct (Qltb t e) eqn:E.
  - apply Qltb_true in E.
    assert (Hconf : within (1 # 2) 1
              (round_to 3 (min2 (Fin 1) (div (Fin e) (mul (Fin t) (Fin 2)))))).
    { cbn [mul div].
      rewrite (proj2 (Qeq_bool_false _ _)) by (rewrite Qred_correct; lra).
      assert (Hx : (1 # 2 <= Qred (e / Qred (t * 2)))%Q).
      { rewrite !Qred_correct. apply Qle_shift_div_l; lra. }
      cbn [min2 lt]. destruct (Qltb (Qred (e / Qred (t * 2))) 1) eqn:E1.
      - apply Qltb_true in E1.
        apply round_to_within with (L := 500) (H := 1000); try reflexivity; lra.
      - apply round_to_within with (L := 500) (H := 1000); try reflexivity; lra. }
    split; [|now intros _].
    destruct (round_to 3 _) as [c| | |]; try contradiction. cbn [within] in *. lra.
  - apply Qltb_false in E. split; [|discriminate].
    cbn [div]. rewrite (proj2 (Qeq_bool_false _ _)) by lra. cbn [sub].
    assert (Hx : (0 <= Qred (1 - Qred (e / t)))%Q /\ (Qred (1 - Qred (e / t)) <= 1)%Q).
    { rewrite !Qred_correct.
      assert ((0 <= e / t)%Q) by (apply Qle_shift_div_l; lra).
      assert ((e / t <= 1)%Q) by (apply Qle_shift_div_r; lra). lra. }
    cbn [min2 lt]. destruct (Qltb (Qred (1 - Qred (e / t))) 1) eqn:E1.
    + apply round_to_within with (L := 0) (H := 1000); try reflexivity; lra.
    + apply round_to_within with (L := 0) (H := 1000); try reflexivity; lra.
Qed.

(** X1.  With a positive threshold and errors that are not negative, every
    confidence lies in [[0, 1]], and the confidence of an anomaly is at
    least 0.5. *)
Theorem detectAnomalies_confidence_unit (errors : list num) (t : Q) (windowSize : Z) :
  (0 < t)%Q ->
  Forall nonneg errors ->
  Forall (fun r => within 0 1 (confidence r)
                   /\ (isAnomaly r = true -> within (1 # 2) 1 (confidence r)))
         (detectAnomalies errors (Fin t) windowSize).
Proof.
  intros Ht Herr. unfold detectAnomalies, Arr.mapi.
  apply mapi_from_Forall_of with (P := nonneg); [exact Herr|].
  intros [q| | |] i Hq; try contradiction. now apply detect_one_confidence.
Qed.

Lemma detectAnomalies_confidence_unit_witness :
  Forall (fun r => within 0 1 (confidence r)
                   /\ (isAnomaly r = true -> within (1 # 2) 1 (confidence r)))
         (detectAnomalies [Fin (1 # 100); Fin (1 # 20); Fin 0] (Fin (1 # 50)) 10).
Proof.
  apply detectAnomalies_confidence_unit.
  - reflexivity.
  - repeat constructor; discriminate.
Defined.

(** X2.  Raising a finite threshold never adds an anomaly: what is flagged at
    the higher threshold is flagged at the lower one, so the number of
    anomalies can only go down. *)
Theorem detectAnomalies_threshold_monotone (errors : list num) (t1 t2 : Q)
  (windowSize : Z) :
  (t1 <= t2)%Q ->
  Forall2 (fun low high => isAnomaly high = true -> isAnomaly low = true)
    (detectAnomalies errors (Fin t1) windowSize)
    (detectAnomalies errors (Fin t2) windowSize)
  /\ (flagged (detectAnomalies errors (Fin t2) windowSize)
      <= flagged (detectAnomalies errors (Fin t1) windowSize))%nat.
Proof.
  intro Ht. unfold detectAnomalies, Arr.mapi, flagged. generalize 0 at 1 2 3 4 as i.
  assert (Hone : forall e, gt e (Fin t2) = true -> gt e (Fin t1) = true).
  { intros [e| | |]; cbn [gt lt]; try easy.
    rewrite !Qltb_true. lra. }
  induction errors as [|e errors IH]; intro i; cbn [Arr.mapi_from].
  - split; [constructor | reflexivity].
  - destruct (IH (i + 1)) as [IH1 IH2]. split.
    + constructor; [exact (Hone e) | exact IH1].
    + cbn [filter detect_one isAnomaly]. specialize (Hone e).
      destruct (gt e (Fin t2)); [rewrite Hone by reflexivity|];
        [|destruct (gt e (Fin t1))]; cbn [length]; lia.
Qed.

Lemma detectAnomalies_threshold_monotone_witness :
  (flagged (detectAnomalies [Fin (1 # 100); Fin (1 # 20); Fin (1 # 10)] (Fin (3 # 50)) 10)
   <= flagged (detectAnomalies [Fin (1 # 100); Fin (1 # 20); Fin (1 # 10)] (Fin (1 # 50)) 10))%nat.
Proof.
  apply (detectAnomalies_threshold_monotone
           [Fin (1 # 100); Fin (1 # 20); Fin (1 # 10)] (t1 := 1 # 50) (t2 := 3 # 50) 10).
  discriminate.
Defined.

End DetectMore.

(** ** The evaluator: counters and percentages *)

Section MetricsMore.

Local Open Scope Z_scope.

Import AnomalyDetection JS.

(** The four counters split the detections. *)
Lemma count_partition (groundTruth : list bool) (detections : list DetectionResult) :
  forall tp tn fp fn,
  exists a b c d,
    fold_left (count_one groundTruth) detections (tp, tn, fp, fn)
    = (tp + a, tn + b, fp + c, fn + d)
    /\ 0 <= a /\ 0 <= b /\ 0 <= c /\ 0 <= d
    /\ a + b + c + d = Z.of_nat (length detections)
    /\ a + c = anomalies detections.
Proof.
  induction detections as [|det dets IH]; intros tp tn fp fn.
  - exists 0, 0, 0, 0. cbn [fold_left length]. unfold anomalies. cbn [filter length].
    rewrite !Z.add_0_r. repeat split; lia.
  - cbn [fold_left]. rewrite anomalies_cons. unfold count_one at 2.
    destruct (isAnomaly det), (truthy_flag _); cbn [andb negb];
      match goal with
      | |- context [fold_left _ dets (?x, ?y, ?z, ?u)] =>
          destruct (IH x y z u) as (a & b & c & d & -> & Ha & Hb & Hc & Hd & Hsum & Hanom)
      end.
    + exists (1 + a), b, c, d. rewrite !pair_equal_spec. cbn [length]. repeat split; lia.
    + exists a, b, (1 + c), d. rewrite !pair_equal_spec. cbn [length]. repeat split; lia.
    + exists a, b, c, (1 + d). rewrite !pair_equal_spec. cbn [length]. repeat split; lia.
    + exists a, (1 + b), c, d. rewrite !pair_equal_spec. cbn [length]. repeat split; lia.
Qed.

(** X3.  Every detection is counted once: the four counters are not negative
    and add up to the number of detections, and the true and false
    positives together are the detected anomalies. *)
Theorem computeMetrics_counters (detections : list DetectionResult)
  (groundTruth : list bool) (windowSize : Z) :
  let m := computeMetrics detections groundTruth windowSize in
  0 <= truePositives m /\ 0 <= trueNegatives m
  /\ 0 <= falsePositives m /\ 0 <= falseNegatives m
  /\ truePositives m + trueNegatives m + falsePositives m + falseNegatives m
     = Z.of_nat (length detections)
  /\ truePositives m + falsePositives m = detectedAnomalies m
  /\ 0 <= totalAnomalies m <= Z.of_nat (length groundTruth).
Proof.
  intro m. subst m. unfold computeMetrics.
  destruct (count_partition groundTruth detections 0 0 0 0)
    as (a & b & c & d & -> & Ha & Hb & Hc & Hd & Hsum & Hanom).
  cbv beta iota zeta.
  cbn [truePositives trueNegatives falsePositives falseNegatives detectedAnomalies
       totalAnomalies].
  pose proof (filter_length_le (fun b0 : bool => b0) groundTruth).
  unfold anomalies in Hanom. repeat split; lia.
Qed.

Lemma ratio_unit (a n : Z) :
  0 <= a <= n -> 0 < n -> within 0 1 (div (of_Z a) (of_Z n)).
Proof.
  intros Ha Hn. unfold div, of_Z.
  assert (Hq : (0 < inject_Z n)%Q) by (change 0%Q with (inject_Z 0); now rewrite <- Zlt_Qlt).
  rewrite (proj2 (Qeq_bool_false _ _)) by lra.
  cbn [within]. rewrite Qred_correct. split.
  - apply Qle_shift_div_l; [exact Hq|]. rewrite Qmult_0_l.
    change 0%Q with (inject_Z 0). rewrite <- Zle_Qle. lia.
  - apply Qle_shift_div_r; [exact Hq|]. rewrite Qmult_1_l. rewrite <- Zle_Qle. lia.
Qed.

Lemma percent_unit (x : num) : within 0 1 x -> within 0 100 (percent x).
Proof.
  destruct x as [q| | |]; try contradiction. intros [H0 H1].
  unfold percent. cbn [mul].
  apply round_to_within with (L := 0) (H := 1000); try reflexivity;
    rewrite ?Qred_correct; lra.
Qed.

Lemma within_zero (lo hi : Q) : (lo <= 0 <= hi)%Q -> within lo hi (Fin 0).
Proof. intro H. exact H. Qed.

(** The harmonic mean of two numbers of [[0, 1]] stays in [[0, 1]]. *)
Lemma f1_unit (p r : num) :
  within 0 1 p -> within 0 1 r ->
  within 0 1
    (if gt (add p r) (Fin 0)
     then div (mul (mul (Fin 2) p) r) (add p r)
     else Fin 0).
Proof.
  destruct p as [p| | |], r as [r| | |]; try contradiction.
  intros [Hp0 Hp1] [Hr0 Hr1]. cbn [add gt lt].
  destruct (Qltb 0 (Qred (p + r))) eqn:E; [|cbn; lra].
  apply Qltb_true in E. rewrite Qred_correct in E.
  cbn [mul div]. rewrite (proj2 (Qeq_bool_false _ _)) by (rewrite Qred_correct; lra).
  cbn [within]. rewrite !Qred_correct.
  assert (Hpr : (0 <= p * r)%Q) by now apply Qmult_le_0_compat.
  assert (Hpr1 : (p * r <= p)%Q) by nra.
  assert (Hpr2 : (p * r <= r)%Q) by nra.
  split.
  - apply Qle_shift_div_l; lra.
  - apply Qle_shift_div_r; lra.
Qed.

(** X4.  Accuracy, precision, recall and F1 are percentages: each lies in
    [[0, 100]], whatever the detections and the ground truth. *)
Theorem computeMetrics_percentages (detections : list DetectionResult)
  (groundTruth : list bool) (windowSize : Z) :
  let m := computeMetrics detections groundTruth windowSize in
  within 0 100 (accuracy m) /\ within 0 100 (precision m)
  /\ within 0 100 (recall m) /\ within 0 100 (f1Score m).
Proof.
  intro m. subst m. unfold computeMetrics.
  destruct (count_partition groundTruth detections 0 0 0 0)
    as (a & b & c & d & -> & Ha & Hb & Hc & Hd & Hsum & Hanom).
  cbv beta iota zeta. cbn [accuracy precision recall f1Score].
  rewrite !Z.add_0_l.
  assert (Hacc : within 0 1 (if 0 <? a + b + c + d
                             then div (of_Z (a + b)) (of_Z (a + b + c + d)) else Fin 0)).
  { destruct (Z.ltb_spec 0 (a + b + c + d)); [apply ratio_unit; lia | cbn; lra]. }
  assert (Hprec : within 0 1 (if 0 <? a + c then div (of_Z a) (of_Z (a + c)) else Fin 0)).
  { destruct (Z.ltb_spec 0 (a + c)); [apply ratio_unit; lia | cbn; lra]. }
  assert (Hrec : within 0 1 (if 0 <? a + d then div (of_Z a) (of_Z (a + d)) else Fin 0)).
  { destruct (Z.ltb_spec 0 (a + d)); [apply ratio_unit; lia | cbn; lra]. }
  repeat split; apply percent_unit; auto. now apply f1_unit.
Qed.

(** The counters when the ground truth marks nothing. *)
Lemma count_unlabelled (groundTruth : list bool) (detections : list DetectionResult) :
  Forall (fun b => b = false) groundTruth ->
  forall tp tn fp fn,
    fold_left (count_one groundTruth) detections (tp, tn, fp, fn)
    = (tp, tn + (Z.of_nat (length detections) - anomalies detections),
       fp + anomalies detections, fn).
Proof.
  intro Hgt.
  assert (Hflag : forall i, truthy_flag (Arr.get groundTruth i) = false).
  { intro i. unfold Arr.get. destruct (i <? 0); [reflexivity|].
    destruct (nth_error groundTruth (Z.to_nat i)) as [b|] eqn:E; [|reflexivity].
    apply nth_error_In in E. rewrite (proj1 (Forall_forall _ _) Hgt b E). reflexivity. }
  induction detections as [|det dets IH]; intros tp tn fp fn.
  - unfold anomalies. cbn [fold_left filter length].
    rewrite !pair_equal_spec. repeat split; lia.
  - cbn [fold_left]. rewrite anomalies_cons. unfold count_one at 2. rewrite Hflag.
    destruct (isAnomaly det); cbn [andb negb]; rewrite IH; cbn [length];
      rewrite !pair_equal_spec; repeat split; lia.
Qed.

Lemma parseCSV_unlabelled (parseInt parseFloat : string -> num) (csvText : string) :
  Forall (fun b => b = false)
    (map DataGenerator.isAnomaly (DataGenerator.parseCSV parseInt parseFloat csvText)).
Proof.
  apply Forall_map. unfold DataGenerator.parseCSV.
  apply Forall_forall. intros p Hp. apply filter_In in Hp. destruct Hp as [Hp _].
  revert p Hp. apply Forall_forall. apply mapi_from_Forall.
  intros line i. unfold DataGenerator.parse_line. now destruct (Str.includes _ _).
Qed.

(** X5.  Against an imported series, whose samples all carry [isAnomaly = false],
    the evaluator never counts a true positive or a false negative: every
    detected anomaly is a false positive, and precision, recall and F1 are 0
    whatever the detector finds. *)
Theorem computeMetrics_imported (parseInt parseFloat : string -> num) (csvText : string)
  (detections : list DetectionResult) (windowSize : Z) :
  let labels := map DataGenerator.isAnomaly
                  (DataGenerator.parseCSV parseInt parseFloat csvText) in
  let m := computeMetrics detections labels windowSize in
  truePositives m = 0 /\ falseNegatives m = 0
  /\ falsePositives m = detectedAnomalies m
  /\ totalAnomalies m = 0
  /\ precision m = Fin 0 /\ recall m = Fin 0 /\ f1Score m = Fin 0.
Proof.
  intros labels m. subst m. unfold computeMetrics.
  pose proof (parseCSV_unlabelled parseInt parseFloat csvText) as Hlabels.
  fold labels in Hlabels.
  rewrite (count_unlabelled detections Hlabels). cbv beta iota zeta.
  cbn [truePositives falseNegatives falsePositives totalAnomalies detectedAnomalies
       precision recall f1Score].
  assert (Htotal : filter (fun b : bool => b) labels = []).
  { clear - Hlabels. induction Hlabels as [|b l -> _ IH]; [reflexivity | exact IH]. }
  rewrite Htotal.
  assert (Hprec : (if 0 <? 0 + (0 + anomalies detections)
                   then div (of_Z 0) (of_Z (0 + (0 + anomalies detections)))
                   else Fin 0) = Fin 0).
  { destruct (Z.ltb_spec 0 (0 + (0 + anomalies detections))) as [Hpos|]; [|reflexivity].
    unfold div, of_Z.
    rewrite (proj2 (Qeq_bool_false _ _)).
    - change (Fin 0) with (Fin (Qred 0)). apply (f_equal Fin), Qred_complete.
      unfold Qdiv. apply Qmult_0_l.
    - unfold Qeq, inject_Z. cbn [Qnum Qden]. lia. }
  rewrite Hprec. change (0 <? 0 + 0) with false. cbv iota.
  repeat split; try reflexivity; unfold anomalies; lia.
Qed.

End MetricsMore.
(** ** Normalization: extremes and order *)

Section NormalizeMore.

Import DataGenerator JS.

(** The normalized value [n] of a value [q] between the least value [m] and
    the greatest value [M] of the batch. *)
Lemma rescale_value (m M q : Q) :
  m <= q -> q <= M ->
  exists n,
    rescale (Fin m) (or_else (sub (Fin M) (Fin m)) (Fin 1)) (Fin q) = Fin n
    /\ q == m + n * (M - m)
    /\ (m < M -> n == (q - m) / (M - m)).
Proof.
  intros Hm HM. unfold rescale, or_else, sub, truthy.
  destruct (Qeq_bool (Qred (M - m)) 0) eqn:E; cbn [negb].
  - apply Qeq_bool_iff in E. rewrite Qred_correct in E.
    unfold div. change (Qeq_bool 1 0) with false. cbv iota.
    eexists. split; [reflexivity|]. rewrite !Qred_correct. split; [|lra].
    assert (Hq : q == m) by lra. rewrite Hq at 1. setoid_replace (M - m) with 0 by lra.
    ring.
  - apply Qeq_bool_false in E. rewrite Qred_correct in E.
    unfold div. rewrite (proj2 (Qeq_bool_false _ _)) by (rewrite Qred_correct; lra).
    eexists. split; [reflexivity|]. rewrite !Qred_correct. split.
    + field. lra.
    + reflexivity.
Qed.

Lemma map_map_Forall2 (A B : Type) (f : A -> B) (P : A -> B -> Prop)
  (ls : list (list A)) :
  Forall (Forall (fun v => P v (f v))) ls -> Forall2 (Forall2 P) ls (map (map f) ls).
Proof.
  induction 1 as [|w ls Hw _ IH]; cbn [map]; constructor; [|exact IH].
  induction Hw as [|v w Hv _ IHw]; cbn [map]; constructor; auto.
Qed.

Lemma moisture_finite (windows : list (list num)) :
  Forall (Forall (within 0 100)) windows -> Forall (Forall finite) windows.
Proof.
  apply Forall_impl. intro w. apply Forall_impl. intros [q| | |]; easy.
Qed.

(** X6.  On a batch of moistures in [[0, 100]] the fields [min] and [max]
    are the least and the greatest value of the batch, both values of it.
    The batch keeps its shape; a value equal to the least one is normalized
    to 0, and one equal to the greatest one to 1, unless the batch is
    constant: then every value is normalized to 0. *)
Theorem normalizeWindows_extremes (windows : list (list num)) :
  Forall (Forall (within 0 100)) windows ->
  concat windows <> [] ->
  let out := normalizeWindows windows in
  exists m M,
    min out = Fin m /\ max out = Fin M
    /\ In (Fin m) (concat windows) /\ In (Fin M) (concat windows)
    /\ (forall q, In (Fin q) (concat windows) -> m <= q <= M)
    /\ Forall2 (Forall2 (fun v n =>
                           (qval v == m -> n = Fin 0)
                           /\ (qval v == M -> m < M -> n = Fin 1)
                           /\ (m == M -> n = Fin 0)))
         windows (normalized out).
Proof.
  intros Hunit Hne out.
  assert (Hfin : Forall (Forall finite) windows) by now apply moisture_finite.
  assert (Hflat : Forall finite (concat windows)) by now apply Forall_concat.
  destruct (min_of_finite Hflat Hne) as (m & Emin & Hmin_in & Hmin).
  destruct (max_of_finite Hflat Hne) as (M & Emax & Hmax_in & Hmax).
  exists m, M. split; [exact Emin|]. split; [exact Emax|].
  split; [exact Hmin_in|]. split; [exact Hmax_in|].
  split; [intros q Hq; split; auto|].
  subst out. rewrite normalized_rescale, Emin, Emax.
  apply map_map_Forall2, Forall_concat, Forall_forall.
  intros v Hv.
  assert (Hvfin : finite v) by exact (proj1 (Forall_forall _ _) Hflat v Hv).
  destruct v as [q| | |]; try contradiction. cbn [qval].
  destruct (rescale_finite (Hmin q Hv) (Hmax q Hv)) as (_ & Hleast & Hgreatest).
  destruct (rescale_value (Hmin q Hv) (Hmax q Hv)) as (n & En & _ & Hn).
  split; [exact Hleast|]. split.
  - intros HqM HmM. destruct (Hgreatest HqM) as [H1 | H0]; [exact H1|].
    rewrite En in H0. injection H0 as H0. specialize (Hn HmM). rewrite H0 in Hn.
    exfalso. assert (Hone : (q - m) / (M - m) == 1) by (field_simplify_eq; lra).
    rewrite Hone in Hn. discriminate Hn.
  - intro HmM. apply Hleast. specialize (Hmin q Hv). specialize (Hmax q Hv). lra.
Qed.

Lemma normalizeWindows_extremes_witness :
  let windows := [[Fin 1; Fin 2; Fin 3]; [Fin 2; Fin 3; Fin 5]] in
  min (normalizeWindows windows) = Fin 1 /\ max (normalizeWindows windows) = Fin 5
  /\ exists m M,
       In (Fin m) (concat windows) /\ In (Fin M) (concat windows)
       /\ forall q, In (Fin q) (concat windows) -> m <= q <= M.
Proof.
  intro windows. split; [reflexivity|]. split; [reflexivity|].
  assert (Hunit : Forall (Forall (within 0 100)) windows).
  { repeat (constructor; [repeat (constructor; [cbn; lra|]); constructor|]).
    constructor. }
  assert (Hne : concat windows <> []) by discriminate.
  destruct (normalizeWindows_extremes Hunit Hne)
    as (m & M & _ & _ & Hm & HM & Hbounds & _).
  now exists m, M.
Defined.

(** X7.  Normalization never reverses the order of two moistures of a
    batch: the smaller one has a normalized value that is not greater, and
    equal values have the same normalized value. *)
Theorem normalizeWindows_monotone (windows : list (list num)) :
  Forall (Forall (within 0 100)) windows ->
  exists f,
    normalized (normalizeWindows windows) = map (map f) windows
    /\ forall a b,
         In (Fin a) (concat windows) -> In (Fin b) (concat windows) ->
         (a <= b -> qval (f (Fin a)) <= qval (f (Fin b)))
         /\ (a == b -> f (Fin a) = f (Fin b)).
Proof.
  intro Hunit. eexists. split; [apply normalized_rescale|].
  intros a b Ha Hb.
  assert (Hfin : Forall (Forall finite) windows) by now apply moisture_finite.
  assert (Hflat : Forall finite (concat windows)) by now apply Forall_concat.
  assert (Hne : concat windows <> []) by (intro E; rewrite E in Ha; contradiction).
  destruct (min_of_finite Hflat Hne) as (m & -> & Hmin_in & Hmin).
  destruct (max_of_finite Hflat Hne) as (M & -> & Hmax_in & Hmax).
  destruct (rescale_value (Hmin a Ha) (Hmax a Ha)) as (na & Ea & Hda & Hna).
  destruct (rescale_value (Hmin b Hb) (Hmax b Hb)) as (nb & Eb & Hdb & Hnb).
  assert (Hsame : a == b ->
            rescale (Fin m) (or_else (sub (Fin M) (Fin m)) (Fin 1)) (Fin a)
            = rescale (Fin m) (or_else (sub (Fin M) (Fin m)) (Fin 1)) (Fin b)).
  { intro Hab. unfold rescale, sub. do 2 f_equal. now apply Qred_complete; rewrite Hab. }
  split; [|exact Hsame].
  intro Hab. destruct (Qlt_le_dec a b) as [Hlt | Hge].
  - rewrite Ea, Eb. cbn [qval].
    assert (HmM : m < M).
    { specialize (Hmin a Ha). specialize (Hmax b Hb). lra. }
    rewrite (Hna HmM), (Hnb HmM).
    apply Qmult_le_compat_r; [lra | apply Qlt_le_weak, Qinv_lt_0_compat; lra].
  - rewrite Hsame by lra. apply Qle_refl.
Qed.

Lemma normalizeWindows_monotone_witness :
  let windows := [[Fin 1; Fin 2; Fin 3]; [Fin 2; Fin 3; Fin 5]] in
  exists f,
    normalized (normalizeWindows windows) = map (map f) windows
    /\ qval (f (Fin 2)) <= qval (f (Fin 5)).
Proof.
  intro windows.
  assert (Hunit : Forall (Forall (within 0 100)) windows).
  { repeat (constructor; [repeat (constructor; [cbn; lra|]); constructor|]).
    constructor. }
  destruct (normalizeWindows_monotone Hunit) as (f & Hf & Horder).
  exists f. split; [exact Hf|].
  apply (Horder 2 5); [cbn; tauto | cbn; tauto | discriminate].
Defined.

End NormalizeMore.

(** ** Framing: the series behind the windows *)

Section WindowsMore.

Local Open Scope Z_scope.

Import DataGenerator.

Lemma zrange_seq (n : nat) :
  forall a : nat, zrange (Z.of_nat a) n = map Z.of_nat (seq a n).
Proof.
  induction n as [|n IH]; intro a; cbn [zrange seq map]; [reflexivity|].
  f_equal. rewrite <- IH. f_equal. lia.
Qed.

Lemma skipn_nth_seq (A : Type) (d : A) (l : list A) :
  forall n, skipn n l = map (fun j => nth j l d) (seq n (length l - n)).
Proof.
  induction l as [|x l IH]; intro n.
  - now destruct n.
  - destruct n as [|n].
    + cbn [skipn length Nat.sub seq map nth]. f_equal.
      rewrite (IH 0%nat) at 1. cbn [skipn]. rewrite Nat.sub_0_r.
      rewrite <- seq_shift, map_map. reflexivity.
    + cbn [skipn length Nat.sub]. rewrite IH.
      rewrite <- seq_shift, map_map. reflexivity.
Qed.

Lemma map_seq_shifted (A : Type) (f g : nat -> A) (n : nat) :
  forall a b,
    (forall i, (i < n)%nat -> f (a + i)%nat = g (b + i)%nat) ->
    map f (seq a n) = map g (seq b n).
Proof.
  induction n as [|n IH]; intros a b H; [reflexivity|].
  cbn [seq map]. f_equal.
  - specialize (H 0%nat). rewrite !Nat.add_0_r in H. apply H. lia.
  - apply IH. intros i Hi. specialize (H (S i)).
    replace (S a + i)%nat with (a + S i)%nat by lia.
    replace (S b + i)%nat with (b + S i)%nat by lia. apply H. lia.
Qed.

Lemma last_firstn_nth (A : Type) (d : A) (n : nat) (l : list A) :
  (S n <= length l)%nat -> last (firstn (S n) l) d = nth n l d.
Proof. intro H. rewrite (firstn_S_snoc d l H). apply last_last. Qed.

(** X8.  The series can be recovered from its windows: it is the first window
    followed by the last value of every further window. *)
Theorem createWindows_recovers (data : list JS.num) (w : Z) (d : JS.num) :
  0 < w <= Z.of_nat (length data) ->
  let windows := createWindows data w in
  data = hd [] windows ++ map (fun win => last win d) (tl windows).
Proof.
  intros Hw windows. subst windows. rewrite createWindows_map.
  replace (Z.to_nat (Z.of_nat (length data) - w + 1))
    with (S (length data - Z.to_nat w)) by lia.
  cbn [zrange map hd tl]. rewrite map_map.
  rewrite slice_inside by lia.
  replace (0 + w - 0) with w by lia. change (Z.to_nat 0) with 0%nat. cbn [skipn].
  rewrite <- (firstn_skipn (Z.to_nat w) data) at 1. f_equal.
  rewrite (skipn_nth_seq d data (Z.to_nat w)).
  change (0 + 1) with (Z.of_nat 1). rewrite zrange_seq, !map_map.
  apply map_seq_shifted. intros k Hk.
  rewrite slice_inside by lia.
  destruct (Z.to_nat w) as [|n] eqn:En; [lia|].
  replace (Z.to_nat (Z.of_nat (1 + k) + w - Z.of_nat (1 + k))) with (S n) by lia.
  rewrite last_firstn_nth by (rewrite length_skipn; lia).
  rewrite nth_skipn. f_equal. lia.
Qed.

Lemma createWindows_recovers_witness :
  let data := map JS.of_Z [1; 2; 3; 4; 5] in
  data = hd [] (createWindows data 3)
         ++ map (fun win => last win JS.NaN) (tl (createWindows data 3)).
Proof.
  intro data. apply (createWindows_recovers data (w := 3) JS.NaN).
  split; [reflexivity | discriminate].
Defined.

End WindowsMore.

(** ** The importer: labels and timestamps *)

Section ParseMore.

Local Open Scope Z_scope.

Import DataGenerator JS.

Variable parseInt : string -> num.
Variable parseFloat : string -> num.

(** The importer keeps every row that it builds. *)
Lemma parseCSV_unfiltered (csvText : string) :
  parseCSV parseInt parseFloat csvText
  = Arr.mapi
      (parse_line parseInt parseFloat
         (Str.includes "moisture" (Str.toLowerCase (hd EmptyString (csv_lines csvText)))))
      (tl (csv_lines csvText)).
Proof.
  unfold parseCSV. rewrite slice_from_1. apply filter_all, mapi_from_Forall.
  intros l i. now rewrite parse_line_not_NaN.
Qed.

Lemma parseCSV_length (csvText : string) :
  length (parseCSV parseInt parseFloat csvText) = (length (csv_lines csvText) - 1)%nat.
Proof.
  rewrite parseCSV_unfiltered. unfold Arr.mapi.
  now rewrite mapi_from_length, length_tl.
Qed.

Lemma mapi_from_timestamps (A : Type) (f : A -> Z -> SoilDataPoint) (l : list A) :
  (forall x i, timestamp (f x i) = of_Z i) ->
  forall i, map timestamp (Arr.mapi_from f i l) = map of_Z (zrange i (length l)).
Proof.
  intro Hf. induction l as [|x l IH]; intro i; cbn [Arr.mapi_from map length zrange].
  - reflexivity.
  - now rewrite Hf, IH.
Qed.

(** X9.  No imported sample is labelled as an anomaly.  Without a moisture
    column in the header the timestamps are the row numbers 0, 1, ...; with
    one, a timestamp field that parses to 0 or to no number at all is
    replaced by the row number. *)
Theorem parseCSV_timestamps (csvText : string) :
  let lines := csv_lines csvText in
  let hasMoisture := Str.includes "moisture" (Str.toLowerCase (hd EmptyString lines)) in
  let rows := parseCSV parseInt parseFloat csvText in
  Forall (fun p => isAnomaly p = false) rows
  /\ (hasMoisture = false ->
        map timestamp rows = map of_Z (zrange 0 (length rows)))
  /\ (hasMoisture = true ->
        forall (i : nat) (line : string),
          nth_error (tl lines) i = Some line ->
          truthy (parseInt (timestamp_field line)) = false ->
          exists p, nth_error rows i = Some p /\ timestamp p = of_Z (Z.of_nat i)).
Proof.
  intros lines hasMoisture rows.
  assert (Hrows : rows = Arr.mapi (parse_line parseInt parseFloat hasMoisture) (tl lines))
    by apply parseCSV_unfiltered.
  split; [|split].
  - rewrite Hrows. apply mapi_from_Forall. intros line i. unfold parse_line.
    now destruct hasMoisture.
  - intro Hno. rewrite Hrows at 1. unfold Arr.mapi.
    rewrite mapi_from_timestamps.
    + rewrite Hrows. unfold Arr.mapi. now rewrite mapi_from_length.
    + intros line i. unfold parse_line. now rewrite Hno.
  - intros Hyes i line Hline Hfalsy.
    exists (parse_line parseInt parseFloat hasMoisture line (0 + Z.of_nat i)).
    split.
    + rewrite Hrows. unfold Arr.mapi. now rewrite (mapi_from_nth _ _ _ _ Hline).
    + unfold parse_line. rewrite Hyes. cbn [timestamp].
      unfold or_else. fold (timestamp_field line). now rewrite Hfalsy.
Qed.

End ParseMore.

(** Three rows under a header with a moisture column: the timestamps 5, 0
    and a word are recorded as 5, 1 and 2. *)
Lemma parseCSV_timestamps_witness :
  let csvText := ("timestamp,moisture" ++ String "010" "5,42"
                  ++ String "010" "0,43" ++ String "010" "x,44")%string in
  map DataGenerator.timestamp (DataGenerator.parseCSV parse_digits parse_digits csvText)
  = [JS.Fin 5; JS.Fin 1; JS.Fin 2]
  /\ exists p,
       nth_error (DataGenerator.parseCSV parse_digits parse_digits csvText) 1 = Some p
       /\ DataGenerator.timestamp p = JS.of_Z 1.
Proof.
  intro csvText. split; [vm_compute; reflexivity|].
  destruct (parseCSV_timestamps parse_digits parse_digits csvText) as (_ & _ & Hfalsy).
  exact (Hfalsy eq_refl 1%nat "0,43"%string eq_refl eq_refl).
Defined.

(** ** The model: reconstruction error and size estimate *)

Section ModelMore.

Local Open Scope Z_scope.

Import DataGenerator AutoencoderModel ModelUse JS.

Variable Network : Type.
Variable predict : Network -> list (list num) -> list (list num).
Variable shape_error : list (list num) -> string.
Variable countParams : Network -> Z.
Variable rand : nat -> Q.

(** A sum of numbers that are not negative is at least its first term, and
    equal to it only when every further term is 0. *)
Lemma fold_add_nonneg (l : list num) :
  Forall nonneg l ->
  forall a, exists s,
    fold_left add l (Fin a) = Fin s
    /\ (a <= s)%Q
    /\ (s == a <-> Forall (fun v => qval v == 0) l).
Proof.
  induction 1 as [|v l Hv _ IH]; intro a.
  - exists a. split; [reflexivity|]. split; [lra|]. split; [constructor | reflexivity].
  - destruct v as [q| | |]; try contradiction. cbn [nonneg] in Hv.
    cbn [fold_left add]. destruct (IH (Qred (a + q))) as (s & -> & Hle & Hiff).
    rewrite Qred_correct in Hle, Hiff.
    exists s. split; [reflexivity|]. split; [lra|]. split.
    + intro Hs. assert (Hq : q == 0) by lra. constructor; [exact Hq|].
      apply Hiff. lra.
    + intro Hall. inversion Hall as [|? ? Hq Hrest]; subst. cbn [qval] in Hq.
      apply Hiff in Hrest. lra.
Qed.

Lemma Qsquare_nonneg (c : Q) : (0 <= c * c)%Q.
Proof.
  destruct (Qlt_le_dec c 0) as [Hneg | Hpos].
  - setoid_replace (c * c)%Q with ((- c) * (- c))%Q by ring.
    apply Qmult_le_0_compat; lra.
  - now apply Qmult_le_0_compat.
Qed.

Lemma Qsquare_zero (c : Q) : (c * c == 0 <-> c == 0)%Q.
Proof.
  split.
  - intro H. apply Qmult_integral in H. tauto.
  - intros ->. ring.
Qed.

Lemma squared_diff_nonneg (x : list num) :
  forall y,
    Forall finite x -> Forall finite y -> length x = length y ->
    Forall nonneg (squared_diff x y)
    /\ (Forall (fun v => qval v == 0) (squared_diff x y) <-> same_values x y).
Proof.
  unfold squared_diff, same_values.
  induction x as [|a x IH]; intros [|b y] Hx Hy Hlen; try discriminate.
  - split; [constructor|]. split; constructor.
  - inversion Hx as [|? ? Ha Hx']; inversion Hy as [|? ? Hb Hy']; subst.
    destruct a as [a| | |], b as [b| | |]; try contradiction.
    cbn [length] in Hlen. injection Hlen as Hlen.
    destruct (IH y Hx' Hy' Hlen) as [IHn IHz].
    cbn [combine map fst snd sub mul].
    assert (Hsq : Qred (Qred (a - b) * Qred (a - b)) == (a - b) * (a - b))
      by now rewrite !Qred_correct.
    split.
    + constructor; [|exact IHn]. cbn [nonneg]. rewrite Hsq. apply Qsquare_nonneg.
    + split.
      * intro H. inversion H as [|? ? H0 Hrest]; subst. cbn [qval] in H0.
        rewrite Hsq in H0. apply (proj1 (Qsquare_zero _)) in H0.
        constructor; [cbn [qval]; lra | now apply IHz].
      * intro H. inversion H as [|? ? ? ? H0 Hrest]; subst. cbn [qval] in H0.
        constructor; [|now apply IHz].
        cbn [qval]. rewrite Hsq. apply Qsquare_zero. lra.
Qed.

(** The error of one window: not negative, and 0 exactly when the
    reconstruction has the values of the window. *)
Lemma row_error (x y : list num) :
  Forall finite x -> Forall finite y -> length x = length y -> x <> [] ->
  exists e,
    div (fold_left add (squared_diff x y) (Fin 0)) (of_nat (length (squared_diff x y)))
    = Fin e
    /\ (0 <= e)%Q
    /\ (e == 0 <-> same_values x y).
Proof.
  intros Hx Hy Hlen Hne.
  destruct (squared_diff_nonneg Hx Hy Hlen) as [Hnn Hz].
  destruct (fold_add_nonneg Hnn 0) as (s & -> & Hs & Hiff).
  assert (Hn : (0 < length (squared_diff x y))%nat).
  { unfold squared_diff. rewrite !length_map, length_combine, <- Hlen, Nat.min_id.
    destruct x; [contradiction | cbn [length]; lia]. }
  set (n := length (squared_diff x y)) in *.
  assert (Hq : (0 < inject_Z (Z.of_nat n))%Q).
  { change 0%Q with (inject_Z 0). rewrite <- Zlt_Qlt. lia. }
  unfold div, of_nat, of_Z. rewrite (proj2 (Qeq_bool_false _ _)) by lra.
  eexists. split; [reflexivity|]. rewrite Qred_correct. split.
  - apply Qle_shift_div_l; lra.
  - rewrite <- Hz, <- Hiff. split.
    + intro H. apply (Qmult_inj_r _ _ (/ inject_Z (Z.of_nat n))).
      * intro E. apply (Qinv_lt_0_compat _) in Hq. lra.
      * rewrite Qmult_0_l. exact H.
    + intro H. rewrite H. unfold Qdiv. apply Qmult_0_l.
Qed.

Lemma computeReconstructionError_rows (m : Network) (windows : list (list num)) :
  mean_rows (square_rows (sub_rows windows (predict m windows)))
  = map (fun rows =>
           div (fold_left add (squared_diff (fst rows) (snd rows)) (Fin 0))
               (of_nat (length (squared_diff (fst rows) (snd rows)))))
        (combine windows (predict m windows)).
Proof.
  unfold mean_rows, square_rows, sub_rows, squared_diff. rewrite !map_map. reflexivity.
Qed.

Lemma within_finite (lo hi : Q) (x : num) : within lo hi x -> finite x.
Proof. now destruct x. Qed.

(** X10.  Without a model the inference throws 'Model not trained yet', and
    with a model it throws on rows that the network does not take.  On a
    batch of rows of ten values, with a prediction of its shape and values in
    [[0, 1]] on both sides (those of normalized windows and of the sigmoid
    of the network), it gives one error per window, in order; no error is
    negative, and the error of a window that the prediction reproduces
    is 0. *)
Theorem computeReconstructionError_errors (st : ModelState Network)
  (windows : list (list num)) :
  (model st = None ->
     computeReconstructionError predict shape_error st windows
     = Thrown "Model not trained yet")
  /\ (forall m,
        model st = Some m -> takes 10 windows = false ->
        computeReconstructionError predict shape_error st windows
        = Thrown (shape_error windows))
  /\ (forall m,
        model st = Some m -> ten_wide windows ->
        same_shape windows (predict m windows) ->
        Forall (Forall (within 0 1)) windows ->
        Forall (Forall (within 0 1)) (predict m windows) ->
        exists errors,
          computeReconstructionError predict shape_error st windows = Ok errors
          /\ length errors = length windows
          /\ Forall nonneg errors
          /\ Forall2 (fun rows e => same_values (fst rows) (snd rows) -> qval e == 0)
               (combine windows (predict m windows)) errors).
Proof.
  unfold computeReconstructionError. split; [now intros ->|]. split.
  - now intros m -> ->.
  - intros m -> Hbatch Hshape Hunit Hrecon. rewrite (takes_width Hbatch).
    assert (Hne : Forall (fun w : list num => w <> []) windows).
    { destruct Hbatch as [_ Hwide]. revert Hwide. apply Forall_impl.
      intros w Hw ->. discriminate. }
    clear Hbatch. eexists. split; [reflexivity|].
    rewrite computeReconstructionError_rows.
    assert (Hfin : Forall (Forall finite) windows).
    { revert Hunit. apply Forall_impl. intro w. apply Forall_impl.
      intro x. apply within_finite. }
    assert (Hrec : Forall (Forall finite) (predict m windows)).
    { revert Hrecon. apply Forall_impl. intro w. apply Forall_impl.
      intro x. apply within_finite. }
    clear Hunit Hrecon.
    generalize dependent (predict m windows). intros recon Hshape Hrec.
    induction Hshape as [|x y xs ys Hxy Hshape IH].
    + repeat split; constructor.
    + inversion Hfin as [|? ? Hx Hfin']; inversion Hrec as [|? ? Hy Hrec'];
        inversion Hne as [|? ? Hx0 Hne']; subst.
      destruct (IH Hne' Hfin' Hrec') as (IHlen & IHnn & IHz).
      destruct (row_error Hx Hy Hxy Hx0) as (e & He & Hpos & Hzero).
      cbn [combine map fst snd length]. rewrite He.
      split; [now rewrite IHlen|]. split; constructor; auto.
      cbn [fst snd qval]. apply Hzero.
Qed.

End ModelMore.

(** A model that reproduces its input, on a window of zeros and a window of
    ones: both errors are 0. *)
Lemma computeReconstructionError_errors_witness :
  let st := {| AutoencoderModel.model := Some tt; AutoencoderModel.isModelTrained := true |} in
  let windows := [repeat (JS.Fin 0) 10; repeat (JS.Fin 1) 10] in
  exists errors,
    ModelUse.computeReconstructionError (fun _ xs => xs) (fun _ => EmptyString) st windows
    = AutoencoderModel.Ok errors
    /\ length errors = 2%nat
    /\ Forall (fun e => qval e == 0) errors.
Proof.
  intros st windows.
  destruct (computeReconstructionError_errors (fun (_ : unit) xs => xs)
              (fun _ => EmptyString) st windows)
    as (_ & _ & Hok).
  assert (Hunit : Forall (Forall (JS.within 0 1)) windows).
  { repeat (constructor; [repeat (constructor; [cbn; lra|]); constructor|]).
    constructor. }
  destruct (Hok tt eq_refl) as (errors & Hrun & Hlen & _ & Hzero).
  - split; [discriminate | repeat constructor].
  - repeat constructor.
  - exact Hunit.
  - exact Hunit.
  - exists errors. split; [exact Hrun|]. split; [exact Hlen|].
    clear Hrun Hlen. cbn [combine windows] in Hzero.
    inversion Hzero as [|? e1 ? l1 H1 Hrest]; subst.
    inversion Hrest as [|? e2 ? l2 H2 Hnil]; subst. inversion Hnil; subst.
    constructor; [|constructor; [|constructor]].
    + apply H1. cbn [fst snd]. unfold same_values. repeat constructor; reflexivity.
    + apply H2. cbn [fst snd]. unfold same_values. repeat constructor; reflexivity.
Defined.

Section ModelInfoMore.

Local Open Scope Z_scope.

Import DataGenerator AutoencoderModel ModelUse JS.

Variable Network : Type.
Variable countParams : Network -> Z.
Variable rand : nat -> Q.

(** The size reduction before it is rounded to a whole percentage. *)
Lemma reduction_value (p : Z) :
  0 < p ->
  let P := inject_Z p in
  ((4 * P / 1024 - (P / 1024 + 2)) / (4 * P / 1024) * 100 + (1 # 2)
   == inject_Z (151 * p - 102400) / inject_Z (2 * p))%Q.
Proof.
  intros Hp P.
  assert (HP : (0 < P)%Q) by (change 0%Q with (inject_Z 0); subst P; now rewrite <- Zlt_Qlt).
  unfold Z.sub. rewrite inject_Z_plus, !inject_Z_mult. fold P.
  change (inject_Z 151) with 151%Q. change (inject_Z 2) with 2%Q.
  change (inject_Z (- (102400))) with (- (102400))%Q.
  field. lra.
Qed.

Lemma reduction_of_bounds (p : Z) :
  0 < p -> reduction_of p <= 75 /\ (reduction_of p <= 0 <-> p <= 687).
Proof.
  intro Hp. unfold reduction_of. split.
  - apply Z.lt_succ_r. apply Z.div_lt_upper_bound; lia.
  - split.
    + intro H. apply Z.lt_succ_r in H.
      destruct (Z.le_gt_cases p 687) as [|Hbig]; [assumption | exfalso].
      assert (1 <= (151 * p - 102400) / (2 * p)) by (apply Z.div_le_lower_bound; lia).
      lia.
    + intro H. apply Z.lt_succ_r. apply Z.div_lt_upper_bound; lia.
Qed.

(** X11.  Without a model the estimate is all zeros.  For a model of [p >= 1]
    parameters the reported reduction is [floor((151 p - 102400) / (2 p))]
    percent: never more than 75, and 0 or less for every model of at most
    687 parameters; up to 682 parameters the quantized size is not below the
    original size. *)
Theorem getModelInfo_reduction (st : ModelState Network) (k : nat) :
  let info := fst (getModelInfo countParams rand st k) in
  (model st = None ->
     parameterCount info = 0 /\ originalSizeKB info = Fin 0
     /\ quantizedSizeKB info = Fin 0 /\ reductionPercent info = Fin 0
     /\ estimatedRAMKB info = Fin 0 /\ inferenceTimeMs info = Fin 0)
  /\ (forall m,
        model st = Some m -> 0 < countParams m ->
        let p := countParams m in
        parameterCount info = p
        /\ reductionPercent info = of_Z (reduction_of p)
        /\ reduction_of p <= 75
        /\ (reduction_of p <= 0 <-> p <= 687)
        /\ (p <= 682 -> (qval (originalSizeKB info) <= qval (quantizedSizeKB info))%Q)).
Proof.
  intro info. subst info. unfold getModelInfo. split.
  - intros ->. repeat split; reflexivity.
  - intros m -> Hp. cbv zeta. set (p := countParams m) in *.
    unfold bind, Math_random, ret. cbn [fst].
    cbn [parameterCount reductionPercent originalSizeKB quantizedSizeKB].
    pose proof (reduction_of_bounds Hp) as [H75 H0].
    assert (HP : (0 < inject_Z p)%Q)
      by (change 0%Q with (inject_Z 0); now rewrite <- Zlt_Qlt).
    split; [reflexivity|]. split; [|split; [exact H75 | split; [exact H0|]]].
    + unfold of_Z, mul, div. change (Qeq_bool 1024 0) with false. cbv iota.
      cbn [add sub].
      rewrite (proj2 (Qeq_bool_false _ _)).
      2:{ rewrite !Qred_correct.
          assert (0 < inject_Z p * 4 / 1024)%Q by (apply Qlt_shift_div_l; lra). lra. }
      cbv iota. unfold round. do 2 f_equal. unfold reduction_of.
      rewrite Zdiv_Qdiv. apply Qfloor_comp.
      rewrite <- (reduction_value Hp). rewrite !Qred_correct. field. lra.
    + intro Hsmall. unfold of_Z, mul, div. change (Qeq_bool 1024 0) with false. cbv iota.
      cbn [add]. apply round_to_mono.
      * rewrite !Qred_correct. apply Qle_shift_div_l; lra.
      * rewrite !Qred_correct.
        assert (Hq : (inject_Z p <= 682)%Q).
        { change 682%Q with (inject_Z 682). now rewrite <- Zle_Qle. }
        apply Qle_shift_div_r; [lra|]. field_simplify. lra.
Qed.

End ModelInfoMore.

(** The autoencoder of the application has 186 parameters: its reported
    reduction is -200 percent. *)
Lemma getModelInfo_reduction_witness :
  let st := {| AutoencoderModel.model := Some tt; AutoencoderModel.isModelTrained := true |} in
  ModelUse.reductionPercent (fst (ModelUse.getModelInfo (fun _ => 186%Z) (fun _ => 0) st 0%nat))
  = JS.of_Z (-200).
Proof.
  intro st.
  destruct (getModelInfo_reduction (fun _ : unit => 186%Z) (fun _ => 0) st 0%nat) as [_ H].
  destruct (H tt eq_refl eq_refl) as (_ & Hred & _).
  exact Hred.
Defined.

(** ** Training: progress and readiness *)

Section TrainMore.

Local Open Scope Z_scope.

Import DataGenerator AutoencoderModel ModelUse Index JS.

Variable Network : Type.
Variable buildAutoencoder : Z -> Network.
Variable fit_epoch : list (list num) -> nat -> Z -> Network -> Network * option num.
Variable shape_error : list (list num) -> string.

Lemma progress_of_value (n : nat) (k : Z) :
  (0 < n)%nat ->
  progress_of n k
  = of_Z (Qfloor (inject_Z (k + 1) / inject_Z (Z.of_nat n) * 100 + (1 # 2))).
Proof.
  intro Hn. unfold progress_of, of_nat, of_Z, div.
  assert (Hq : (0 < inject_Z (Z.of_nat n))%Q).
  { change 0%Q with (inject_Z 0). rewrite <- Zlt_Qlt. lia. }
  rewrite (proj2 (Qeq_bool_false _ _)) by lra.
  cbn [mul round]. do 2 f_equal. apply Qfloor_comp. now rewrite !Qred_correct.
Qed.

Lemma progress_of_bounds (n : nat) (k : Z) :
  (0 < n)%nat -> 0 <= k < Z.of_nat n -> within 0 100 (progress_of n k).
Proof.
  intros Hn Hk. rewrite progress_of_value by exact Hn.
  assert (Hq : (0 < inject_Z (Z.of_nat n))%Q).
  { change 0%Q with (inject_Z 0). rewrite <- Zlt_Qlt. lia. }
  set (x := (inject_Z (k + 1) / inject_Z (Z.of_nat n))%Q).
  assert (Hx : (0 <= x <= 1)%Q).
  { subst x. split.
    - apply Qle_shift_div_l; [exact Hq|]. rewrite Qmult_0_l.
      change 0%Q with (inject_Z 0). rewrite <- Zle_Qle. lia.
    - apply Qle_shift_div_r; [exact Hq|]. rewrite Qmult_1_l. rewrite <- Zle_Qle. lia. }
  unfold of_Z. cbn [within]. split.
  - change 0%Q with (inject_Z 0). rewrite <- Zle_Qle.
    change 0 with (Qfloor 0). apply Qfloor_resp_le. lra.
  - change 100%Q with (inject_Z 100). rewrite <- Zle_Qle.
    apply Z.lt_succ_r. rewrite Zlt_Qlt.
    apply Qle_lt_trans with (x * 100 + (1 # 2))%Q; [apply Qfloor_le|].
    change (inject_Z (Z.succ 100)) with 101%Q. lra.
Qed.

Lemma progress_of_mono (n : nat) (i j : Z) :
  (0 < n)%nat -> 0 <= i <= j ->
  (qval (progress_of n i) <= qval (progress_of n j))%Q.
Proof.
  intros Hn Hij. rewrite !progress_of_value by exact Hn.
  assert (Hq : (0 < inject_Z (Z.of_nat n))%Q).
  { change 0%Q with (inject_Z 0). rewrite <- Zlt_Qlt. lia. }
  unfold of_Z. cbn [qval]. rewrite <- Zle_Qle. apply Qfloor_resp_le.
  assert (inject_Z (i + 1) / inject_Z (Z.of_nat n)
          <= inject_Z (j + 1) / inject_Z (Z.of_nat n))%Q.
  { apply Qmult_le_compat_r; [rewrite <- Zle_Qle; lia|].
    apply Qlt_le_weak, Qinv_lt_0_compat, Hq. }
  lra.
Qed.

Lemma progress_of_last (n : nat) :
  (0 < n)%nat -> progress_of n (Z.of_nat n - 1) = Fin 100.
Proof.
  intro Hn. rewrite progress_of_value by exact Hn.
  replace (Z.of_nat n - 1 + 1) with (Z.of_nat n) by lia.
  assert (Hq : (0 < inject_Z (Z.of_nat n))%Q).
  { change 0%Q with (inject_Z 0). rewrite <- Zlt_Qlt. lia. }
  assert (E : (inject_Z (Z.of_nat n) / inject_Z (Z.of_nat n) * 100 + (1 # 2) == 201 # 2)%Q).
  { field. lra. }
  rewrite (Qfloor_comp _ _ E). reflexivity.
Qed.

Lemma recorded_progress (n : nat) (batch : option nat) (rs : list Report) :
  forall seen,
    fold_left (notify (recording_config n batch)) rs seen = seen ++ map snd rs.
Proof.
  induction rs as [|[[e l] p] rs IH]; intro seen; cbn [fold_left map].
  - now rewrite app_nil_r.
  - rewrite IH. unfold notify.
    cbn [onEpochEnd recording_config snd]. cbv beta iota.
    unfold record_progress. now rewrite <- app_assoc.
Qed.

Lemma reports_progress (n : nat) (ls : list num) :
  forall i, map snd (reports n i ls) = map (progress_of n) (zrange i (length ls)).
Proof.
  unfold reports. induction ls as [|l ls IH]; intro i;
    cbn [Arr.mapi_from map length zrange snd]; [reflexivity | now rewrite IH].
Qed.

(** X12.  The percentages reported during a run of [n >= 1] epochs on a
    batch of rows of ten values: one per epoch, each a whole number in
    [[0, 100]], never decreasing, and the last one 100.  On rows that the
    network does not take nothing is reported. *)
Theorem trainAutoencoder_progress (normalWindows : list (list num)) (n : nat)
  (batch : option nat) :
  (1 <= n)%nat ->
  let seen :=
    snd (trainAutoencoder buildAutoencoder fit_epoch shape_error normalWindows
           (recording_config n batch) []) in
  (ten_wide normalWindows ->
     length seen = n
     /\ Forall (within 0 100) seen
     /\ nth_error seen (n - 1) = Some (Fin 100)
     /\ forall (i j : nat) (a b : num),
          (i <= j)%nat -> nth_error seen i = Some a -> nth_error seen j = Some b ->
          (qval a <= qval b)%Q)
  /\ (takes 10 normalWindows = false -> seen = []).
Proof.
  intros Hn seen. subst seen. split.
  - intro Hbatch.
    destruct (@trainAutoencoder_run Network buildAutoencoder fit_epoch shape_error _
                normalWindows (recording_config n batch) [] (takes_width Hbatch))
      as (m & ls & -> & Hlen).
    cbn [snd epochs recording_config] in *.
    rewrite recorded_progress, reports_progress, Hlen. cbn [app].
    split; [now rewrite length_map, zrange_length|].
    split; [|split].
    + apply Forall_map, Forall_forall. intros k Hk. apply zrange_In in Hk.
      apply progress_of_bounds; lia.
    + rewrite nth_error_map, zrange_nth by lia. cbn [option_map]. f_equal.
      replace (0 + Z.of_nat (n - 1)) with (Z.of_nat n - 1) by lia.
      apply progress_of_last. lia.
    + intros i j a b Hij Ha Hb.
      assert (Hj : (j < n)%nat).
      { rewrite <- (zrange_length n 0), <- (length_map (progress_of n)).
        apply nth_error_Some. congruence. }
      rewrite nth_error_map, zrange_nth in Ha, Hb by lia.
      cbn [option_map] in Ha, Hb. injection Ha as <-. injection Hb as <-.
      apply progress_of_mono; lia.
  - intro Htakes. unfold trainAutoencoder. now rewrite Htakes.
Qed.

End TrainMore.

(** Three epochs on [constant_batch]: 33, 67 and 100 percent. *)
Lemma trainAutoencoder_progress_witness :
  let seen :=
    snd (AutoencoderModel.trainAutoencoder (fun _ => tt)
           (fun _ _ _ m => (m, Some (JS.Fin 0))) (fun _ => EmptyString) constant_batch
           (recording_config 3 None) []) in
  seen = [JS.Fin 33; JS.Fin 67; JS.Fin 100]
  /\ nth_error seen 2 = Some (JS.Fin 100).
Proof.
  intro seen. split; [vm_compute; reflexivity|].
  destruct (@trainAutoencoder_progress unit (fun _ => tt)
              (fun _ _ _ m => (m, Some (JS.Fin 0))) (fun _ => EmptyString)
              constant_batch 3 None)
    as (Hruns & _).
  - lia.
  - destruct Hruns as (_ & _ & Hlast & _); [|exact Hlast].
    split; [discriminate | repeat constructor].
Defined.

(** ** The page: loading, training and detecting *)

Section PageMore.

Local Open Scope Z_scope.

Import DataGenerator AutoencoderModel AnomalyDetection ModelUse Index Page JS.

Variable parseInt : string -> num.
Variable parseFloat : string -> num.
Variable Network : Type.
Variable buildAutoencoder : Z -> Network.
Variable fit_epoch : list (list num) -> nat -> Z -> Network -> Network * option num.
Variable predict : Network -> list (list num) -> list (list num).
Variable shape_error : list (list num) -> string.
Variable countParams : Network -> Z.
Variable rand : nat -> Q.
Variable Date : Type.
Variable toFixed : num -> nat -> string.
Variable now : Date.

Lemma mapi_from_app (A B : Type) (f : A -> Z -> B) (l1 l2 : list A) :
  forall i,
    Arr.mapi_from f i (l1 ++ l2)
    = Arr.mapi_from f i l1 ++ Arr.mapi_from f (i + Z.of_nat (length l1)) l2.
Proof.
  induction l1 as [|x l1 IH]; intro i; cbn [Arr.mapi_from app length].
  - now rewrite Z.add_0_r.
  - rewrite IH. do 3 f_equal. lia.
Qed.

(** The display after the reports of a run with at least one epoch. *)
Lemma shown_after (nEpochs : nat) (ls : list num) (l : num) (shown : Progress) :
  fold_left (notify (train_config)) (reports nEpochs 0 (ls ++ [l])) shown
  = {| trainingProgress := progress_of nEpochs (Z.of_nat (length ls));
       trainingLoss := l |}.
Proof.
  unfold reports. rewrite mapi_from_app, fold_left_app. reflexivity.
Qed.

(** What a completed training went through. *)
Lemma handleTrain_trained (soilData : list SoilDataPoint)
  (normalizedRef : option Normalized) (shown0 shown : Progress)
  (st : ModelState Network) (history : TrainResult) :
  handleTrain buildAutoencoder fit_epoch shape_error soilData normalizedRef shown0
  = ModelTrained st history shown ->
  exists norm m ls,
    normalizedRef = Some norm
    /\ 10 <= Z.of_nat (length (normalWindows soilData norm))
    /\ st = {| model := Some m; isModelTrained := true |}
    /\ history = {| loss := ls |}
    /\ shown = fold_left (notify train_config) (reports 60 0 ls) (reset_progress shown0)
    /\ length ls = 60%nat.
Proof.
  unfold handleTrain. destruct normalizedRef as [norm|]; [|discriminate].
  destruct (length soilData =? 0)%nat; [discriminate|]. cbv zeta.
  destruct (Z.ltb_spec (Z.of_nat (length (normalWindows soilData norm))) 10) as [|Hten];
    [discriminate|].
  destruct (takes 10 (normalWindows soilData norm)) eqn:Htakes.
  - destruct (@trainAutoencoder_run Network buildAutoencoder fit_epoch shape_error _
                (normalWindows soilData norm) train_config (reset_progress shown0) Htakes)
      as (m & ls & -> & Hlen).
    intro H. injection H as <- <- <-. exists norm, m, ls. now repeat split.
  - unfold trainAutoencoder. rewrite Htakes. discriminate.
Qed.

(** X13.  What a completed training leaves behind: 60 recorded losses, a display
    at 100 percent with the loss of the last epoch, and a model that is
    ready. *)
Theorem handleTrain_completes (soilData : list SoilDataPoint)
  (normalizedRef : option Normalized) (shown0 shown : Progress)
  (st : ModelState Network) (history : TrainResult) :
  handleTrain buildAutoencoder fit_epoch shape_error soilData normalizedRef shown0
  = ModelTrained st history shown ->
  length (loss history) = 60%nat
  /\ trainingProgress shown = Fin 100
  /\ nth_error (loss history) 59 = Some (trainingLoss shown)
  /\ isModelReady st = true
  /\ (10 <= length (filter (fun d => negb (DataGenerator.isAnomaly d)) soilData))%nat.
Proof.
  intro Htrain. apply handleTrain_trained in Htrain.
  destruct Htrain as (norm & m & ls & _ & Hten & -> & -> & -> & Hlen).
  cbn [loss]. split; [exact Hlen|].
  destruct (exists_last (l := ls)) as (ls' & l & ->).
  { intros ->. discriminate. }
  rewrite length_app in Hlen. cbn [length] in Hlen.
  rewrite shown_after. cbn [trainingProgress trainingLoss].
  replace (length ls') with 59%nat by lia.
  split; [reflexivity|]. split; [|split; [reflexivity|]].
  - rewrite nth_error_app2 by lia. now replace (59 - length ls')%nat with 0%nat by lia.
  - rewrite normalWindows_count in Hten.
    pose proof (firstn_skipn (length (normalized norm)) soilData) as E.
    rewrite <- E at 1. rewrite filter_app, length_app. lia.
Qed.

(** Loaded data of 10 samples or more gives a batch of rows of ten values. *)
Lemma normalized_ten_wide (data : list SoilDataPoint) :
  (10 <= length data)%nat -> ten_wide (normalized (normalized_of data)).
Proof.
  intro Hlen. split; [|apply normalized_width].
  pose proof (@load_windows data (normalized_of data) eq_refl) as Hw.
  intro E. rewrite E in Hw. cbn [length] in Hw. lia.
Qed.

Lemma normalized_taken (data : list SoilDataPoint) :
  (10 <= length data)%nat -> takes 10 (normalized (normalized_of data)) = true.
Proof. intro Hlen. apply takes_width, normalized_ten_wide, Hlen. Qed.

(** X14.  The guard of [handleDetect] keeps the error 'Model not trained
    yet' of the inference away.  The handler does nothing exactly when no
    data is loaded or the model is not ready, and it reports no error on a
    batch of rows of ten values: none on a series of 10 samples or more that
    the page has loaded. *)
Theorem handleDetect_guard (page : PageData) (st : ModelState Network)
  (threshold : num) (k : nat) :
  (handleDetect rand predict shape_error countParams toFixed now page st threshold k
   = NotRun Date
   <-> normalizedRef page = None \/ isModelReady st = false)
  /\ (forall norm message,
        normalizedRef page = Some norm ->
        ten_wide (normalized norm) ->
        handleDetect rand predict shape_error countParams toFixed now page st threshold k
        <> DetectionError Date message)
  /\ (forall data message,
        (10 <= length data)%nat ->
        handleDetect rand predict shape_error countParams toFixed now (load data) st
          threshold k
        <> DetectionError Date message).
Proof.
  assert (Hpage : forall p : PageData,
            (handleDetect rand predict shape_error countParams toFixed now p st threshold k
             = NotRun Date
             <-> normalizedRef p = None \/ isModelReady st = false)
            /\ (forall norm message,
                  normalizedRef p = Some norm ->
                  ten_wide (normalized norm) ->
                  handleDetect rand predict shape_error countParams toFixed now p st
                    threshold k
                  <> DetectionError Date message)).
  { intro p. unfold handleDetect. destruct (normalizedRef p) as [norm|].
    - unfold isModelReady, computeReconstructionError.
      destruct (isModelTrained st); cbn [andb negb].
      + destruct (model st) as [m|]; cbn [negb].
        * split; [split; [|intros [|]; discriminate]|].
          -- destruct (takes 10 (normalized norm)); discriminate.
          -- intros norm' message Hnorm Hbatch. injection Hnorm as <-.
             rewrite (takes_width Hbatch). discriminate.
        * split; [split; [now right | reflexivity] | discriminate].
      + split; [split; [now right | reflexivity] | discriminate].
    - split; [split; [now left | reflexivity] | discriminate]. }
  split; [apply Hpage|]. split; [apply Hpage|].
  intros data message Hlen.
  apply (proj2 (Hpage (load data)) (normalized_of data) message eq_refl).
  apply normalized_ten_wide, Hlen.
Qed.

Hypothesis predict_shape : forall m xs, length (predict m xs) = length xs.

(** X15.  After a completed training on loaded data, a detection gives one
    result per window of the series: [length data - 9] results, the one of
    window [i] centered at sample [i + 5], which is a sample of the series,
    so that the comparison with the ground truth never has to clamp. *)
Theorem handleDetect_after_training (data : list SoilDataPoint) (shown0 shown : Progress)
  (st : ModelState Network) (history : TrainResult) (threshold : num) (k : nat) :
  handleTrain buildAutoencoder fit_epoch shape_error (soilData (load data))
    (normalizedRef (load data)) shown0
  = ModelTrained st history shown ->
  exists d,
    handleDetect rand predict shape_error countParams toFixed now (load data) st
      threshold k
    = Detected d
    /\ Z.of_nat (length (detections d)) = Z.of_nat (length data) - 9
    /\ 19 <= Z.of_nat (length data)
    /\ forall (i : nat) (r : DetectionResult),
         nth_error (detections d) i = Some r ->
         windowIndex r = Z.of_nat i
         /\ timestampCenter r = Z.of_nat i + 5
         /\ Z.min (timestampCenter r) (Z.of_nat (length (groundTruthRef (load data))) - 1)
            = timestampCenter r.
Proof.
  intro Htrain. apply handleTrain_trained in Htrain.
  destruct Htrain as (norm & m & ls & Hnorm & Hten & -> & _).
  cbn [normalizedRef soilData load] in Hnorm, Hten. injection Hnorm as <-.
  fold (normalized_of data) in Hten.
  assert (Hlen : 10 <= Z.of_nat (length (normalized (normalized_of data)))).
  { rewrite normalWindows_count in Hten.
    pose proof (filter_length_le (fun d => negb (DataGenerator.isAnomaly d))
                  (firstn (length (normalized (normalized_of data))) data)) as Hle.
    rewrite length_firstn in Hle. lia. }
  pose proof (@load_windows data (normalized_of data) eq_refl) as Hw.
  unfold handleDetect. cbn [normalizedRef load soilData groundTruthRef].
  fold (normalized_of data).
  unfold isModelReady, computeReconstructionError. cbn [model isModelTrained andb negb].
  rewrite normalized_taken by lia.
  cbv zeta. eexists. split; [reflexivity|]. cbn [detections].
  assert (Herr : length (mean_rows (square_rows (sub_rows (normalized (normalized_of data))
                    (predict m (normalized (normalized_of data))))))
                 = length (normalized (normalized_of data))).
  { unfold mean_rows, square_rows, sub_rows.
    rewrite !length_map, length_combine, predict_shape. apply Nat.min_id. }
  rewrite detectAnomalies_length, Herr.
  split; [lia|]. split; [lia|].
  intros i r Hr.
  assert (Hi : (i < length (normalized (normalized_of data)))%nat).
  { rewrite <- Herr, <- (detectAnomalies_length _ threshold WINDOW_SIZE).
    apply nth_error_Some. congruence. }
  destruct (nth_error (mean_rows (square_rows (sub_rows (normalized (normalized_of data))
              (predict m (normalized (normalized_of data)))))) i) as [e|] eqn:He.
  - rewrite (detectAnomalies_nth _ threshold WINDOW_SIZE i He) in Hr. injection Hr as <-.
    unfold detect_one. cbn [windowIndex timestampCenter]. unfold WINDOW_SIZE.
    change (10 / 2) with 5. rewrite length_map.
    split; [reflexivity|]. split; [reflexivity | lia].
  - apply nth_error_None in He. lia.
Qed.

End PageMore.

(** On [late_anomalies], with a network that learns nothing, training
    completes and leaves the display at 100 percent. *)
Lemma handleTrain_completes_witness :
  exists st history shown,
    Index.handleTrain (fun _ => tt) (fun _ _ _ m => (m, Some (JS.Fin 0)))
      (fun _ => EmptyString) late_anomalies
      (Some (Index.normalized_of late_anomalies)) idle
    = Index.ModelTrained st history shown
    /\ Index.trainingProgress shown = JS.Fin 100
    /\ ModelUse.isModelReady st = true.
Proof.
  destruct (Index.handleTrain (fun _ => tt) (fun _ _ _ m => (m, Some (JS.Fin 0)))
              (fun _ => EmptyString) late_anomalies
              (Some (Index.normalized_of late_anomalies)) idle)
    as [|message|st history shown] eqn:E.
  - vm_compute in E. discriminate.
  - vm_compute in E. discriminate.
  - exists st, history, shown. split; [reflexivity|].
    destruct (handleTrain_completes _ _ _ _ _ _ E) as (_ & Hshown & _ & Hready & _).
    now split.
Defined.

(** On [late_anomalies], a series of 40 samples, a detection after training
    gives 31 results. *)
Lemma handleDetect_after_training_witness :
  exists d,
    Page.handleDetect (fun _ => 0%Q) (fun (_ : unit) xs => xs) (fun _ => EmptyString)
      (fun _ => 186%Z) (fun _ _ => EmptyString) tt (Page.load late_anomalies)
      {| AutoencoderModel.model := Some tt; AutoencoderModel.isModelTrained := true |}
      (JS.Fin (1 # 10)) 0
    = Page.Detected d
    /\ length (Page.detections d) = 31%nat.
Proof.
  destruct (Index.handleTrain (fun _ => tt) (fun _ _ _ m => (m, Some (JS.Fin 0)))
              (fun _ => EmptyString) (Page.soilData (Page.load late_anomalies))
              (Page.normalizedRef (Page.load late_anomalies)) idle)
    as [|message|st history shown] eqn:E.
  - vm_compute in E. discriminate.
  - vm_compute in E. discriminate.
  - assert (Hst : st = {| AutoencoderModel.model := Some tt;
                          AutoencoderModel.isModelTrained := true |}).
    { vm_compute in E. now injection E as <- _ _. }
    destruct (@handleDetect_after_training unit (fun _ => tt)
                (fun _ _ _ m => (m, Some (JS.Fin 0))) (fun _ xs => xs)
                (fun _ => EmptyString) (fun _ => 186%Z)
                (fun _ => 0%Q) unit (fun _ _ => EmptyString) tt
                (fun _ _ => eq_refl) late_anomalies idle shown st history
                (JS.Fin (1 # 10)) 0%nat E)
      as (d & Hd & Hlen & _).
    exists d. rewrite <- Hst. split; [exact Hd|].
    change (length late_anomalies) with 40%nat in Hlen. lia.
Defined.

(** ** Imported data and training *)

Section UploadMore.

Local Open Scope Z_scope.

Import DataGenerator AutoencoderModel ModelUse Index Page JS.

Variable parseInt : string -> num.
Variable parseFloat : string -> num.
Variable Network : Type.
Variable buildAutoencoder : Z -> Network.
Variable fit_epoch : list (list num) -> nat -> Z -> Network -> Network * option num.
Variable shape_error : list (list num) -> string.

(** With no sample marked as an anomaly, every window is used. *)
Lemma normalWindows_unlabelled (data : list SoilDataPoint) :
  Forall (fun b => b = false) (map isAnomaly data) ->
  Z.of_nat (length (normalWindows data (normalized_of data)))
  = Z.max 0 (Z.of_nat (length data) - 9).
Proof.
  intro Hall. rewrite normalWindows_count.
  pose proof (@load_windows data (normalized_of data) eq_refl) as Hw.
  rewrite filter_all.
  - rewrite length_firstn, Hw. lia.
  - apply Forall_forall. intros d Hd. apply negb_true_iff.
    rewrite Forall_map, Forall_forall in Hall. apply Hall.
    rewrite <- (firstn_skipn (length (normalized (normalized_of data))) data).
    apply in_or_app. now left.
Qed.

(** X16.  An upload is accepted with 11 rows of data or more, but a training needs
    19: an accepted file with fewer rows always fails to train with 'Not
    enough normal data for training', and one with 19 rows or more always
    trains. *)
Theorem handleCSVUpload_training (text : string) (page : PageData) (shown0 : Progress) :
  handleCSVUpload parseInt parseFloat text = Ok page ->
  let rows := Z.of_nat (length (parseCSV parseInt parseFloat text)) in
  11 <= rows
  /\ Z.of_nat (length (soilData page)) = rows
  /\ (rows < 19 ->
      handleTrain buildAutoencoder fit_epoch shape_error (soilData page)
        (normalizedRef page) shown0
      = TrainingFailed Network "Not enough normal data for training")
  /\ (19 <= rows ->
      exists st history shown,
        handleTrain buildAutoencoder fit_epoch shape_error (soilData page)
        (normalizedRef page) shown0
        = ModelTrained st history shown).
Proof.
  unfold handleCSVUpload. cbv zeta. unfold WINDOW_SIZE.
  set (data := parseCSV parseInt parseFloat text).
  destruct (Z.ltb_spec (Z.of_nat (length data)) (10 + 1)) as [|Hrows]; [discriminate|].
  intro H. injection H as <-. cbn [soilData normalizedRef load].
  fold (normalized_of data).
  split; [lia|]. split; [reflexivity|].
  pose proof (normalWindows_unlabelled _ (parseCSV_unlabelled parseInt parseFloat text))
    as Hcount.
  fold data in Hcount.
  split.
  - intro Hfew. unfold handleTrain.
    destruct (Nat.eqb_spec (length data) 0) as [|_]; [lia|]. cbv zeta.
    destruct (Z.ltb_spec (Z.of_nat (length (normalWindows data (normalized_of data)))) 10);
      [reflexivity | lia].
  - intro Henough.
    destruct (@handleTrain_loaded Network buildAutoencoder fit_epoch shape_error data
                shown0) as (m & ls & -> & _); [lia|].
    now do 3 eexists.
Qed.

End UploadMore.

(** A file of 11 readings is accepted and cannot be trained on. *)
Lemma handleCSVUpload_training_witness :
  exists page,
    Page.handleCSVUpload parse_digits parse_digits (readings_file 11)
    = AutoencoderModel.Ok page
    /\ Index.handleTrain (fun _ => tt) (fun _ _ _ m => (m, Some (JS.Fin 0)))
         (fun _ => EmptyString) (Page.soilData page) (Page.normalizedRef page) idle
       = Index.TrainingFailed unit "Not enough normal data for training".
Proof.
  destruct (Page.handleCSVUpload parse_digits parse_digits (readings_file 11))
    as [page|message] eqn:E.
  - exists page. split; [reflexivity|].
    destruct (@handleCSVUpload_training parse_digits parse_digits unit (fun _ => tt)
                (fun _ _ _ m => (m, Some (JS.Fin 0))) (fun _ => EmptyString) _ _ idle E)
      as (_ & Hrows & Hfail & _).
    apply Hfail. rewrite <- Hrows.
    vm_compute in E. injection E as <-. vm_compute. reflexivity.
  - vm_compute in E. discriminate.
Defined.

(** ** The moisture chart *)

Section ChartMore.

Local Open Scope Z_scope.

Import DataGenerator AnomalyDetection Charts JS.

(** Looking up a center among the results of [detectAnomalies]. *)
Lemma find_center (threshold : num) (w : Z) (errors : list num) (i : Z) :
  forall j,
    find (fun det => timestampCenter det =? i)
         (Arr.mapi_from (detect_one threshold w) j errors)
    = if (j + w / 2 <=? i) && (i <? j + w / 2 + Z.of_nat (length errors))
      then option_map (fun e => detect_one threshold w e (i - w / 2))
             (nth_error errors (Z.to_nat (i - w / 2 - j)))
      else None.
Proof.
  induction errors as [|e errors IH]; intro j; cbn [Arr.mapi_from find length].
  - destruct (Z.leb_spec (j + w / 2) i), (Z.ltb_spec i (j + w / 2 + Z.of_nat 0));
      cbn [andb]; try reflexivity. lia.
  - unfold detect_one at 1. cbn [timestampCenter]. fold (detect_one threshold w).
    destruct (Z.eqb_spec (j + w / 2) i) as [Heq | Hneq].
    + destruct (Z.leb_spec (j + w / 2) i); [|lia].
      destruct (Z.ltb_spec i (j + w / 2 + Z.of_nat (S (length errors)))); [|lia].
      cbn [andb]. replace (Z.to_nat (i - w / 2 - j)) with 0%nat by lia.
      cbn [nth_error option_map]. do 2 f_equal. lia.
    + rewrite IH.
      destruct (Z.leb_spec (j + 1 + w / 2) i), (Z.leb_spec (j + w / 2) i); try lia;
        cbn [andb]; [|reflexivity].
      destruct (Z.ltb_spec i (j + 1 + w / 2 + Z.of_nat (length errors))),
               (Z.ltb_spec i (j + w / 2 + Z.of_nat (S (length errors)))); try lia;
        [|reflexivity].
      replace (Z.to_nat (i - w / 2 - j)) with (S (Z.to_nat (i - w / 2 - (j + 1)))) by lia.
      reflexivity.
Qed.

(** X17.  The moisture chart has one point per sample, and marks sample [i] with
    its moisture exactly when window [i - 5] exists and its error exceeds
    the threshold; the first five samples are never marked, and neither is
    a sample from index [length errors + 5] on. *)
Theorem moistureChartData_dots (data : list SoilDataPoint) (errors : list num)
  (threshold : num) (i : nat) (d : SoilDataPoint) :
  nth_error data i = Some d ->
  let chart := moistureChartData data (detectAnomalies errors threshold Index.WINDOW_SIZE) in
  length chart = length data
  /\ exists p,
       nth_error chart i = Some p
       /\ Charts.timestamp p = DataGenerator.timestamp d
       /\ (forall v, anomalyDot p = Some v <->
             v = DataGenerator.moisture d
             /\ (5 <= i)%nat
             /\ exists e, nth_error errors (i - 5) = Some e /\ gt e threshold = true)
       /\ ((i < 5)%nat \/ (length errors + 5 <= i)%nat -> anomalyDot p = None).
Proof.
  intros Hd chart. subst chart. unfold moistureChartData, Arr.mapi.
  split; [apply mapi_from_length|].
  rewrite (mapi_from_nth _ _ _ _ Hd). eexists. split; [reflexivity|].
  cbn [Charts.timestamp anomalyDot]. split; [reflexivity|].
  unfold detectAnomalies, Arr.mapi. rewrite find_center.
  unfold Index.WINDOW_SIZE. change (10 / 2) with 5. rewrite !Z.add_0_l.
  destruct (Z.leb_spec 5 (Z.of_nat i)) as [Hlo | Hlo]; cbn [andb].
  - destruct (Z.ltb_spec (Z.of_nat i) (5 + Z.of_nat (length errors))) as [Hhi | Hhi].
    + replace (Z.to_nat (Z.of_nat i - 5 - 0)) with (i - 5)%nat by lia.
      destruct (nth_error errors (i - 5)) as [e|] eqn:He.
      * cbn [option_map]. unfold detect_one. cbn [isAnomaly].
        destruct (gt e threshold) eqn:Hgt.
        -- split; [|intros [|]; lia]. intro v. split.
           ++ intro H. injection H as <-. split; [reflexivity|]. split; [lia|].
              now exists e.
           ++ now intros (-> & _).
        -- split; [|reflexivity]. intro v. split; [discriminate|].
           intros (_ & _ & e' & He' & Hgt'). congruence.
      * apply nth_error_None in He. lia.
    + split; [|reflexivity]. intro v. split; [discriminate|].
      intros (_ & _ & e & He & _).
      assert (i - 5 < length errors)%nat by (apply nth_error_Some; congruence). lia.
  - split; [|reflexivity]. intro v. split; [discriminate|]. intros (_ & ? & _). lia.
Qed.

End ChartMore.

(** Six samples and one window whose error exceeds the threshold: the
    sample at index 5 is marked. *)
Lemma moistureChartData_dots_witness :
  let data := firstn 6 late_anomalies in
  exists p,
    nth_error (Charts.moistureChartData data
                 (AnomalyDetection.detectAnomalies [JS.Fin 1] (JS.Fin (1 # 10))
                    Index.WINDOW_SIZE)) 5 = Some p
    /\ Charts.anomalyDot p = Some (JS.Fin 50).
Proof.
  intro data.
  destruct (@moistureChartData_dots data [JS.Fin 1] (JS.Fin (1 # 10)) 5
              {| DataGenerator.timestamp := JS.of_Z 5;
                 DataGenerator.moisture := JS.Fin 50;
                 DataGenerator.isAnomaly := false |} eq_refl)
    as (_ & p & Hp & _ & Hdot & _).
  exists p. split; [exact Hp|]. apply Hdot.
  split; [reflexivity|]. split; [lia|]. exists (JS.Fin 1). split; reflexivity.
Defined.

(** ** The insights and the detections *)

Section InsightsMore.

Local Open Scope Z_scope.

Import DataGenerator AnomalyDetection Insights JS.

Variable Date : Type.
Variable toFixed : num -> nat -> string.
Variable now : Date.

Lemma for_range_app (A : Type) (body : Z -> list A -> list A) :
  (forall i l, body i l = l ++ body i []) ->
  forall n i l, Arr.for_range i n body l = l ++ Arr.for_range i n body [].
Proof.
  intros Hbody n. induction n as [|n IH]; intros i l; cbn [Arr.for_range].
  - now rewrite app_nil_r.
  - rewrite IH, (IH _ (body i [])), Hbody. now rewrite app_assoc.
Qed.

Lemma for_range_Forall (A : Type) (P : A -> Prop) (body : Z -> list A -> list A) :
  (forall i l, body i l = l ++ body i []) ->
  (forall i, Forall P (body i [])) ->
  forall n i, Forall P (Arr.for_range i n body []).
Proof.
  intros Hbody HP n. induction n as [|n IH]; intro i; cbn [Arr.for_range].
  - constructor.
  - rewrite for_range_app by exact Hbody. apply Forall_app. split; [apply HP | apply IH].
Qed.

Lemma spike_step_app (data : list SoilDataPoint) (i : Z) (l : list (Insight Date)) :
  spike_step toFixed now data i l = l ++ spike_step toFixed now data i [].
Proof.
  unfold spike_step.
  destruct (Arr.get data i) as [cur|]; [|now rewrite app_nil_r].
  destruct (Arr.get data (i - 1)) as [prev|]; [|now rewrite app_nil_r].
  cbv zeta. destruct (gt _ _); [reflexivity | now rewrite app_nil_r].
Qed.

(** The insights of the spike rule are warnings. *)
Lemma rule_spikes_warnings (data : list SoilDataPoint) :
  Forall (fun i => type i = warning /\ exists z, id i = ("spike-" ++ Str.of_Z z)%string)
    (rule_spikes toFixed now data []).
Proof.
  unfold rule_spikes. apply for_range_Forall; [apply spike_step_app|].
  intro i. unfold spike_step.
  destruct (Arr.get data i) as [cur|]; [|constructor].
  destruct (Arr.get data (i - 1)) as [prev|]; [|constructor].
  cbv zeta. destruct (gt _ _); constructor; [|constructor].
  cbn [type id]. split; [reflexivity | now exists i].
Qed.

Lemma cluster_scan_app (ts : list Z) (n : nat) :
  forall i (l : list (Insight Date)),
    cluster_scan now ts i n l = l ++ cluster_scan now ts i n [].
Proof.
  induction n as [|n IH]; intros i l; cbn [cluster_scan].
  - now rewrite app_nil_r.
  - destruct (Arr.get ts (i + 2)); [|now rewrite app_nil_r].
    destruct (Arr.get ts i); [|now rewrite app_nil_r].
    destruct (Arr.get ts (i + 1)); [|now rewrite app_nil_r].
    destruct (_ <? 15); [reflexivity | apply IH].
Qed.

Lemma cluster_scan_critical (ts : list Z) (n : nat) :
  forall i,
    Forall (fun x => type x = critical /\ exists z, id x = ("cluster-" ++ Str.of_Z z)%string)
      (cluster_scan now ts i n (@nil (Insight Date))).
Proof.
  induction n as [|n IH]; intro i; cbn [cluster_scan]; [constructor|].
  destruct (Arr.get ts (i + 2)); [|constructor].
  destruct (Arr.get ts i); [|constructor].
  destruct (Arr.get ts (i + 1)); [|constructor].
  destruct (_ <? 15); [|apply IH].
  constructor; [|constructor]. cbn [type id]. split; [reflexivity | now exists i].
Qed.

(** The emitted insights, rule by rule. *)
Lemma rule_insights_parts (data : list SoilDataPoint) (detections : list DetectionResult)
  (threshold : num) :
  rule_insights toFixed now data detections threshold
  = rule_stable now detections []
    ++ rule_high_rate toFixed now detections []
    ++ rule_spikes toFixed now data []
    ++ rule_trend toFixed now data []
    ++ rule_level toFixed now data []
    ++ rule_threshold toFixed now detections threshold []
    ++ rule_cluster now detections [].
Proof.
  unfold rule_insights.
  set (a := rule_stable now detections []).
  assert (Hb : forall l, rule_high_rate toFixed now detections l
                         = l ++ rule_high_rate toFixed now detections []).
  { intro l. unfold rule_high_rate. cbv zeta.
    destruct (gt _ _); [reflexivity | now rewrite app_nil_r]. }
  assert (Hc : forall l, rule_spikes toFixed now data l
                         = l ++ rule_spikes toFixed now data []).
  { intro l. unfold rule_spikes. apply for_range_app. apply spike_step_app. }
  assert (Hd : forall l, rule_trend toFixed now data l
                         = l ++ rule_trend toFixed now data []).
  { intro l. unfold rule_trend. cbv zeta.
    destruct (20 <=? _); [|now rewrite app_nil_r].
    destruct (Arr.get _ 19); [|now rewrite app_nil_r].
    destruct (Arr.get _ 0); [|now rewrite app_nil_r].
    destruct (lt _ _); [reflexivity|].
    destruct (gt _ _); [reflexivity | now rewrite app_nil_r]. }
  assert (He : forall l, rule_level toFixed now data l
                         = l ++ rule_level toFixed now data []).
  { intro l. unfold rule_level. cbv zeta.
    destruct (lt _ _); [reflexivity|]. destruct (gt _ _); reflexivity. }
  assert (Hf : forall l, rule_threshold toFixed now detections threshold l
                         = l ++ rule_threshold toFixed now detections threshold []).
  { intro l. unfold rule_threshold. cbv zeta.
    destruct (_ && _); [reflexivity | now rewrite app_nil_r]. }
  assert (Hg : forall l, rule_cluster now detections l
                         = l ++ rule_cluster now detections []).
  { intro l. unfold rule_cluster. cbv zeta. apply cluster_scan_app. }
  rewrite Hg, Hf, He, Hd, Hc, Hb. now rewrite <- !app_assoc.
Qed.

Lemma emits_app (name : string) (l1 l2 : list (Insight Date)) :
  emits name (l1 ++ l2) = emits name l1 || emits name l2.
Proof. apply existsb_app. Qed.

Lemma emits_none (name : string) (P : Insight Date -> Prop) (l : list (Insight Date)) :
  Forall P l -> (forall x, P x -> String.eqb (id x) name = false) -> emits name l = false.
Proof.
  intros Hl HP. induction Hl as [|x l Hx _ IH]; [reflexivity|].
  cbn [emits existsb]. rewrite (HP x Hx). exact IH.
Qed.

(** The rate of the anomalies exceeds 0.15 when 20 times their number
    exceeds 3 times the number of windows. *)
Lemma rate_exceeds (detections : list DetectionResult) :
  gt (div (of_Z (anomalyCount detections))
          (of_Z (Z.max (Z.of_nat (length detections)) 1)))
     (Fin (3 # 20))
  = (3 * Z.of_nat (length detections) <? 20 * anomalies detections).
Proof.
  unfold anomalyCount. fold (anomalies detections).
  pose proof (filter_length_le isAnomaly detections) as Hle.
  assert (Hc : 0 <= anomalies detections <= Z.of_nat (length detections))
    by (unfold anomalies; lia).
  set (c := anomalies detections) in *.
  set (n := Z.max (Z.of_nat (length detections)) 1).
  assert (Hn : (0 < inject_Z n)%Q).
  { change 0%Q with (inject_Z 0). rewrite <- Zlt_Qlt. lia. }
  unfold of_Z, div. rewrite (proj2 (Qeq_bool_false _ _)) by lra.
  cbn [gt lt].
  destruct (Z.ltb_spec (3 * Z.of_nat (length detections)) (20 * c)) as [Hlt | Hge].
  - apply Qltb_true. rewrite Qred_correct. apply Qlt_shift_div_l; [exact Hn|].
    assert (H : (inject_Z (3 * n) < inject_Z (20 * c))%Q) by (rewrite <- Zlt_Qlt; lia).
    rewrite !inject_Z_mult in H. change (inject_Z 3) with 3%Q in H.
    change (inject_Z 20) with 20%Q in H. lra.
  - apply Qltb_false. rewrite Qred_correct. apply Qle_shift_div_r; [exact Hn|].
    assert (H : (inject_Z (20 * c) <= inject_Z (3 * n))%Q) by (rewrite <- Zle_Qle; lia).
    rewrite !inject_Z_mult in H. change (inject_Z 3) with 3%Q in H.
    change (inject_Z 20) with 20%Q in H. lra.
Qed.

Lemma emitted_members (data : list SoilDataPoint) (detections : list DetectionResult)
  (threshold : num) (x : Insight Date) :
  In x (generateInsights toFixed now data detections threshold) ->
  In x (rule_insights toFixed now data detections threshold).
Proof.
  unfold generateInsights. destruct (length data =? 0)%nat; [intros []|].
  rewrite slice_firstn by lia. intro Hx.
  apply (Permutation_in x (sort_perm rank _)).
  rewrite <- (firstn_skipn (Z.to_nat 8)). apply in_or_app. now left.
Qed.

(** X20.  How the insights follow the detections.  For a series that is not
    empty the engine returns at least one insight.  'stable' is emitted
    exactly when no window is flagged, and 'high-rate' exactly when 20 times
    the number of flagged windows exceeds 3 times the number of windows, so
    never together with 'stable'.  When no window is flagged, the only
    critical insight that can be returned is 'low-moisture'. *)
Theorem generateInsights_status (data : list SoilDataPoint)
  (detections : list DetectionResult) (threshold : num) :
  data <> [] ->
  let out := generateInsights toFixed now data detections threshold in
  let emitted := emitted_insights toFixed now data detections threshold in
  out <> []
  /\ emits "stable" emitted = (anomalies detections =? 0)
  /\ emits "high-rate" emitted
     = (3 * Z.of_nat (length detections) <? 20 * anomalies detections)
  /\ (anomalies detections = 0 ->
      forall x, In x out -> type x = critical -> id x = "low-moisture"%string).
Proof.
  intros Hdata out emitted.
  assert (Hlen : (length data =? 0)%nat = false).
  { apply Nat.eqb_neq. destruct data; [contradiction | discriminate]. }
  assert (Hemitted : emitted = rule_insights toFixed now data detections threshold).
  { subst emitted. unfold emitted_insights. now rewrite Hlen. }
  pose proof (rule_insights_parts data detections threshold) as Hparts.
  pose proof (rule_spikes_warnings data) as Hspikes.
  pose proof (cluster_scan_critical
                (map timestampCenter (filter isAnomaly detections))
                (length (map timestampCenter (filter isAnomaly detections)) - 2) 0)
    as Hcluster.
  fold (rule_cluster now detections []) in Hcluster.
  assert (Hlevel : exists e, rule_level toFixed now data [] = [e]
                    /\ (type e = critical -> id e = "low-moisture"%string)
                    /\ String.eqb (id e) "stable" = false
                    /\ String.eqb (id e) "high-rate" = false).
  { unfold rule_level. cbv zeta. destruct (lt _ _); [|destruct (gt _ _)];
      eexists; (split; [reflexivity|]); cbn [type id]; repeat split; discriminate. }
  destruct Hlevel as (e & Hlevel & Hlow & Hls & Hlh).
  assert (Htrend : Forall (fun x => type x <> critical
                                    /\ String.eqb (id x) "stable" = false
                                    /\ String.eqb (id x) "high-rate" = false)
                     (rule_trend toFixed now data [])).
  { unfold rule_trend. cbv zeta.
    destruct (20 <=? _); [|constructor].
    destruct (Arr.get _ 19); [|constructor]. destruct (Arr.get _ 0); [|constructor].
    destruct (lt _ _); [|destruct (gt _ _)]; repeat constructor; discriminate. }
  assert (Hthr : Forall (fun x => type x <> critical
                                  /\ String.eqb (id x) "stable" = false
                                  /\ String.eqb (id x) "high-rate" = false)
                   (rule_threshold toFixed now detections threshold [])).
  { unfold rule_threshold. cbv zeta.
    destruct (_ && _); repeat constructor; discriminate. }
  assert (Hrate := rate_exceeds detections).
  split; [|split; [|split]].
  - subst out. unfold generateInsights. rewrite Hlen, slice_firstn by lia.
    intro Hnil.
    assert (Hsorted : length (Arr.sort (@by_severity Date)
                        (rule_insights toFixed now data detections threshold))
                      = length (rule_insights toFixed now data detections threshold)).
    { apply Permutation_length, (sort_perm rank). }
    apply (f_equal (@length _)) in Hnil. rewrite length_firstn in Hnil.
    cbn [length] in Hnil. rewrite Hsorted, Hparts, Hlevel in Hnil.
    rewrite !length_app in Hnil. cbn [length] in Hnil. lia.
  - rewrite Hemitted, Hparts, !emits_app.
    rewrite (@emits_none "stable" _ _ Hspikes),
            (@emits_none "stable" _ _ Htrend),
            (@emits_none "stable" _ _ Hthr),
            (@emits_none "stable" _ _ Hcluster), Hlevel.
    + cbn [emits existsb]. rewrite Hls.
      unfold rule_stable, rule_high_rate. cbv zeta.
      unfold anomalyCount. fold (anomalies detections).
      destruct (anomalies detections =? 0); destruct (gt _ _); reflexivity.
    + intros x (_ & z & ->). reflexivity.
    + now intros x (_ & H & _).
    + now intros x (_ & H & _).
    + intros x (_ & z & ->). reflexivity.
  - rewrite Hemitted, Hparts, !emits_app.
    rewrite (@emits_none "high-rate" _ _ Hspikes),
            (@emits_none "high-rate" _ _ Htrend),
            (@emits_none "high-rate" _ _ Hthr),
            (@emits_none "high-rate" _ _ Hcluster), Hlevel.
    + cbn [emits existsb]. rewrite Hlh.
      unfold rule_stable, rule_high_rate. cbv zeta. rewrite Hrate.
      destruct (anomalyCount detections =? 0); destruct (_ <? _); reflexivity.
    + intros x (_ & z & ->). reflexivity.
    + now intros x (_ & _ & H).
    + now intros x (_ & _ & H).
    + intros x (_ & z & ->). reflexivity.
  - intros Hnone x Hx Hcrit. apply emitted_members in Hx. rewrite Hparts in Hx.
    assert (Hfilter : filter isAnomaly detections = []).
    { unfold anomalies in Hnone. destruct (filter isAnomaly detections); [reflexivity|].
      cbn [length] in Hnone. lia. }
    repeat (apply in_app_or in Hx; destruct Hx as [Hx | Hx]).
    + unfold rule_stable, anomalyCount in Hx. rewrite Hfilter in Hx.
      cbn in Hx. destruct Hx as [<- | []]. discriminate.
    + unfold rule_high_rate in Hx. cbv zeta in Hx. rewrite Hrate, Hnone in Hx.
      destruct (Z.ltb_spec (3 * Z.of_nat (length detections)) (20 * 0)); [lia|].
      destruct Hx.
    + rewrite Forall_forall in Hspikes. destruct (Hspikes x Hx) as [Hw _]. congruence.
    + rewrite Forall_forall in Htrend. destruct (Htrend x Hx) as [Hw _]. congruence.
    + rewrite Hlevel in Hx. destruct Hx as [<- | []]. now apply Hlow.
    + rewrite Forall_forall in Hthr. destruct (Hthr x Hx) as [Hw _]. congruence.
    + unfold rule_cluster in Hx. cbv zeta in Hx. rewrite Hfilter in Hx. destruct Hx.
Qed.

End InsightsMore.

(** On [late_anomalies] with one flagged window out of four, 'high-rate' is
    emitted and 'stable' is not. *)
Lemma generateInsights_status_witness :
  let detections :=
    AnomalyDetection.detectAnomalies [JS.Fin 1; JS.Fin 0; JS.Fin 0; JS.Fin 0]
      (JS.Fin (1 # 10)) 10 in
  let emitted :=
    emitted_insights (fun _ _ => EmptyString) tt late_anomalies detections
      (JS.Fin (1 # 10)) in
  emits "stable" emitted = false /\ emits "high-rate" emitted = true.
Proof.
  intros detections emitted.
  destruct (@generateInsights_status unit (fun _ _ => EmptyString) tt late_anomalies
              detections (JS.Fin (1 # 10)))
    as (_ & Hstable & Hrate & _).
  - discriminate.
  - split; [exact Hstable | exact Hrate].
Defined.

(** ** The anomaly report, read back *)

Section StringsMore.

Local Open Scope string_scope.

Lemma string_app_assoc (a b c : string) : (a ++ b) ++ c = a ++ (b ++ c).
Proof. induction a as [|x a IH]; cbn [append]; [reflexivity | now rewrite IH]. Qed.

Lemma string_app_nil (a : string) : a ++ "" = a.
Proof. induction a as [|x a IH]; cbn [append]; [reflexivity | now rewrite IH]. Qed.

Lemma all_chars_app (ok : ascii -> bool) (a b : string) :
  all_chars ok (a ++ b) = all_chars ok a && all_chars ok b.
Proof.
  induction a as [|x a IH]; cbn [append all_chars]; [reflexivity|].
  now rewrite IH, andb_assoc.
Qed.

Lemma all_chars_impl (ok1 ok2 : ascii -> bool) (s : string) :
  (forall c, ok1 c = true -> ok2 c = true) ->
  all_chars ok1 s = true -> all_chars ok2 s = true.
Proof.
  intro H. induction s as [|x s IH]; cbn [all_chars]; [reflexivity|].
  intro Hs. apply andb_prop in Hs. destruct Hs as [Hx Hs].
  now rewrite (H x Hx), IH.
Qed.

Lemma rev_append_app (a b acc : string) :
  Str.rev_append (a ++ b) acc = Str.rev_append b (Str.rev_append a acc).
Proof.
  revert acc. induction a as [|x a IH]; intro acc; cbn [append Str.rev_append];
    [reflexivity | apply IH].
Qed.

Lemma rev_append_rev (s : string) :
  forall a b, Str.rev_append (Str.rev_append s a) b = Str.rev_append a (s ++ b).
Proof.
  induction s as [|x s IH]; intros a b; cbn [Str.rev_append append]; [reflexivity|].
  now rewrite IH.
Qed.

Lemma rev_rev (s : string) : Str.rev (Str.rev s) = s.
Proof. unfold Str.rev. rewrite rev_append_rev. cbn [Str.rev_append]. apply string_app_nil. Qed.

Lemma all_chars_rev_append (ok : ascii -> bool) (s : string) :
  forall acc,
    all_chars ok (Str.rev_append s acc) = all_chars ok s && all_chars ok acc.
Proof.
  induction s as [|x s IH]; intro acc; cbn [Str.rev_append all_chars]; [reflexivity|].
  rewrite IH. cbn [all_chars].
  now destruct (ok x), (all_chars ok s), (all_chars ok acc).
Qed.

Lemma trim_start_plain (s : string) :
  all_chars (fun c => negb (Str.is_space c)) s = true -> Str.trim_start s = s.
Proof.
  destruct s as [|x s]; [reflexivity|]. cbn [all_chars Str.trim_start].
  intro H. apply andb_prop in H. destruct H as [Hx _].
  apply negb_true_iff in Hx. now rewrite Hx.
Qed.

(** Trimming leaves a string without white space as it is. *)
Lemma trim_plain (s : string) :
  all_chars (fun c => negb (Str.is_space c)) s = true -> Str.trim s = s.
Proof.
  intro H. unfold Str.trim. rewrite (trim_start_plain s H).
  rewrite trim_start_plain; [apply rev_rev|].
  unfold Str.rev. now rewrite all_chars_rev_append, H.
Qed.

(** Trimming leaves a string as it is when neither its first nor its last
    character is white space. *)
Lemma trim_ends (c0 cl : ascii) (s : string) :
  Str.is_space c0 = false -> Str.is_space cl = false ->
  ends_with cl (String c0 s) -> Str.trim (String c0 s) = String c0 s.
Proof.
  intros H0 Hl [a Ha]. unfold Str.trim. cbn [Str.trim_start]. rewrite H0.
  rewrite Ha at 1. unfold Str.rev at 2. rewrite rev_append_app.
  cbn [Str.rev_append Str.trim_start]. rewrite Hl.
  change (String cl (Str.rev_append a "")) with (Str.rev_append (String cl "") (Str.rev_append a "")).
  rewrite <- rev_append_app, <- Ha. apply (rev_rev (String c0 s)).
Qed.

Lemma ends_with_app (c : ascii) (a b : string) : ends_with c b -> ends_with c (a ++ b).
Proof. intros [x ->]. exists (a ++ x). now rewrite string_app_assoc. Qed.

Lemma join_ends (c : ascii) (sep : string) (l : list string) :
  l <> [] -> Forall (ends_with c) l -> ends_with c (Reports.join sep l).
Proof.
  intros Hl Hall. induction Hall as [|x l Hx Hall IH]; [contradiction|].
  destruct l as [|y l]; [exact Hx|].
  change (Reports.join sep (x :: y :: l)) with (x ++ sep ++ Reports.join sep (y :: l)).
  do 2 apply ends_with_app. apply IH. discriminate.
Qed.

Lemma split_sep (c : ascii) (a b : string) :
  all_chars (fun x => negb (Ascii.eqb x c)) a = true ->
  Str.split c (a ++ String c b) = a :: Str.split c b.
Proof.
  induction a as [|x a IH]; cbn [append all_chars Str.split].
  - intros _. now rewrite Ascii.eqb_refl.
  - intro H. apply andb_prop in H. destruct H as [Hx Ha].
    apply negb_true_iff in Hx. rewrite Hx, (IH Ha). reflexivity.
Qed.

Lemma split_none (c : ascii) (a : string) :
  all_chars (fun x => negb (Ascii.eqb x c)) a = true -> Str.split c a = [a].
Proof.
  induction a as [|x a IH]; cbn [all_chars Str.split]; [reflexivity|].
  intro H. apply andb_prop in H. destruct H as [Hx Ha].
  apply negb_true_iff in Hx. rewrite Hx, (IH Ha). reflexivity.
Qed.

(** Splitting the joined lines gives the lines back. *)
Lemma split_join (c : ascii) (l : list string) :
  l <> [] ->
  Forall (fun s => all_chars (fun x => negb (Ascii.eqb x c)) s = true) l ->
  Str.split c (Reports.join (String c "") l) = l.
Proof.
  intros Hl Hall. induction Hall as [|x l Hx Hall IH]; [contradiction|].
  destruct l as [|y l]; [now apply split_none|].
  change (Reports.join (String c "") (x :: y :: l))
    with (x ++ String c (Reports.join (String c "") (y :: l))).
  rewrite (split_sep c x _ Hx), IH; [reflexivity | discriminate].
Qed.

Lemma plain_uint (d : Decimal.uint) : all_chars plain (NilEmpty.string_of_uint d) = true.
Proof. induction d; cbn [NilEmpty.string_of_uint all_chars]; try reflexivity; exact IHd. Qed.

(** A printed integer holds digits and a sign only. *)
Lemma plain_of_Z (z : Z) : all_chars plain (Str.of_Z z) = true.
Proof.
  unfold Str.of_Z, NilZero.string_of_int, NilZero.string_of_uint.
  destruct (Z.to_int z) as [d | d]; destruct d; try reflexivity;
    try apply (plain_uint (_ d)); cbn [all_chars]; try apply (plain_uint (_ d)).
Qed.

End StringsMore.

Section ReportMore.

Local Open Scope Z_scope.

Import DataGenerator AnomalyDetection Reports JS.

Variable parseInt : string -> num.
Variable parseFloat : string -> num.
Variable toFixed : num -> nat -> string.

Hypothesis toFixed_plain : forall x d, all_chars plain (toFixed x d) = true.

Lemma plain_no (c : ascii) (s : string) :
  plain c = false -> all_chars plain s = true ->
  all_chars (fun x => negb (Ascii.eqb x c)) s = true.
Proof.
  intro Hc. apply all_chars_impl. intros x Hx.
  apply negb_true_iff, Ascii.eqb_neq. intros ->. congruence.
Qed.

Lemma plain_no_space (s : string) :
  all_chars plain s = true -> all_chars (fun x => negb (Str.is_space x)) s = true.
Proof.
  apply all_chars_impl. intros x Hx. unfold plain in Hx.
  apply andb_prop in Hx. now destruct Hx as [_ Hx].
Qed.

Lemma moisture_text_plain (moistureData : list SoilDataPoint) (d : DetectionResult) :
  all_chars plain (moisture_text toFixed moistureData d) = true.
Proof. unfold moisture_text. destruct (Arr.get _ _); [apply toFixed_plain | reflexivity]. Qed.

Lemma report_row_fields (moistureData : list SoilDataPoint) (d : DetectionResult) :
  exists rest,
    report_row toFixed moistureData d
    = (Str.of_Z (timestampCenter d)
       ++ String "," (moisture_text toFixed moistureData d ++ String "," rest))%string.
Proof. unfold report_row, moisture_text. cbv zeta. eexists. reflexivity. Qed.

Lemma report_row_line (moistureData : list SoilDataPoint) (d : DetectionResult) :
  all_chars (fun x => negb (Ascii.eqb x "010")) (report_row toFixed moistureData d) = true
  /\ ends_with "%" (report_row toFixed moistureData d).
Proof.
  unfold report_row. cbv zeta. fold (moisture_text toFixed moistureData d). split.
  - rewrite !all_chars_app.
    rewrite (plain_no "010" _ eq_refl (plain_of_Z _)),
            (plain_no "010" _ eq_refl (moisture_text_plain _ _)),
            !(plain_no "010" _ eq_refl (toFixed_plain _ _)).
    reflexivity.
  - repeat apply ends_with_app. now exists EmptyString.
Qed.

(** The lines of the report: the header and one row per anomaly. *)
Lemma report_lines (detections : list DetectionResult) (moistureData : list SoilDataPoint)
  (windowSize : Z) :
  csv_lines (buildAnomalyReportCSV toFixed detections moistureData windowSize)
  = report_header_line
    :: map (report_row toFixed moistureData) (filter isAnomaly detections).
Proof.
  unfold buildAnomalyReportCSV, csv_lines. cbv zeta.
  assert (Hrows : Forall (fun s => all_chars (fun x => negb (Ascii.eqb x "010")) s = true
                                   /\ ends_with "%" s)
                    (map (report_row toFixed moistureData) (filter isAnomaly detections))).
  { apply Forall_map, Forall_forall. intros d _. apply report_row_line. }
  remember (map (report_row toFixed moistureData) (filter isAnomaly detections))
    as rows0 eqn:E. clear E.
  assert (Hcases : rows0 = [] \/ rows0 <> []).
  { destruct rows0; [now left | right; discriminate]. }
  destruct Hcases as [-> | Hne]; [reflexivity|].
  change (report_header ++ join newline rows0)%string
    with (report_header_line ++ String "010" (join newline rows0))%string.
  unfold report_header_line at 1. cbn [append].
  rewrite trim_ends with (cl := "%"%char); [| reflexivity | reflexivity |].
  - match goal with
    | |- Str.split _ ?t = _ =>
        change t with (report_header_line ++ String "010" (join newline rows0))%string
    end.
    rewrite split_sep by reflexivity. f_equal.
    apply split_join; [exact Hne|].
    revert Hrows. apply Forall_impl. now intros s [Hs _].
  - match goal with
    | |- ends_with _ ?t =>
        change t with (report_header_line ++ String "010" (join newline rows0))%string
    end.
    do 1 apply ends_with_app.
    change (String "010" (join newline rows0)) with (newline ++ join newline rows0)%string.
    apply ends_with_app, join_ends; [exact Hne|].
    revert Hrows. apply Forall_impl. now intros s [_ Hs].
Qed.

(** X21.  The anomaly report read back by [parseCSV]: one sample per detected
    anomaly, in order, none of them labelled as an anomaly; its timestamp is
    parsed from the printed center of the window and its moisture from the
    moisture printed with two decimals (or is 50 where that does not
    parse). *)
Theorem buildAnomalyReportCSV_reimport (detections : list DetectionResult)
  (moistureData : list SoilDataPoint) (windowSize : Z) (i : nat) (d : DetectionResult) :
  nth_error (filter isAnomaly detections) i = Some d ->
  let rows :=
    parseCSV parseInt parseFloat
      (buildAnomalyReportCSV toFixed detections moistureData windowSize) in
  length rows = flagged detections
  /\ exists p,
       nth_error rows i = Some p
       /\ DataGenerator.isAnomaly p = false
       /\ DataGenerator.timestamp p
          = or_else (parseInt (Str.of_Z (timestampCenter d))) (of_Z (Z.of_nat i))
       /\ DataGenerator.moisture p
          = or_else (parseFloat (moisture_text toFixed moistureData d)) (Fin 50).
Proof.
  intros Hd rows. subst rows.
  rewrite parseCSV_unfiltered, report_lines. cbn [hd tl]. unfold Arr.mapi.
  split; [now rewrite mapi_from_length, length_map|].
  rewrite (mapi_from_nth _ _ _ _ (map_nth_error (report_row toFixed moistureData) _ _ Hd)).
  eexists. split; [reflexivity|].
  change (Str.includes "moisture" (Str.toLowerCase report_header_line)) with true.
  unfold parse_line. cbv zeta.
  destruct (report_row_fields moistureData d) as (rest & ->).
  rewrite split_sep by apply (plain_no "," _ eq_refl (plain_of_Z _)).
  rewrite split_sep by apply (plain_no "," _ eq_refl (moisture_text_plain _ _)).
  cbn [map]. unfold field, Arr.get. cbn [Z.ltb Z.compare Z.to_nat nth_error Pos.to_nat
                                         Pos.iter_op Nat.add].
  rewrite (trim_plain _ (plain_no_space _ (plain_of_Z _))),
          (trim_plain _ (plain_no_space _ (moisture_text_plain _ _))).
  cbn [DataGenerator.isAnomaly DataGenerator.timestamp DataGenerator.moisture].
  rewrite Z.add_0_l. repeat split.
Qed.

End ReportMore.

Lemma print_floor_plain (x : JS.num) (d : nat) : all_chars plain (print_floor x d) = true.
Proof. destruct x; [apply plain_of_Z | reflexivity..]. Qed.

(** One flagged window, centered at sample 5 of [late_anomalies]: the
    report read back holds that sample. *)
Lemma buildAnomalyReportCSV_reimport_witness :
  let detections := AnomalyDetection.detectAnomalies [JS.Fin 1] (JS.Fin (1 # 10)) 10 in
  exists p,
    nth_error (DataGenerator.parseCSV parse_digits parse_digits
                 (Reports.buildAnomalyReportCSV print_floor detections late_anomalies 10))
      0 = Some p
    /\ DataGenerator.timestamp p = JS.Fin 5
    /\ DataGenerator.moisture p = JS.Fin 50.
Proof.
  intro detections.
  assert (Hd : nth_error (filter AnomalyDetection.isAnomaly detections) 0
               = Some (AnomalyDetection.detect_one (JS.Fin (1 # 10)) 10 (JS.Fin 1) 0))
    by (vm_compute; reflexivity).
  destruct (@buildAnomalyReportCSV_reimport parse_digits parse_digits print_floor
              print_floor_plain detections late_anomalies 10%Z 0%nat _ Hd)
    as (_ & p & Hp & _ & Ht & Hm).
  exists p. split; [exact Hp|]. rewrite Ht, Hm. split; vm_compute; reflexivity.
Defined.

(** ** Generated data *)

Section GenerateMore.

Local Open Scope Z_scope.

Import DataGenerator AutoencoderModel Index Page JS.

Variable sin : Q -> Q.
Variable rand : nat -> Q.
Variable Network : Type.
Variable buildAutoencoder : Z -> Network.
Variable fit_epoch : list (list num) -> nat -> Z -> Network -> Network * option num.
Variable shape_error : list (list num) -> string.

Hypothesis rand_unit : forall k, (0 <= rand k < 1)%Q.

Lemma anomalyValue_bands (b a : Q) (spike : bool) :
  (20 <= b <= 80)%Q -> (0 <= a <= 1)%Q ->
  let magnitude := add (Fin 20) (mul (Fin a) (Fin 30)) in
  match (if spike then min2 (Fin 100) (add (Fin b) magnitude)
         else max2 (Fin 0) (sub (Fin b) magnitude)) with
  | Fin m => (0 <= m <= 60 - 30 * a)%Q \/ (40 + 30 * a <= m <= 100)%Q
  | _ => False
  end.
Proof.
  intros Hb Ha magnitude. subst magnitude. cbn [mul add sub].
  set (mag := Qred (20 + Qred (a * 30))).
  assert (Hmag : (mag == 20 + 30 * a)%Q).
  { subst mag. rewrite !Qred_correct. ring. }
  destruct spike.
  - cbn [min2 lt]. destruct (Qltb (Qred (b + mag)) 100) eqn:E.
    + apply Qltb_true in E. rewrite Qred_correct in *. right. lra.
    + right. lra.
  - cbn [max2 lt]. destruct (Qltb 0 (Qred (b - mag))) eqn:E.
    + apply Qltb_true in E. rewrite Qred_correct in *. left. lra.
    + left. lra.
Qed.

Lemma generate_point_banded (a : Q) (s : list Z) (i : Z) (data : list SoilDataPoint)
  (k : nat) :
  (0 <= a <= 1)%Q ->
  exists p k',
    generate_point sin rand (Fin a) (map of_Z s) i data k = (data ++ [p], k')
    /\ isAnomaly p = zmem s i
    /\ banded a p.
Proof.
  intro Ha. unfold generate_point. unfold bind at 1.
  destruct (generateNormalMoisture_within sin rand i k) as [Hbase Hk].
  destruct (generateNormalMoisture sin rand i k) as [base k1]. cbn [fst snd] in *.
  rewrite set_has_of_Z.
  destruct base as [b| | |]; try contradiction. cbn [within] in Hbase.
  destruct (zmem s i) eqn:E.
  - unfold bind, Math_random, ret. eexists; eexists. split; [reflexivity|].
    unfold banded. cbn [isAnomaly moisture]. split; [reflexivity|].
    apply (anomalyValue_bands (gt (Fin (rand k1)) (Fin (1 # 2))) Hbase Ha).
  - unfold ret. eexists; eexists. split; [reflexivity|].
    unfold banded. cbn [isAnomaly moisture]. split; [reflexivity | exact Hbase].
Qed.

Lemma for_rand_banded (a : Q) (s : list Z) (n : nat) :
  (0 <= a <= 1)%Q ->
  forall i data k,
  exists pts k',
    for_rand i n (generate_point sin rand (Fin a) (map of_Z s)) data k
    = (data ++ pts, k')
    /\ Forall2 (fun j p => isAnomaly p = zmem s j /\ banded a p) (zrange i n) pts.
Proof.
  intro Ha. induction n as [|n IH]; intros i data k.
  - exists [], k. cbn [for_rand]. unfold ret. rewrite app_nil_r. split; constructor.
  - cbn [for_rand]. unfold bind at 1.
    destruct (generate_point_banded s i data k Ha) as (p & k1 & -> & Hp).
    destruct (IH (i + 1) (data ++ [p]) k1) as (pts & k' & -> & Hpts).
    exists (p :: pts), k'. rewrite <- app_assoc. split; [reflexivity|].
    cbn [zrange]. now constructor.
Qed.

(** The series of a run whose source yields enough distinct indices. *)
Lemma generateSoilData_points (fuel : nat) (numPoints : Z) (a : Q) :
  40 < numPoints ->
  (0 <= a <= 1)%Q ->
  8 * numPoints / 100 <= Z.of_nat (length (distinct_draws rand numPoints fuel)) ->
  exists s data,
    generateSoilData sin rand fuel numPoints (Fin a) = Some data
    /\ inner numPoints s
    /\ Z.of_nat (length s) = 8 * numPoints / 100
    /\ Forall2 (fun j p => isAnomaly p = zmem s j /\ banded a p)
         (zrange 0 (Z.to_nat numPoints)) data.
Proof.
  intros Hn Ha Hdraws.
  unfold generateSoilData, generateSoilData_rand.
  rewrite floor_eight_percent, fill_anomalySet_loop.
  set (count := 8 * numPoints / 100) in *.
  assert (Hcount : 0 <= count) by (apply Z.div_pos; lia).
  destruct (@fill_terminates rand rand_unit numPoints count fuel Hn [] 0%nat)
    as (s & k1 & Hfill & Hinner & Hlen).
  { split; [constructor | intros z []]. }
  { cbn [length]. lia. }
  { exact Hdraws. }
  change (@nil num) with (map of_Z []). unfold bind at 1. rewrite Hfill.
  unfold bind at 1.
  destruct (for_rand_banded s (Z.to_nat numPoints) Ha 0 [] k1) as (pts & k2 & -> & Hpts).
  cbn [app]. unfold ret. cbn [fst]. exists s, pts.
  split; [reflexivity|]. split; [exact Hinner|]. split; [exact Hlen | exact Hpts].
Qed.

(** X18.  In a generated series a sample that is no anomaly has its moisture in
    [[20, 80]], and an anomaly at intensity [a] has it in [[0, 60 - 30 a]]
    (a drop) or in [[40 + 30 a, 100]] (a spike). *)
Theorem generateSoilData_bands (fuel : nat) (numPoints : Z) (a : Q) :
  40 < numPoints ->
  (0 <= a <= 1)%Q ->
  8 * numPoints / 100 <= Z.of_nat (length (distinct_draws rand numPoints fuel)) ->
  exists data,
    generateSoilData sin rand fuel numPoints (Fin a) = Some data
    /\ Forall (banded a) data.
Proof.
  intros Hn Ha Hdraws.
  destruct (@generateSoilData_points fuel numPoints a Hn Ha Hdraws) as (s & data & -> & _ & _ & Hpts).
  exists data. split; [reflexivity|].
  clear - Hpts. induction Hpts as [|j p idxs pts (_ & Hp) _ IH]; constructor; auto.
Qed.

Lemma banded_tail (s : list Z) (a : Q) (numPoints : Z) (data : list SoilDataPoint)
  (W : nat) :
  inner numPoints s ->
  Forall2 (fun j p => isAnomaly p = zmem s j /\ banded a p)
    (zrange 0 (Z.to_nat numPoints)) data ->
  numPoints - 20 <= Z.of_nat W ->
  filter isAnomaly (skipn W data) = [].
Proof.
  intros [_ Hin] Hpts HW.
  assert (Hall : Forall (fun p => isAnomaly p = false) (skipn W data)).
  { apply Forall_forall. intros p Hp. apply In_nth_error in Hp. destruct Hp as (j & Hj).
    rewrite nth_error_skipn in Hj.
    assert (Hlt : (W + j < length data)%nat) by (apply nth_error_Some; congruence).
    rewrite <- (Forall2_length Hpts), zrange_length in Hlt.
    pose proof (@zrange_nth (Z.to_nat numPoints) 0 (W + j) Hlt) as Hidx.
    destruct (Forall2_at Hpts (W + j) Hidx Hj) as [Hflag _].
    destruct (zmem s (0 + Z.of_nat (W + j))) eqn:E; [|exact Hflag].
    apply zmem_In, Hin in E. lia. }
  induction Hall as [|p l Hp _ IH]; cbn [filter]; [reflexivity | now rewrite Hp].
Qed.

(** X19.  Generated data can always be trained on: of the [numPoints - 9] windows
    all but the [floor(0.08 numPoints)] that start at an anomaly are used,
    which is never fewer than 10. *)
Theorem handleGenerateData_trains (fuel : nat) (numPoints : Z) (a : Q)
  (shown0 : Progress) :
  40 < numPoints ->
  (0 <= a <= 1)%Q ->
  8 * numPoints / 100 <= Z.of_nat (length (distinct_draws rand numPoints fuel)) ->
  exists page norm st history shown,
    handleGenerateData sin rand fuel numPoints (Fin a) = Some page
    /\ normalizedRef page = Some norm
    /\ Z.of_nat (length (normalWindows (soilData page) norm))
       = numPoints - 9 - 8 * numPoints / 100
    /\ handleTrain buildAutoencoder fit_epoch shape_error (soilData page)
         (normalizedRef page) shown0
       = ModelTrained st history shown.
Proof.
  intros Hn Ha Hdraws.
  destruct (@generateSoilData_points fuel numPoints a Hn Ha Hdraws)
    as (s & data & Hrun & Hinner & Hlen & Hpts).
  unfold handleGenerateData. rewrite Hrun.
  assert (Hdata : length data = Z.to_nat numPoints).
  { rewrite <- (Forall2_length Hpts). apply zrange_length. }
  pose proof (@load_windows data (normalized_of data) eq_refl) as Hw.
  set (W := length (normalized (normalized_of data))) in *.
  assert (Hcount : Z.of_nat (length (normalWindows data (normalized_of data)))
                   = numPoints - 9 - 8 * numPoints / 100).
  { rewrite normalWindows_count. fold W.
    pose proof (filter_length isAnomaly (firstn W data)) as Hsplit.
    rewrite length_firstn in Hsplit.
    assert (Hanom : length (filter isAnomaly (firstn W data)) = length s).
    { rewrite <- (@members_count s 0 (Z.to_nat numPoints) (proj1 Hinner)).
      - assert (Hpo : Forall2 (fun j p => isAnomaly p = zmem s j)
                        (zrange 0 (Z.to_nat numPoints)) data).
        { clear - Hpts. induction Hpts as [|j p idxs pts [Hp _] _ IH]; constructor; auto. }
        transitivity (length (filter isAnomaly data)).
        + rewrite <- (firstn_skipn W data) at 2.
          rewrite filter_app, (@banded_tail s a numPoints data W Hinner Hpts) by lia.
          now rewrite app_nil_r.
        + clear - Hpo. induction Hpo as [|j p idxs pts Hp _ IH]; [reflexivity|].
          cbn [filter]. rewrite Hp. destruct (zmem s j); cbn [length]; now rewrite IH.
      - intros z Hz. apply (proj2 Hinner) in Hz. lia. }
    lia. }
  assert (Hcount_bound : 8 * numPoints / 100 <= numPoints - 19).
  { assert (8 * numPoints / 100 <= numPoints / 10).
    { apply Z.div_le_lower_bound; [lia|].
      pose proof (Z.mul_div_le (8 * numPoints) 100). lia. }
    pose proof (Z.mul_div_le numPoints 10). lia. }
  assert (Htrain : exists st history shown,
            handleTrain buildAutoencoder fit_epoch shape_error data
              (Some (normalized_of data)) shown0
            = ModelTrained st history shown).
  { destruct (@handleTrain_loaded Network buildAutoencoder fit_epoch shape_error data
                shown0) as (m & ls & -> & _); [lia|].
    now do 3 eexists. }
  destruct Htrain as (st & history & shown & Htrain).
  exists (load data), (normalized_of data), st, history, shown.
  split; [reflexivity|]. split; [reflexivity|]. split; [exact Hcount | exact Htrain].
Qed.

End GenerateMore.

(** A hundred samples from [cycle_source] at intensity 1/2: every sample
    lies in its band. *)
Lemma generateSoilData_bands_witness :
  exists data,
    DataGenerator.generateSoilData (fun _ => 0) cycle_source 50 100 (JS.Fin (1 # 2))
    = Some data
    /\ Forall (banded (1 # 2)) data.
Proof.
  apply (@generateSoilData_bands (fun _ => 0) cycle_source cycle_source_unit 50 100%Z
           (1 # 2)).
  - reflexivity.
  - split; vm_compute; discriminate.
  - vm_compute. discriminate.
Defined.

(** The same hundred samples are trained on with 83 of their 91 windows. *)
Lemma handleGenerateData_trains_witness :
  exists page norm st history shown,
    Page.handleGenerateData (fun _ => 0) cycle_source 50 100 (JS.Fin (1 # 2)) = Some page
    /\ Page.normalizedRef page = Some norm
    /\ Z.of_nat (length (Index.normalWindows (Page.soilData page) norm)) = 83%Z
    /\ Index.handleTrain (fun _ => tt) (fun _ _ _ m => (m, Some (JS.Fin 0)))
         (fun _ => EmptyString) (Page.soilData page) (Page.normalizedRef page) idle
       = Index.ModelTrained st history shown.
Proof.
  apply (@handleGenerateData_trains (fun _ => 0) cycle_source unit (fun _ => tt)
           (fun _ _ _ m => (m, Some (JS.Fin 0))) (fun _ => EmptyString)
           cycle_source_unit 50 100%Z (1 # 2) idle).
  - reflexivity.
  - split; vm_compute; discriminate.
  - vm_compute. discriminate.
Defined.
